(** * Route recommendation engine of the travel agent: a shallow embedding

    The development follows [app/core/recommender.py] (class
    [RouteRecommender]), [app/core/advanced_recommender.py] (class
    [AdvancedRouteRecommender]) and [app/core/config.py], and the callers
    of [RouteRecommender] in [app/api/routes.py] and [app/api/chat.py].

    Conventions of the embedding.
    - Python [float] (and the numbers decoded from JSON) are read as real
      numbers [R]: rounding, infinities and NaN are not modelled.
    - Python [int] is [Z]; [str] is [string] (a byte string; [str.lower]
      is modelled on ASCII letters, every other byte is left alone, which
      is what Python does for caseless scripts such as Persian).
    - A Python exception is a value [Raise e] of the type [result];
      [try/except Exception] is [try_except].
    - [self.cities_data] is a store that a call threads through: the
      functions that write to a city dictionary return the new store. *)

From Stdlib Require Import Reals Lra Lia ZArith List String Ascii Sorted.
From stdpp Require Import base decidable option list strings gmap.
Import ListNotations.

Open Scope R_scope.

(** ** Python prelude *)

Module Py.

Inductive exn : Set :=
| ZeroDivisionError
| TypeError
| KeyError
| ValueError.

Inductive result (A : Type) : Type :=
| Ok (a : A)
| Raise (e : exn).
Arguments Ok {A} a.
Arguments Raise {A} e.

#[export] Instance result_ret : MRet result := fun _ a => Ok a.
#[export] Instance result_bind : MBind result := fun _ _ f m =>
  match m with
  | Ok a => f a
  | Raise e => Raise e
  end.

(** [try: body except Exception: return dflt] *)
Definition try_except {A} (body : result A) (dflt : A) : A :=
  match body with
  | Ok a => a
  | Raise _ => dflt
  end.

#[export] Instance Rlt_decision : RelDecision Rlt := Rlt_dec.
#[export] Instance Rle_decision : RelDecision Rle := Rle_dec.
#[export] Instance Rgt_decision : RelDecision Rgt := Rgt_dec.
#[export] Instance R_eq_decision : EqDecision R := Req_dec_T.

(** [x / y] on numbers: division by zero raises. *)
Definition div (x y : R) : result R :=
  if decide (y = 0) then Raise ZeroDivisionError else Ok (x / y).

(** Truth value of a number or [None]: [None] and zero are false. *)
Definition truthy (v : option R) : bool :=
  match v with
  | None => false
  | Some x => if decide (x = 0) then false else true
  end.

Definition truthy_int (v : option Z) : bool :=
  match v with
  | None => false
  | Some n => negb (n =? 0)%Z
  end.

(** [all(xs)] *)
Definition all (xs : list (option R)) : bool := forallb truthy xs.

(** [str.lower()] *)
Definition lower_ascii (c : ascii) : ascii :=
  let n := nat_of_ascii c in
  if ((65 <=? n) && (n <=? 90))%nat then ascii_of_nat (n + 32) else c.

Fixpoint lower (s : string) : string :=
  match s with
  | EmptyString => EmptyString
  | String c s' => String (lower_ascii c) (lower s')
  end.

(** [l[:n]] for an integer [n]: a negative [n] counts from the end. *)
Definition slice_to {A} (l : list A) (n : Z) : list A :=
  if (n <? 0)%Z then firstn (length l - Z.to_nat (- n)) l
  else firstn (Z.to_nat n) l.

(** [list.sort(key=...)]: stable, ascending in the key. *)
Section Sort.
Context {A : Type} (key : A -> R).

Fixpoint insert_asc (x : A) (l : list A) : list A :=
  match l with
  | [] => [x]
  | y :: l' =>
      if decide (key x <= key y) then x :: y :: l'
      else y :: insert_asc x l'
  end.

Definition sort_asc (l : list A) : list A := foldr insert_asc [] l.

(** [list.sort(key=..., reverse=True)]: stable, descending. *)
Fixpoint insert_desc (x : A) (l : list A) : list A :=
  match l with
  | [] => [x]
  | y :: l' =>
      if decide (key y <= key x) then x :: y :: l'
      else y :: insert_desc x l'
  end.

Definition sort_desc (l : list A) : list A := foldr insert_desc [] l.
End Sort.

End Py.
Import Py.

(** ** [app/core/config.py] *)

Module settings.
Definition max_routes_per_request : Z := 5.

Definition default_route_preferences : gmap string R :=
  <["fastest"%string := 0.3]>
  (<["cheapest"%string := 0.3]>
  (<["scenic"%string := 0.2]>
  (<["quiet"%string := 0.2]> ∅))).
End settings.

(** ** [app/core/recommender.py]: class [RouteRecommender] *)

Module RouteRecommender.

(** An entry of [cities.json]. The keys ["population"] and
    ["detour_ratio"] may be absent; the second one is written by
    [_find_intermediate_cities]. *)
Record city : Type := mk_city {
  name : string;
  country : string;
  lat : R;
  lng : R;
  population : option R;
  detour_ratio : option R
}.

(** [city["detour_ratio"] = r] *)
Definition set_detour_ratio (c : city) (r : R) : city :=
  {| name := name c; country := country c; lat := lat c; lng := lng c;
     population := population c; detour_ratio := Some r |}.

(** An entry of [attractions.json]. *)
Record attraction : Type := mk_attraction {
  a_name : string;
  a_city : string;
  a_category : string;
  a_lat : R;
  a_lng : R;
  a_rating : R
}.

Record segment : Type := mk_segment {
  seg_origin : string;
  seg_destination : string
}.

(** The route dictionary before its ["score"] is attached. *)
Record route : Type := mk_route {
  type : string;
  distance : R;
  duration : R;
  cost : R;
  attractions : list attraction;
  r_population : R;
  segments : list segment;
  intermediate_city : option string
}.

(** The route dictionary after [route["score"] = ...]. *)
Record scored_route : Type := mk_scored {
  route_of :> route;
  score : R
}.

(** The fields of [self] that [recommend_routes] reads or writes. *)
Record t : Type := mk {
  cities_data : list city;
  attractions_data : list attraction
}.

(** [preferences: Dict[str, float]] *)
Abbreviation preferences := (gmap string R).

(** [calculate_distance]: the haversine formula. *)
Definition radians (x : R) : R := x * PI / 180.

Definition calculate_distance (lat1 lng1 lat2 lng2 : R) : R :=
  let lat1 := radians lat1 in
  let lng1 := radians lng1 in
  let lat2 := radians lat2 in
  let lng2 := radians lng2 in
  let dlat := lat2 - lat1 in
  let dlng := lng2 - lng1 in
  let a := (sin (dlat / 2)) ^ 2 + cos lat1 * cos lat2 * (sin (dlng / 2)) ^ 2 in
  let c := 2 * asin (sqrt a) in
  6371 * c.

(** [find_city_coordinates]: the first entry whose lower-cased name is
    the lower-cased argument, else [(None, None)]. *)
Fixpoint find_city_coordinates (cities : list city) (city_name : string)
  : option R * option R :=
  match cities with
  | [] => (None, None)
  | c :: rest =>
      if decide (lower (name c) = lower city_name)
      then (Some (lat c), Some (lng c))
      else find_city_coordinates rest city_name
  end.

(** [get_route_score] *)
Definition get_route_score (route : route) (preferences : preferences)
  : result R :=
  let score := 0 in
  score ←
    match preferences !! "fastest"%string with
    | Some w =>
        speed_score ← div 1 (1 + distance route / 100);
        mret (score + w * speed_score)
    | None => mret score
    end;
  score ←
    match preferences !! "cheapest"%string with
    | Some w =>
        cost_score ← div 1 (1 + cost route / 1000);
        mret (score + w * cost_score)
    | None => mret score
    end;
  score ←
    match preferences !! "scenic"%string with
    | Some w =>
        let scenic_score :=
          Rmin (INR (length (attractions route)) / 10) 1 in
        mret (score + w * scenic_score)
    | None => mret score
    end;
  score ←
    match preferences !! "quiet"%string with
    | Some w =>
        quiet_score ← div 1 (1 + r_population route / 1000000);
        mret (score + w * quiet_score)
    | None => mret score
    end;
  mret score.

(** One iteration of the loop of [_find_intermediate_cities] on the
    catalog entry [c]: the entry as the iteration leaves it, and whether
    it was appended to [intermediate_cities]. *)
Definition intermediate_step
  (origin_lat origin_lng dest_lat dest_lng : R) (c : city)
  : result (city * bool) :=
  let dist_from_origin := calculate_distance origin_lat origin_lng (lat c) (lng c) in
  let dist_to_dest := calculate_distance (lat c) (lng c) dest_lat dest_lng in
  let direct_dist := calculate_distance origin_lat origin_lng dest_lat dest_lng in
  if decide (dist_from_origin < direct_dist /\ dist_to_dest < direct_dist) then
    detour_ratio ← div (dist_from_origin + dist_to_dest) direct_dist;
    if decide (detour_ratio < 1.5)
    then mret (set_detour_ratio c detour_ratio, true)
    else mret (c, false)
  else mret (c, false).

(** The loop itself. It returns the catalog as the loop leaves it (also
    when an iteration raises) and the entries appended, in catalog order. *)
Fixpoint intermediate_loop
  (origin_lat origin_lng dest_lat dest_lng : R) (cities : list city)
  : list city * result (list city) :=
  match cities with
  | [] => ([], Ok [])
  | c :: rest =>
      match intermediate_step origin_lat origin_lng dest_lat dest_lng c with
      | Raise e => (c :: rest, Raise e)
      | Ok (c', accepted) =>
          let '(rest', r) :=
            intermediate_loop origin_lat origin_lng dest_lat dest_lng rest in
          (c' :: rest',
           acc ← r; mret (if accepted then c' :: acc else acc))
      end
  end.

(** The sort key [lambda x: x["detour_ratio"]]. Python computes the key
    of every element before it sorts and raises [KeyError] where the key
    is absent. *)
Definition detour_key (c : city) : R := default 0 (detour_ratio c).

Definition has_detour_key (c : city) : result R :=
  match detour_ratio c with
  | Some r => Ok r
  | None => Raise KeyError
  end.

Fixpoint check_keys (l : list city) : result unit :=
  match l with
  | [] => Ok tt
  | c :: l' => _ ← has_detour_key c; check_keys l'
  end.

(** [_find_intermediate_cities]: the new catalog and the returned list. *)
Definition _find_intermediate_cities
  (self : t) (origin_lat origin_lng dest_lat dest_lng : R)
  : t * result (list city) :=
  let '(cities', r) :=
    intermediate_loop origin_lat origin_lng dest_lat dest_lng (cities_data self) in
  ({| cities_data := cities'; attractions_data := attractions_data self |},
   intermediate_cities ← r;
   _ ← check_keys intermediate_cities;
   mret (sort_asc detour_key intermediate_cities)).

(** [_create_route_with_stops] *)
Definition _create_route_with_stops
  (self : t) (origin destination : string) (intermediate_city : city)
  (preferences : preferences) : result scored_route :=
  let attractions :=
    filter (fun a => a_city a = name intermediate_city) (attractions_data self) in
  let '(origin_lat, origin_lng) := find_city_coordinates (cities_data self) origin in
  let '(dest_lat, dest_lng) := find_city_coordinates (cities_data self) destination in
  match origin_lat, origin_lng, dest_lat, dest_lng with
  | Some origin_lat, Some origin_lng, Some dest_lat, Some dest_lng =>
      let dist1 := calculate_distance origin_lat origin_lng
                     (lat intermediate_city) (lng intermediate_city) in
      let dist2 := calculate_distance (lat intermediate_city) (lng intermediate_city)
                     dest_lat dest_lng in
      let total_distance := dist1 + dist2 in
      let total_duration := total_distance / 80 + INR (length attractions) * 2 in
      let total_cost := total_distance * 0.5 + INR (length attractions) * 50 in
      let route :=
        {| type := "with_stops";
           distance := total_distance;
           duration := total_duration;
           cost := total_cost;
           attractions := attractions;
           r_population := default 0 (population intermediate_city);
           segments :=
             [ {| seg_origin := origin; seg_destination := name intermediate_city |};
               {| seg_origin := name intermediate_city; seg_destination := destination |} ];
           intermediate_city := Some (name intermediate_city) |} in
      score ← get_route_score route preferences;
      mret {| route_of := route; score := score |}
  | _, _, _, _ => Raise TypeError
  end.

(** The loop [for city in intermediate_cities[:3]] of [recommend_routes];
    a route dictionary is never empty, so [if route:] always appends. *)
Fixpoint routes_with_stops
  (self : t) (origin destination : string) (cities : list city)
  (preferences : preferences) : result (list scored_route) :=
  match cities with
  | [] => Ok []
  | c :: rest =>
      route ← _create_route_with_stops self origin destination c preferences;
      routes ← routes_with_stops self origin destination rest preferences;
      mret (route :: routes)
  end.

(** The dictionary [direct_route] of [recommend_routes]. *)
Definition direct_route (origin destination : string) (direct_distance : R) : route :=
  {| type := "direct";
     distance := direct_distance;
     duration := direct_distance / 80;
     cost := direct_distance * 0.5;
     attractions := [];
     r_population := 0;
     segments := [ {| seg_origin := origin; seg_destination := destination |} ];
     intermediate_city := None |}.

(** The candidates of [recommend_routes] in the order in which they are
    appended to [routes], before the sort. *)
Definition candidate_routes
  (self : t) (origin destination : string) (preferences : preferences)
  (origin_lat origin_lng dest_lat dest_lng : R)
  : t * result (list scored_route) :=
  let direct_distance := calculate_distance origin_lat origin_lng dest_lat dest_lng in
  let direct_route := direct_route origin destination direct_distance in
  match get_route_score direct_route preferences with
  | Raise e => (self, Raise e)
  | Ok score =>
      let direct := {| route_of := direct_route; score := score |} in
      let '(self', r) :=
        _find_intermediate_cities self origin_lat origin_lng dest_lat dest_lng in
      (self',
       intermediate_cities ← r;
       with_stops ← routes_with_stops self' origin destination
                      (firstn 3 intermediate_cities) preferences;
       mret (direct :: with_stops))
  end.

(** The sort, the budget and duration filters and the final slice. *)
Definition rank_and_filter
  (routes : list scored_route) (budget : option R) (duration_days : option Z)
  : list scored_route :=
  let routes := sort_desc (fun x : scored_route => score x) routes in
  let routes :=
    match budget with
    | Some b =>
        if truthy budget
        then filter (fun r : scored_route => cost r <= b) routes
        else routes
    | None => routes
    end in
  let routes :=
    match duration_days with
    | Some d =>
        if truthy_int duration_days
        then filter (fun r : scored_route => duration r <= IZR (d * 24)) routes
        else routes
    | None => routes
    end in
  slice_to routes settings.max_routes_per_request.

(** [recommend_routes]: the catalog after the call and what the call
    returns or raises. *)
Definition recommend_routes
  (self : t) (origin destination : string) (preferences : preferences)
  (budget : option R) (duration_days : option Z)
  : t * result (list scored_route) :=
  let '(origin_lat, origin_lng) := find_city_coordinates (cities_data self) origin in
  let '(dest_lat, dest_lng) := find_city_coordinates (cities_data self) destination in
  if negb (all [origin_lat; origin_lng; dest_lat; dest_lng]) then (self, Ok [])
  else
    match origin_lat, origin_lng, dest_lat, dest_lng with
    | Some origin_lat, Some origin_lng, Some dest_lat, Some dest_lng =>
        let '(self', r) :=
          candidate_routes self origin destination preferences
                           origin_lat origin_lng dest_lat dest_lng in
        (self', routes ← r; mret (rank_and_filter routes budget duration_days))
    | _, _, _, _ => (self, Raise TypeError)
    end.

(** *** Vocabulary of the statements about [RouteRecommender] *)

(** The name [n] is not found in the catalog. *)
Definition unresolved (cities : list city) (n : string) : Prop :=
  Forall (fun c => lower (name c) <> lower n) cities.

(** The detour ratio of the catalog entry [c] for a given origin and
    destination, and the test that [_find_intermediate_cities] applies. *)
Definition detour (origin_lat origin_lng dest_lat dest_lng : R) (c : city) : R :=
  (calculate_distance origin_lat origin_lng (lat c) (lng c)
   + calculate_distance (lat c) (lng c) dest_lat dest_lng)
  / calculate_distance origin_lat origin_lng dest_lat dest_lng.

Definition accepts (origin_lat origin_lng dest_lat dest_lng : R) (c : city) : Prop :=
  calculate_distance origin_lat origin_lng (lat c) (lng c)
    < calculate_distance origin_lat origin_lng dest_lat dest_lng
  /\ calculate_distance (lat c) (lng c) dest_lat dest_lng
    < calculate_distance origin_lat origin_lng dest_lat dest_lng
  /\ detour origin_lat origin_lng dest_lat dest_lng c < 1.5.

#[export] Instance accepts_dec origin_lat origin_lng dest_lat dest_lng c :
  Decision (accepts origin_lat origin_lng dest_lat dest_lng c).
Proof. unfold accepts. apply _. Defined.

(** What the loop of [_find_intermediate_cities] does to one entry. *)
Definition mark (origin_lat origin_lng dest_lat dest_lng : R) (c : city) : city :=
  set_detour_ratio c (detour origin_lat origin_lng dest_lat dest_lng c).

Definition visit (origin_lat origin_lng dest_lat dest_lng : R) (c : city) : city :=
  if decide (accepts origin_lat origin_lng dest_lat dest_lng c)
  then mark origin_lat origin_lng dest_lat dest_lng c
  else c.

(** The waypoints of a call, in the order in which
    [_find_intermediate_cities] returns them. *)
Definition waypoints (origin_lat origin_lng dest_lat dest_lng : R)
  (cities : list city) : list city :=
  sort_asc detour_key
    (map (mark origin_lat origin_lng dest_lat dest_lng)
         (filter (accepts origin_lat origin_lng dest_lat dest_lng) cities)).

(** The catalog after the loop of [_find_intermediate_cities]. *)
Definition visited (self : t) (origin_lat origin_lng dest_lat dest_lng : R) : t :=
  {| cities_data := map (visit origin_lat origin_lng dest_lat dest_lng) (cities_data self);
     attractions_data := attractions_data self |}.

(** The candidate [r] is the one that [_create_route_with_stops] builds
    for the waypoint [c]. *)
Definition stops_at (c : city) (r : scored_route) : Prop :=
  type r = "with_stops"%string /\ intermediate_city r = Some (name c).

(** Two dictionaries of the same city: they agree on every key but
    ["detour_ratio"]. *)
Definition same_entry (c c' : city) : Prop :=
  name c' = name c /\ country c' = country c /\ lat c' = lat c
  /\ lng c' = lng c /\ population c' = population c.

(** No catalog entry has a negative population. *)
Definition populations_nonneg (cities : list city) : Prop :=
  Forall (fun c => 0 <= default 0 (population c)) cities.

(** The weight that [get_route_score] reads under the key [k] ([0] when
    the key is absent), and the total over the four keys it knows. *)
Definition weight (preferences : preferences) (k : string) : R :=
  default 0 (preferences !! k).

Definition total_weight (preferences : preferences) : R :=
  weight preferences "fastest" + weight preferences "cheapest"
  + weight preferences "scenic" + weight preferences "quiet".

Definition weights_nonneg (preferences : preferences) : Prop :=
  0 <= weight preferences "fastest" /\ 0 <= weight preferences "cheapest"
  /\ 0 <= weight preferences "scenic" /\ 0 <= weight preferences "quiet".

(** A candidate passes the filters of [recommend_routes]: a filter is in
    force when its argument is neither [None] nor zero. *)
Definition within_budget (budget : option R) (r : scored_route) : Prop :=
  match budget with
  | Some b => b = 0 \/ cost r <= b
  | None => True
  end.

Definition within_duration (duration_days : option Z) (r : scored_route) : Prop :=
  match duration_days with
  | Some d => d = 0%Z \/ duration r <= IZR (d * 24)
  | None => True
  end.

Definition admissible (budget : option R) (duration_days : option Z)
  (r : scored_route) : Prop :=
  within_budget budget r /\ within_duration duration_days r.

#[export] Instance within_budget_dec budget r : Decision (within_budget budget r).
Proof. destruct budget; simpl; apply _. Defined.

#[export] Instance within_duration_dec duration_days r :
  Decision (within_duration duration_days r).
Proof. destruct duration_days; simpl; apply _. Defined.

#[export] Instance admissible_dec budget duration_days r :
  Decision (admissible budget duration_days r).
Proof. unfold admissible. apply _. Defined.

(** The direct candidate with the score [s]. *)
Definition direct_candidate (origin destination : string) (direct_distance s : R)
  : scored_route :=
  {| route_of := direct_route origin destination direct_distance; score := s |}.

(** *** Sample catalogs, all on the meridian of longitude 10 *)

Definition city_at (n : string) (la ln : R) : city :=
  {| name := n; country := "Iran"; lat := la; lng := ln;
     population := None; detour_ratio := None |}.

(** [C] lies one degree past the destination [B]. *)
Definition past_catalog : t :=
  {| cities_data := [city_at "A" 10 10; city_at "B" 20 10; city_at "C" 21 10];
     attractions_data := [] |}.

(** [M] lies midway between [A] and [B]. *)
Definition midway_catalog : t :=
  {| cities_data := [city_at "A" 10 10; city_at "M" 20 10; city_at "B" 30 10];
     attractions_data := [] |}.

End RouteRecommender.

(** ** [app/core/advanced_recommender.py]: class [AdvancedRouteRecommender] *)

Module AdvancedRouteRecommender.

Record UserPreferences : Type := mk_prefs {
  budget_range : string;
  travel_style : string;
  accessibility_needs : list string;
  cultural_interests : list string;
  seasonal_preferences : list string;
  group_size : Z;
  max_duration_days : Z;
  preferred_transport : list string
}.

Record RouteConstraints : Type := mk_constraints {
  c_origin_city_id : Z;
  c_destination_city_id : Z;
  max_budget : option Z;
  max_duration_hours : option R;
  must_visit_cities : list Z;
  avoid_cities : list Z;
  seasonal_restrictions : list string
}.

Record RouteSegment : Type := mk_segment {
  origin_city_id : Z;
  destination_city_id : Z;
  distance_km : R;
  duration_hours : R;
  cost_toman : R;
  scenic_rating : R;
  cultural_significance : R;
  safety_rating : R;
  road_type : string;
  seasonal_factors : gmap string R
}.

(** A row of [route_segments] joined with its two cities, as the query of
    [_get_route_segments] sees it. The three last columns are read for
    their truth value only. *)
Record row : Type := mk_row {
  row_origin_city_id : Z;
  row_destination_city_id : Z;
  row_distance_km : R;
  row_duration_hours : R;
  toll_cost : R;
  fuel_cost : R;
  row_scenic_rating : R;
  row_safety_rating : R;
  row_road_type : string;
  unesco_heritage : bool;
  historical_period : bool;
  religious_significance : bool
}.

(** The learned scorer: [self.scaler.transform] followed by
    [self.ml_model.predict], a black box that returns a number or raises. *)
Definition model : Type := list R -> result R.

(** The fields of [self] that a recommendation reads: the rows behind
    [self.db] and [self.ml_model]. [db] holds the rows of a session that
    answers the query of [_get_route_segments] with the columns it reads.
    A session that raises sends [_get_route_segments] to its handler,
    which returns the empty list: for every caller that is the case of an
    empty table, [db := []]. *)
Record t : Type := mk {
  db : list row;
  ml_model : option model
}.

(** The route dictionary before and after [route['score'] = score]. *)
Record route : Type := mk_route {
  type : string;
  segments : list RouteSegment;
  total_distance : R;
  total_duration : R;
  total_cost : R;
  waypoints : list Z
}.

Record scored_route : Type := mk_scored {
  route_of :> route;
  score : R
}.

(** [d[k]] on a dictionary: [KeyError] where the key is absent. *)
Definition getitem {V} (d : gmap string V) (k : string) : result V :=
  match d !! k with
  | Some v => Ok v
  | None => Raise KeyError
  end.

Definition season_entry (temperature tourism road cost : R) : gmap string R :=
  <["temperature_factor"%string := temperature]>
  (<["tourism_factor"%string := tourism]>
  (<["road_condition_factor"%string := road]>
  (<["cost_factor"%string := cost]> ∅))).

Definition _load_seasonal_data : gmap string (gmap string R) :=
  <["spring"%string := season_entry 1.2 1.3 1.1 1.1]>
  (<["summer"%string := season_entry 0.8 0.9 1.0 0.9]>
  (<["fall"%string := season_entry 1.1 1.2 1.0 1.0]>
  (<["winter"%string := season_entry 0.7 0.8 0.8 0.8]> ∅))).

Definition _load_cultural_weights : gmap string R :=
  <["historical"%string := 1.3]>
  (<["religious"%string := 1.2]>
  (<["cultural"%string := 1.1]>
  (<["natural"%string := 1.0]>
  (<["modern"%string := 0.9]>
  (<["unesco_heritage"%string := 1.5]> ∅))))).

(** [_get_current_season], from the month of [datetime.now()]. *)
Definition _get_current_season (month : Z) : string :=
  if bool_decide (month ∈ [3; 4; 5]%Z) then "spring"
  else if bool_decide (month ∈ [6; 7; 8]%Z) then "summer"
  else if bool_decide (month ∈ [9; 10; 11]%Z) then "fall"
  else "winter".

(** [_calculate_cultural_significance] *)
Definition _calculate_cultural_significance (route_data : row) : result R :=
  let significance := 0 in
  significance ←
    (if unesco_heritage route_data
     then w ← getitem _load_cultural_weights "unesco_heritage"; mret (significance + w)
     else mret significance);
  significance ←
    (if historical_period route_data
     then w ← getitem _load_cultural_weights "historical"; mret (significance + w)
     else mret significance);
  significance ←
    (if religious_significance route_data
     then w ← getitem _load_cultural_weights "religious"; mret (significance + w)
     else mret significance);
  mret (Rmin significance 5).

(** [_get_seasonal_factors] *)
Definition _get_seasonal_factors (month : Z) (route_data : row) : gmap string R :=
  let current_season := _get_current_season month in
  default (season_entry 1.0 1.0 1.0 1.0) (_load_seasonal_data !! current_season).

(** The [WHERE] clause of the query of [_get_route_segments]. *)
Definition where_clause (origin_id dest_id : Z) (avoid : list Z) (rs : row) : Prop :=
  (row_origin_city_id rs = origin_id \/ row_destination_city_id rs = dest_id)
  /\ (row_origin_city_id rs ∉ avoid)
  /\ (row_destination_city_id rs ∉ avoid).

#[export] Instance where_clause_dec origin_id dest_id avoid rs :
  Decision (where_clause origin_id dest_id avoid rs).
Proof. unfold where_clause. apply _. Defined.

Definition segment_of_row (month : Z) (r : row) : result RouteSegment :=
  cs ← _calculate_cultural_significance r;
  mret {| origin_city_id := row_origin_city_id r;
          destination_city_id := row_destination_city_id r;
          distance_km := row_distance_km r;
          duration_hours := row_duration_hours r;
          cost_toman := toll_cost r + fuel_cost r;
          scenic_rating := row_scenic_rating r;
          cultural_significance := cs;
          safety_rating := row_safety_rating r;
          road_type := row_road_type r;
          seasonal_factors := _get_seasonal_factors month r |}.

Fixpoint segments_of_rows (month : Z) (rows : list row) : result (list RouteSegment) :=
  match rows with
  | [] => Ok []
  | r :: rest =>
      segment ← segment_of_row month r;
      segments ← segments_of_rows month rest;
      mret (segment :: segments)
  end.

(** [_get_route_segments] *)
Definition _get_route_segments (self : t) (month : Z) (constraints : RouteConstraints)
  : list RouteSegment :=
  try_except
    (let result :=
       filter (where_clause (c_origin_city_id constraints)
                            (c_destination_city_id constraints)
                            (avoid_cities constraints))
              (db self) in
     segments_of_rows month result)
    [].

(** [_generate_route_combinations] *)
Definition direct_routes (segments : list RouteSegment) (constraints : RouteConstraints)
  : list route :=
  flat_map (fun segment =>
    if bool_decide (origin_city_id segment = c_origin_city_id constraints
                    /\ destination_city_id segment = c_destination_city_id constraints)
    then [ {| type := "direct";
              segments := [segment];
              total_distance := distance_km segment;
              total_duration := duration_hours segment;
              total_cost := cost_toman segment;
              waypoints := [] |} ]
    else []) segments.

Definition waypoint_routes (segments : list RouteSegment) (constraints : RouteConstraints)
  : list route :=
  flat_map (fun segment1 =>
    flat_map (fun segment2 =>
      if bool_decide (origin_city_id segment1 = c_origin_city_id constraints
                      /\ destination_city_id segment1 = origin_city_id segment2
                      /\ destination_city_id segment2 = c_destination_city_id constraints)
      then [ {| type := "with_waypoints";
                segments := [segment1; segment2];
                total_distance := distance_km segment1 + distance_km segment2;
                total_duration := duration_hours segment1 + duration_hours segment2;
                total_cost := cost_toman segment1 + cost_toman segment2;
                waypoints := [destination_city_id segment1] |} ]
      else []) segments) segments.

Definition _generate_route_combinations
  (segments : list RouteSegment) (constraints : RouteConstraints) : list route :=
  direct_routes segments constraints ++ waypoint_routes segments constraints.

(** [_calculate_cost_score] *)
Definition budget_limits : gmap string R :=
  <["low"%string := 200000]>
  (<["medium"%string := 500000]>
  (<["high"%string := 1000000]>
  (<["luxury"%string := 2000000]> ∅))).

Definition _calculate_cost_score (cost : R) (budget_range : string) : R :=
  let limit := default 500000 (budget_limits !! budget_range) in
  if decide (cost <= limit * 0.5) then 5.0
  else if decide (cost <= limit * 0.8) then 4.0
  else if decide (cost <= limit) then 3.0
  else if decide (cost <= limit * 1.5) then 2.0
  else 1.0.

(** [_calculate_cultural_score]: the loop, then the average. *)
Definition cultural_total (segments : list RouteSegment) (user_preferences : UserPreferences)
  : R :=
  fold_left (fun score segment =>
    let score := score + cultural_significance segment in
    match cultural_interests user_preferences with
    | [] => score
    | _ :: _ => score + 0.5
    end) segments 0.

Definition _calculate_cultural_score (route : route) (user_preferences : UserPreferences)
  : result R :=
  let score := cultural_total (segments route) user_preferences in
  avg ← div score (INR (length (segments route)));
  mret (Rmin avg 5.0).

(** [_calculate_scenic_score] *)
Definition _calculate_scenic_score (route : route) : result R :=
  let total_scenic := fold_left (fun acc segment => acc + scenic_rating segment)
                                (segments route) 0 in
  avg ← div total_scenic (INR (length (segments route)));
  mret (Rmin avg 5.0).

(** [_get_seasonal_adjustment] *)
Definition _get_seasonal_adjustment (month : Z) (route : route) : R :=
  let current_season := _get_current_season month in
  let seasonal_factors := default ∅ (_load_seasonal_data !! current_season) in
  default 1.0 (seasonal_factors !! "tourism_factor"%string).

(** [_apply_user_preferences] *)
Definition _apply_user_preferences (route : route) (user_preferences : UserPreferences) : R :=
  let factor := 1.0 in
  let factor :=
    if decide (travel_style user_preferences = "budget"%string) then
      if decide (total_cost route > 300000) then factor * 0.8 else factor
    else if decide (travel_style user_preferences = "luxury"%string) then
      if decide (total_cost route < 500000) then factor * 0.9 else factor
    else factor in
  let factor :=
    if bool_decide (group_size user_preferences > 4)%Z then factor * 1.1 else factor in
  factor.

(** The list [features] of [_get_ml_score]. *)
Definition ml_features (route : route) (user_preferences : UserPreferences)
  : result (list R) :=
  scenic ← _calculate_scenic_score route;
  cultural ← _calculate_cultural_score route user_preferences;
  mret [ total_distance route; total_duration route; total_cost route;
         scenic; cultural; 3.0; 1.0; 1.0 ].

(** [_get_ml_score] *)
Definition _get_ml_score (self : t) (route : route) (user_preferences : UserPreferences) : R :=
  try_except
    (match ml_model self with
     | None => mret 3.0
     | Some predict =>
         features ← ml_features route user_preferences;
         prediction ← predict features;
         mret (Rmax 0.0 (Rmin 5.0 prediction))
     end)
    3.0.

(** The rule-based composite of [_calculate_route_score], as it stands
    just before the test [if self.ml_model]. *)
Definition rule_score (month : Z) (route : route) (user_preferences : UserPreferences)
  : result R :=
  let base_score := 0.0 in
  let distance_score := Rmax 0 (5.0 - total_distance route / 100) in
  let base_score := base_score + distance_score * 0.2 in
  let duration_score := Rmax 0 (5.0 - total_duration route / 2) in
  let base_score := base_score + duration_score * 0.2 in
  let cost_score := _calculate_cost_score (total_cost route) (budget_range user_preferences) in
  let base_score := base_score + cost_score * 0.25 in
  cultural_score ← _calculate_cultural_score route user_preferences;
  let base_score := base_score + cultural_score * 0.2 in
  scenic_score ← _calculate_scenic_score route;
  let base_score := base_score + scenic_score * 0.15 in
  let seasonal_factor := _get_seasonal_adjustment month route in
  let base_score := base_score * seasonal_factor in
  let preference_factor := _apply_user_preferences route user_preferences in
  let base_score := base_score * preference_factor in
  mret base_score.

(** [_calculate_route_score] *)
Definition _calculate_route_score
  (self : t) (month : Z) (route : route) (user_preferences : UserPreferences) : R :=
  try_except
    (base_score ← rule_score month route user_preferences;
     let base_score :=
       match ml_model self with
       | Some _ =>
           let ml_score := _get_ml_score self route user_preferences in
           base_score * 0.7 + ml_score * 0.3
       | None => base_score
       end in
     mret (Rmin base_score 5.0))
    0.0.

(** [recommend_routes]; [month] is the month of the clock during the call. *)
Definition recommend_routes
  (self : t) (month : Z) (user_preferences : UserPreferences)
  (constraints : RouteConstraints) (num_recommendations : Z) : list scored_route :=
  try_except (mret (
  let route_segments := _get_route_segments self month constraints in
  let route_combinations := _generate_route_combinations route_segments constraints in
  let scored_routes :=
    map (fun route =>
           {| route_of := route;
              score := _calculate_route_score self month route user_preferences |})
        route_combinations in
  let scored_routes := sort_desc (fun x : scored_route => score x) scored_routes in
  slice_to scored_routes num_recommendations)) [].

(** *** Vocabulary of the statements about [AdvancedRouteRecommender] *)

(** No row of the segment table leads from a city to itself. *)
Definition no_self_loop (rows : list row) : Prop :=
  Forall (fun r => row_origin_city_id r <> row_destination_city_id r) rows.

(** No row has a negative scenic rating. *)
Definition scenic_nonneg (rows : list row) : Prop :=
  Forall (fun r => 0 <= row_scenic_rating r) rows.

(** The segment built from the row [r] keeps its endpoints and its scenic
    rating, and its cultural significance lies between 0 and 5. *)
Definition segment_from (r : row) (s : RouteSegment) : Prop :=
  origin_city_id s = row_origin_city_id r
  /\ destination_city_id s = row_destination_city_id r
  /\ scenic_rating s = row_scenic_rating r
  /\ 0 <= cultural_significance s <= 5.

(** The ratings of the segment are not negative. *)
Definition rated (s : RouteSegment) : Prop :=
  0 <= scenic_rating s /\ 0 <= cultural_significance s.

(** [max(0.0, min(5.0, prediction))] *)
Definition clip (prediction : R) : R := Rmax 0.0 (Rmin 5.0 prediction).

(** *** Samples *)

Definition plain_row (origin destination : Z) : row :=
  {| row_origin_city_id := origin; row_destination_city_id := destination;
     row_distance_km := 100; row_duration_hours := 2;
     toll_cost := 1000; fuel_cost := 9000;
     row_scenic_rating := 3; row_safety_rating := 4;
     row_road_type := "highway";
     unesco_heritage := false; historical_period := false;
     religious_significance := false |}.

(** A table with a row from city 1 to itself. *)
Definition loop_table : list row := [plain_row 1 1; plain_row 1 2].

(** A table with a route from 1 to 2 through 3. *)
Definition chain_table : list row := [plain_row 1 2; plain_row 1 3; plain_row 3 2].

Definition sample_constraints : RouteConstraints :=
  {| c_origin_city_id := 1; c_destination_city_id := 2;
     max_budget := None; max_duration_hours := None;
     must_visit_cities := []; avoid_cities := [4%Z];
     seasonal_restrictions := [] |}.

Definition sample_preferences : UserPreferences :=
  {| budget_range := "medium"; travel_style := "standard";
     accessibility_needs := []; cultural_interests := [];
     seasonal_preferences := []; group_size := 2; max_duration_days := 3;
     preferred_transport := [] |}.

(** The segment that [_get_route_segments] builds from [plain_row]. *)
Definition plain_segment (month origin destination : Z) : RouteSegment :=
  {| origin_city_id := origin; destination_city_id := destination;
     distance_km := 100; duration_hours := 2; cost_toman := 1000 + 9000;
     scenic_rating := 3; cultural_significance := Rmin 0 5; safety_rating := 4;
     road_type := "highway";
     seasonal_factors := _get_seasonal_factors month (plain_row origin destination) |}.

(** The candidate from [origin] to [destination] through [waypoint], on
    plain segments. *)
Definition plain_detour (month origin waypoint destination : Z) : route :=
  {| type := "with_waypoints";
     segments := [plain_segment month origin waypoint;
                  plain_segment month waypoint destination];
     total_distance := 100 + 100;
     total_duration := 2 + 2;
     total_cost := 1000 + 9000 + (1000 + 9000);
     waypoints := [waypoint] |}.

Definition plain_direct (month origin destination : Z) : route :=
  {| type := "direct";
     segments := [plain_segment month origin destination];
     total_distance := 100;
     total_duration := 2;
     total_cost := 1000 + 9000;
     waypoints := [] |}.

(** A route of one segment of length, duration and cost 0. *)
Definition still_segment : RouteSegment :=
  {| origin_city_id := 1; destination_city_id := 2;
     distance_km := 0; duration_hours := 0; cost_toman := 0;
     scenic_rating := 0; cultural_significance := 0; safety_rating := 0;
     road_type := "highway"; seasonal_factors := ∅ |}.

Definition still_route : route :=
  {| type := "direct"; segments := [still_segment];
     total_distance := 0; total_duration := 0; total_cost := 0;
     waypoints := [] |}.

(** A learned scorer whose prediction always raises. *)
Definition failing_model : model := fun _ => Raise ValueError.

End AdvancedRouteRecommender.

(** ** Further vocabulary for [RouteRecommender] *)

Module RouteRecommenderTerms.
Import RouteRecommender.

(** The four keys that [get_route_score] reads. *)
Definition score_keys : list string := ["fastest"; "cheapest"; "scenic"; "quiet"]%string.

(** Two weight dictionaries with the same entries under the four keys. *)
Definition same_weights (p q : gmap string R) : Prop :=
  Forall (fun k => p !! k = q !! k) score_keys.

(** The route [r2] is no better than [r1] in any criterion. *)
Definition dominates (r1 r2 : route) : Prop :=
  distance r1 <= distance r2 /\ cost r1 <= cost r2
  /\ r_population r1 <= r_population r2
  /\ (length (attractions r2) <= length (attractions r1))%nat.

(** Distance, cost and population of the route are not negative. *)
Definition nonneg_route (r : route) : Prop :=
  0 <= distance r /\ 0 <= cost r /\ 0 <= r_population r.



(** The fields of a candidate that follow from its distance and its
    attractions. *)
Definition priced (r : route) : Prop :=
  0 <= distance r
  /\ cost r = distance r * 0.5 + INR (length (attractions r)) * 50
  /\ duration r = distance r / 80 + INR (length (attractions r)) * 2.

(** The candidate [r] is the direct one from [origin] to [destination]. *)
Definition is_direct (origin destination : string) (r : route) : Prop :=
  type r = "direct"%string /\ attractions r = [] /\ intermediate_city r = None
  /\ r_population r = 0
  /\ segments r = [ {| seg_origin := origin; seg_destination := destination |} ].

(** The candidate [r] stops at the catalog entry [w]. *)
Definition is_stop (self : t) (origin destination : string) (w : city) (r : route)
  : Prop :=
  type r = "with_stops"%string /\ intermediate_city r = Some (name w)
  /\ attractions r = filter (fun a => a_city a = name w) (attractions_data self)
  /\ r_population r = default 0 (population w)
  /\ segments r = [ {| seg_origin := origin; seg_destination := name w |};
                    {| seg_origin := name w; seg_destination := destination |} ].

End RouteRecommenderTerms.

(** ** [RouteRecommender.get_attractions_near_route] *)

Module NearRoute.
Import RouteRecommender.

(** An attraction dictionary of [self.attractions_data] with the key
    ["distance_from_route"], absent until [get_attractions_near_route]
    writes it. *)
Record entry : Type := mk_entry {
  attraction_of :> attraction;
  distance_from_route : option R
}.

(** [attraction["distance_from_route"] = dist] *)
Definition set_distance_from_route (a : entry) (dist : R) : entry :=
  {| attraction_of := attraction_of a; distance_from_route := Some dist |}.

(** [_distance_from_line]: the distance to the middle of the line. *)
Definition _distance_from_line
  (point_lat point_lng line_lat1 line_lng1 line_lat2 line_lng2 : R) : R :=
  let mid_lat := (line_lat1 + line_lat2) / 2 in
  let mid_lng := (line_lng1 + line_lng2) / 2 in
  calculate_distance point_lat point_lng mid_lat mid_lng.

(** The loop over [route["segments"]] for one attraction: the distance
    with which it breaks, or [None] when it runs to its end. After the
    test [all([...])] the four coordinates are numbers. *)
Fixpoint segment_loop
  (cities : list city) (attraction : attraction) (segments : list segment)
  (max_distance : R) : option R :=
  match segments with
  | [] => None
  | segment :: rest =>
      let '(origin_lat, origin_lng) :=
        find_city_coordinates cities (seg_origin segment) in
      let '(dest_lat, dest_lng) :=
        find_city_coordinates cities (seg_destination segment) in
      if all [origin_lat; origin_lng; dest_lat; dest_lng] then
        match origin_lat, origin_lng, dest_lat, dest_lng with
        | Some origin_lat, Some origin_lng, Some dest_lat, Some dest_lng =>
            let dist := _distance_from_line (a_lat attraction) (a_lng attraction)
                          origin_lat origin_lng dest_lat dest_lng in
            if decide (dist <= max_distance) then Some dist
            else segment_loop cities attraction rest max_distance
        | _, _, _, _ => segment_loop cities attraction rest max_distance
        end
      else segment_loop cities attraction rest max_distance
  end.

(** The loop over [self.attractions_data]: the attractions as the loop
    leaves them, and the list [nearby_attractions]. *)
Fixpoint attraction_loop
  (cities : list city) (attractions : list entry) (segments : list segment)
  (max_distance : R) : list entry * list entry :=
  match attractions with
  | [] => ([], [])
  | attraction :: rest =>
      let '(rest', nearby) := attraction_loop cities rest segments max_distance in
      match segment_loop cities attraction segments max_distance with
      | Some dist =>
          let attraction' := set_distance_from_route attraction dist in
          (attraction' :: rest', attraction' :: nearby)
      | None => (attraction :: rest', nearby)
      end
  end.

(** The sort key [lambda x: x["distance_from_route"]]. *)
Definition distance_key (a : entry) : R := default 0 (distance_from_route a).

Fixpoint check_distance_keys (l : list entry) : result unit :=
  match l with
  | [] => Ok tt
  | a :: l' =>
      match distance_from_route a with
      | Some _ => check_distance_keys l'
      | None => Raise KeyError
      end
  end.

(** [get_attractions_near_route], on [self.cities_data] and
    [self.attractions_data]: the attractions after the call, and what the
    call returns or raises. *)
Definition get_attractions_near_route
  (cities_data : list city) (attractions_data : list entry)
  (route : route) (max_distance : R) : list entry * result (list entry) :=
  let '(attractions', nearby_attractions) :=
    attraction_loop cities_data attractions_data (segments route) max_distance in
  (attractions',
   _ ← check_distance_keys nearby_attractions;
   mret (sort_asc distance_key nearby_attractions)).

(** *** Vocabulary *)

(** Both ends of the segment resolve, to coordinates none of which is
    zero, and [dist] is the distance from the attraction to the middle of
    the segment. *)
Definition reach (cities : list city) (a : attraction) (s : segment) (dist : R)
  : Prop :=
  exists origin_lat origin_lng dest_lat dest_lng,
    find_city_coordinates cities (seg_origin s) = (Some origin_lat, Some origin_lng)
    /\ find_city_coordinates cities (seg_destination s) = (Some dest_lat, Some dest_lng)
    /\ origin_lat <> 0 /\ origin_lng <> 0 /\ dest_lat <> 0 /\ dest_lng <> 0
    /\ dist = _distance_from_line (a_lat a) (a_lng a)
                origin_lat origin_lng dest_lat dest_lng.

Definition near (cities : list city) (max_distance : R) (a : attraction)
  (s : segment) (dist : R) : Prop :=
  reach cities a s dist /\ dist <= max_distance.

(** The attraction is near some segment of the list. *)
Definition near_some (cities : list city) (max_distance : R) (a : attraction)
  (segments : list segment) : Prop :=
  exists s dist, s ∈ segments /\ near cities max_distance a s dist.

(** [s] is the first segment of the list that the attraction is near, at
    the distance [dist]. *)
Definition first_near (cities : list city) (max_distance : R) (a : attraction)
  (segments : list segment) (dist : R) : Prop :=
  exists pre s post,
    segments = pre ++ s :: post
    /\ near cities max_distance a s dist
    /\ ~ near_some cities max_distance a pre.

(** What the loop over the attractions does to one of them. *)
Definition touch (cities : list city) (segments : list segment) (max_distance : R)
  (a : entry) : entry :=
  match segment_loop cities a segments max_distance with
  | Some dist => set_distance_from_route a dist
  | None => a
  end.

(** The list that [get_attractions_near_route] returns. *)
Definition nearby (cities : list city) (attractions : list entry)
  (segments : list segment) (max_distance : R) : list entry :=
  sort_asc distance_key
    (map (touch cities segments max_distance)
         (filter (fun a : entry =>
                    is_Some (segment_loop cities a segments max_distance))
                 attractions)).

(** Sample data: an attraction at the middle of the way from [A] to [B]
    of [midway_catalog], and one far from it. *)
Definition attraction_at (n : string) (la ln : R) : entry :=
  {| attraction_of :=
       {| a_name := n; a_city := "M"; a_category := "tourist_spot";
          a_lat := la; a_lng := ln; a_rating := 4.5 |};
     distance_from_route := None |}.

Definition sample_attractions : list entry :=
  [attraction_at "far" 60 10; attraction_at "middle" 20 10].

Definition sample_route : route := direct_route "A" "B" 0.

End NearRoute.

(** ** More of [AdvancedRouteRecommender] *)

Module AdvancedRouteRecommenderTerms.
Import AdvancedRouteRecommender.

(** [_extract_route_features]; [route_data.get(k, d)] is [default d (route_data !! k)]. *)
Definition _extract_route_features (route_data : gmap string R) : list R :=
  [ default 0 (route_data !! "distance_km"%string);
    default 0 (route_data !! "duration_hours"%string);
    default 0 (route_data !! "cost_toman"%string);
    default 0 (route_data !! "scenic_rating"%string);
    default 0 (route_data !! "cultural_significance"%string);
    default 0 (route_data !! "safety_rating"%string);
    default 0 (route_data !! "user_rating"%string);
    default 1.0 (route_data !! "seasonal_factor"%string);
    default 1.0 (route_data !! "accessibility_score"%string) ].

(** Sums over the segments of a route. *)
Definition sum_of (f : RouteSegment -> R) (segs : list RouteSegment) : R :=
  foldr (fun s acc => f s + acc) 0 segs.

(** The totals of the route are the sums over its segments. *)
Definition totals_add_up (r : route) : Prop :=
  total_distance r = sum_of distance_km (segments r)
  /\ total_duration r = sum_of duration_hours (segments r)
  /\ total_cost r = sum_of cost_toman (segments r).

(** The segments of the route lead from the origin to the destination of
    the constraints, directly or through its one waypoint. *)
Definition leads (constraints : RouteConstraints) (r : route) : Prop :=
  (exists s,
     type r = "direct"%string /\ segments r = [s] /\ waypoints r = []
     /\ origin_city_id s = c_origin_city_id constraints
     /\ destination_city_id s = c_destination_city_id constraints)
  \/ (exists s1 s2,
        type r = "with_waypoints"%string /\ segments r = [s1; s2]
        /\ waypoints r = [destination_city_id s1]
        /\ origin_city_id s1 = c_origin_city_id constraints
        /\ destination_city_id s1 = origin_city_id s2
        /\ destination_city_id s2 = c_destination_city_id constraints).

(** The tourism factor of the month, as the tables of
    [_load_seasonal_data] and [_get_current_season] give it. *)
Definition tourism_factor_of (month : Z) : R :=
  if decide (3 <= month <= 5)%Z then 1.3
  else if decide (6 <= month <= 8)%Z then 0.9
  else if decide (9 <= month <= 11)%Z then 1.2
  else 0.8.

End AdvancedRouteRecommenderTerms.

(** ** [AdvancedRouteRecommender]: the user profiles *)

Module UserProfiles.

(** A row of the travel-history query and a row of the city query of
    [get_personalized_suggestions]. *)
Record history_row : Type := mk_history_row {
  city_id : Z;
  visit_count : Z
}.

Record city_row : Type := mk_city_row {
  name_fa : string;
  name_en : string;
  province_name_fa : string;
  tourism_rating : R
}.

(** [self.db] as this method uses it: the rows of the first query for a
    user, and [fetchone()] of the second query for a city; either may
    raise. *)
Record database : Type := mk_database {
  travel_history : string -> result (list history_row);
  fetch_city : Z -> result (option city_row)
}.

Record suggestion : Type := mk_suggestion {
  s_city_id : Z;
  s_city_name_fa : string;
  s_city_name_en : string;
  s_province_name_fa : string;
  s_visit_count : Z;
  s_tourism_rating : R;
  suggestion_type : string
}.

Section Profiles.
Context {V : Type}.

(** [self.user_profiles]: user id to preferences dictionary. *)
Definition profiles : Type := gmap string (gmap string V).

(** [update_user_preferences] *)
Definition update_user_preferences
  (user_profiles : profiles) (user_id : string) (new_preferences : gmap string V)
  : profiles :=
  <[user_id := new_preferences]> user_profiles.

(** The truth value of [self.user_profiles.get(user_id)]: [None] and the
    empty dictionary are false. *)
Definition profile_truthy (user_profile : option (gmap string V)) : bool :=
  match user_profile with
  | None => false
  | Some p => negb (bool_decide (size p = 0%nat))
  end.

(** The loop over the rows of the travel history. *)
Fixpoint suggestion_loop (db : database) (rows : list history_row)
  : result (list suggestion) :=
  match rows with
  | [] => Ok []
  | row :: rest =>
      city ← fetch_city db (city_id row);
      suggestions ← suggestion_loop db rest;
      match city with
      | Some city =>
          mret ({| s_city_id := city_id row;
                   s_city_name_fa := name_fa city;
                   s_city_name_en := name_en city;
                   s_province_name_fa := province_name_fa city;
                   s_visit_count := visit_count row;
                   s_tourism_rating := tourism_rating city;
                   suggestion_type := "frequent_visit" |} :: suggestions)
      | None => mret suggestions
      end
  end.

(** [get_personalized_suggestions] *)
Definition get_personalized_suggestions
  (user_profiles : profiles) (db : database) (user_id : string) : list suggestion :=
  try_except
    (let user_profile := user_profiles !! user_id in
     if negb (profile_truthy user_profile) then mret []
     else
       result ← travel_history db user_id;
       suggestion_loop db result)
    [].

End Profiles.

(** The suggestion that a history row and its city give. *)
Definition suggestion_of (row : history_row) (city : city_row) : suggestion :=
  {| s_city_id := city_id row;
     s_city_name_fa := name_fa city;
     s_city_name_en := name_en city;
     s_province_name_fa := province_name_fa city;
     s_visit_count := visit_count row;
     s_tourism_rating := tourism_rating city;
     suggestion_type := "frequent_visit" |}.

(** A sample database: one user with two visited cities, the second of
    which is unknown. *)
Definition sample_db : database :=
  {| travel_history := fun _ => Ok [ {| city_id := 1; visit_count := 3 |};
                                     {| city_id := 9; visit_count := 1 |} ];
     fetch_city := fun c =>
       if (c =? 1)%Z
       then Ok (Some {| name_fa := "Esfahan"; name_en := "Isfahan";
                        province_name_fa := "Esfahan"; tourism_rating := 4.8 |})
       else Ok None |}.

End UserProfiles.


(** ** [app/api/routes.py]: the handlers over [RouteRecommender] *)

Module ApiRoutes.
Import Py RouteRecommender.

(** What a handler body can raise: an exception of the recommender or of
    a built-in, or FastAPI's [HTTPException] with its status code; both
    are instances of [Exception]. The detail text is left out. *)
Inductive exception : Type :=
| Error (e : exn)
| HTTPException (status_code : Z).

Inductive outcome (A : Type) : Type :=
| Return (a : A)
| Raised (e : exception).
Arguments Return {A} a.
Arguments Raised {A} e.

#[export] Instance outcome_ret : MRet outcome := fun _ a => Return a.
#[export] Instance outcome_bind : MBind outcome := fun _ _ f m =>
  match m with
  | Return a => f a
  | Raised e => Raised e
  end.

(** A call that raises what the recommender raises. *)
Definition call {A} (r : result A) : outcome A :=
  match r with
  | Ok a => Return a
  | Raise e => Raised (Error e)
  end.

(** [try: body except Exception as e: raise HTTPException(status_code=500, ...)] *)
Definition except_500 {A} (body : outcome A) : outcome A :=
  match body with
  | Return a => Return a
  | Raised _ => Raised (HTTPException 500)
  end.

(** The schema [RecommendationRequest]. *)
Record RecommendationRequest : Type := mk_request {
  req_origin : string;
  req_destination : string;
  req_preferences : gmap string R;
  req_budget : option R;
  req_duration_days : option Z;
  req_transport_type : string;
  req_include_attractions : bool
}.

(** The schema [RouteResponse]. *)
Record RouteResponse : Type := mk_route_response {
  rr_id : Z;
  rr_origin : string;
  rr_destination : string;
  route_data : scored_route;
  rr_score : R;
  total_distance : R;
  total_duration : R;
  total_cost : R;
  stops : list attraction
}.

(** The dictionary [summary] of the recommendation response. *)
Record Summary : Type := mk_summary {
  total_routes : Z;
  best_score : R;
  average_cost : R;
  average_duration : R
}.

(** An entry of [alternatives]. *)
Record Alternative : Type := mk_alternative {
  alt_type : string;
  alt_city : string;
  alt_description : string
}.

(** The schema [RecommendationResponse]. *)
Record RecommendationResponse : Type := mk_response {
  routes : list RouteResponse;
  summary : Summary;
  alternatives : list Alternative
}.

(** [max(xs)] raises on an empty sequence; [sum(xs)] starts from zero. *)
Definition max (xs : list R) : result R :=
  match xs with
  | [] => Raise ValueError
  | x :: xs => Ok (foldl Rmax x xs)
  end.

Definition sum (xs : list R) : R := foldl Rplus 0 xs.

(** [len(xs)] as a number. *)
Definition len {A} (xs : list A) : Z := Z.of_nat (length xs).

(** Truth value of [route.get('intermediate_city')]: [None] and the empty
    string are false. *)
Definition truthy_str (s : option string) : bool :=
  match s with
  | None => false
  | Some s => negb (String.eqb s "")
  end.

(** The first loop of [recommend_routes]: one [RouteResponse] for each
    route, appended to [route_responses]. *)
Fixpoint route_responses_loop
  (request : RecommendationRequest) (rs : list scored_route)
  (route_responses : list RouteResponse) : list RouteResponse :=
  match rs with
  | [] => route_responses
  | route :: rest =>
      let route_response :=
        {| rr_id := len route_responses + 1;
           rr_origin := req_origin request;
           rr_destination := req_destination request;
           route_data := route;
           rr_score := score route;
           total_distance := distance route;
           total_duration := duration route;
           total_cost := cost route;
           stops := attractions route |} in
      route_responses_loop request rest (route_responses ++ [route_response])
  end.

(** The second loop, over [routes[:3]]. *)
Fixpoint alternatives_loop (rs : list scored_route) : list Alternative :=
  match rs with
  | [] => []
  | route :: rest =>
      match intermediate_city route with
      | Some c =>
          if truthy_str (Some c)
          then {| alt_type := "intermediate_stop";
                  alt_city := c;
                  alt_description := "Stop at " ++ c ++ " to visit attractions" |}
               :: alternatives_loop rest
          else alternatives_loop rest
      | None => alternatives_loop rest
      end
  end.

(** The body of the [try] of [recommend_routes], after the call of the
    recommender. *)
Definition respond (request : RecommendationRequest) (rs : list scored_route)
  : outcome RecommendationResponse :=
  match rs with
  | [] => Raised (HTTPException 404)
  | _ :: _ =>
      let route_responses := route_responses_loop request rs [] in
      best ← call (max (rr_score <$> route_responses));
      avg_cost ← call (div (sum (total_cost <$> route_responses))
                           (IZR (len route_responses)));
      avg_duration ← call (div (sum (total_duration <$> route_responses))
                               (IZR (len route_responses)));
      mret {| routes := route_responses;
              summary := {| total_routes := len route_responses;
                            best_score := best;
                            average_cost := avg_cost;
                            average_duration := avg_duration |};
              alternatives := alternatives_loop (slice_to rs 3) |}
  end.

(** The handler [recommend_routes] of [POST /recommend]: the module-level
    [recommender] after the request, and what the handler returns or
    raises. *)
Definition recommend_routes (recommender : t) (request : RecommendationRequest)
  : t * outcome RecommendationResponse :=
  let '(recommender', r) :=
    RouteRecommender.recommend_routes recommender
      (req_origin request) (req_destination request) (req_preferences request)
      (req_budget request) (req_duration_days request) in
  (recommender', except_500 (rs ← call r; respond request rs)).

(** The schema [Attraction], without the two keys [description] and
    [price_range] that the catalog entries of this development do not
    carry. *)
Record Attraction : Type := mk_attraction_response {
  att_id : Z;
  att_name : string;
  att_city_id : Z;
  att_category : string;
  att_latitude : R;
  att_longitude : R;
  att_rating : option R
}.

(** Truth value of an optional query string. *)
Definition given (s : option string) : bool := truthy_str s.

(** The loop of [get_attractions]. *)
Fixpoint attraction_responses_loop
  (atts : list attraction) (attraction_responses : list Attraction) : list Attraction :=
  match atts with
  | [] => attraction_responses
  | attraction :: rest =>
      let attraction_response :=
        {| att_id := len attraction_responses + 1;
           att_name := a_name attraction;
           att_city_id := len attraction_responses + 1;
           att_category := a_category attraction;
           att_latitude := a_lat attraction;
           att_longitude := a_lng attraction;
           att_rating := Some (a_rating attraction) |} in
      attraction_responses_loop rest (attraction_responses ++ [attraction_response])
  end.

(** The handler [get_attractions] of [GET /attractions]. *)
Definition get_attractions
  (recommender : t) (city category : option string) (min_rating : option R)
  : outcome (list Attraction) :=
  except_500
    (let atts := attractions_data recommender in
     let atts :=
       match city with
       | Some c =>
           if given city
           then filter (fun att => lower (a_city att) = lower c) atts
           else atts
       | None => atts
       end in
     let atts :=
       match category with
       | Some c =>
           if given category
           then filter (fun att => lower (a_category att) = lower c) atts
           else atts
       | None => atts
       end in
     let atts :=
       match min_rating with
       | Some m =>
           if truthy min_rating
           then filter (fun att => a_rating att >= m) atts
           else atts
       | None => atts
       end in
     mret (attraction_responses_loop atts [])).

(** *** Vocabulary of the statements about the handlers *)

(** The call of the recommender that [recommend_routes] makes. *)
Definition recommender_call (recommender : t) (request : RecommendationRequest)
  : t * result (list scored_route) :=
  RouteRecommender.recommend_routes recommender
    (req_origin request) (req_destination request) (req_preferences request)
    (req_budget request) (req_duration_days request).

(** The response entry with the number [n] for a route. *)
Definition response_of (request : RecommendationRequest) (n : Z) (route : scored_route)
  : RouteResponse :=
  {| rr_id := n;
     rr_origin := req_origin request;
     rr_destination := req_destination request;
     route_data := route;
     rr_score := score route;
     total_distance := distance route;
     total_duration := duration route;
     total_cost := cost route;
     stops := attractions route |}.

(** An optional query string asks for the value [v] of an entry: no
    string and the empty string ask for nothing. *)
Definition asks (q : option string) (v : string) : Prop :=
  match q with
  | Some s => s = "" \/ lower v = lower s
  | None => True
  end.

(** An optional minimum asks for the rating [v]: no minimum and a zero
    minimum ask for nothing. *)
Definition asks_rating (q : option R) (v : R) : Prop :=
  match q with
  | Some m => m = 0 \/ m <= v
  | None => True
  end.

(** The entry of [GET /attractions] with the number [n]. *)
Definition attraction_response_of (n : Z) (a : attraction) : Attraction :=
  {| att_id := n;
     att_name := a_name a;
     att_city_id := n;
     att_category := a_category a;
     att_latitude := a_lat a;
     att_longitude := a_lng a;
     att_rating := Some (a_rating a) |}.

(** A request for the routes from ["A"] to ["B"]. *)
Definition sample_request : RecommendationRequest :=
  {| req_origin := "A"; req_destination := "B";
     req_preferences := settings.default_route_preferences;
     req_budget := None; req_duration_days := None;
     req_transport_type := "car"; req_include_attractions := true |}.

End ApiRoutes.

(** ** [app/api/chat.py]: the route details of a chat answer *)

Module ApiChat.
Import Py RouteRecommender.

(** The keys of [route_info] that [generate_route_details] reads; each of
    them may be absent, and a value that is present has the type that
    [RouteRecommender.recommend_routes] expects. *)
Record route_info : Type := mk_route_info {
  ri_origin : option string;
  ri_destination : option string;
  ri_preferences : option (gmap string R);
  ri_budget : option R;
  ri_duration_days : option Z
}.

(** The dictionary returned when no route is found. *)
Record route_error : Type := mk_route_error {
  e_origin : string;
  e_destination : string;
  error : string
}.

(** The dictionary [route_details]. *)
Record route_details : Type := mk_route_details {
  d_origin : string;
  d_destination : string;
  d_distance : R;
  d_duration : R;
  d_cost : R;
  d_score : R;
  d_intermediate_city : option string;
  attractions_count : Z;
  route_type : string;
  labels : gmap string string
}.

Definition labels_fa : gmap string string :=
  list_to_map
    [ ("distance", "فاصله"); ("duration", "زمان"); ("cost", "هزینه");
      ("score", "امتیاز"); ("km", "کیلومتر"); ("hours", "ساعت");
      ("toman", "تومان") ]%string.

Definition labels_en : gmap string string :=
  list_to_map
    [ ("distance", "Distance"); ("duration", "Duration"); ("cost", "Cost");
      ("score", "Score"); ("km", "km"); ("hours", "hours");
      ("toman", "Toman") ]%string.

(** [generate_route_details]: the module-level [recommender] after the
    call, and the dictionary returned, if any. The route dictionaries of
    the recommender have no key ['route_type'], so that
    [best_route.get('route_type', 'standard')] is the default. *)
Definition generate_route_details
  (recommender : t) (route_info : route_info) (language : string)
  : t * option (route_error + route_details) :=
  match ri_origin route_info, ri_destination route_info with
  | Some origin, Some destination =>
      if negb (ApiRoutes.truthy_str (Some origin))
         || negb (ApiRoutes.truthy_str (Some destination))
      then (recommender, None)
      else
        let '(recommender', r) :=
          RouteRecommender.recommend_routes recommender origin destination
            (default ∅ (ri_preferences route_info))
            (ri_budget route_info) (ri_duration_days route_info) in
        (recommender',
         match r with
         | Raise _ => None
         | Ok [] =>
             Some (inl {| e_origin := origin;
                          e_destination := destination;
                          error := if String.eqb language "fa"
                                   then "مسیر یافت نشد" else "Route not found" |})
         | Ok (best_route :: _) =>
             Some (inr {| d_origin := origin;
                          d_destination := destination;
                          d_distance := distance best_route;
                          d_duration := duration best_route;
                          d_cost := cost best_route;
                          d_score := score best_route;
                          d_intermediate_city := intermediate_city best_route;
                          attractions_count :=
                            Z.of_nat (length (attractions best_route));
                          route_type := "standard";
                          labels := if String.eqb language "fa"
                                    then labels_fa else labels_en |})
         end)
  | _, _ => (recommender, None)
  end.

(** *** Vocabulary of the statements about [generate_route_details] *)

(** The key is absent, or its string is empty. *)
Definition missing (s : option string) : Prop := s = None \/ s = Some ""%string.

(** A request of the chat for the routes from ["A"] to ["B"], without
    preferences. *)
Definition sample_info : route_info :=
  {| ri_origin := Some "A"%string; ri_destination := Some "B"%string;
     ri_preferences := None; ri_budget := None; ri_duration_days := None |}.

End ApiChat.
(** * Properties *)

(** ** Facts about the Python prelude *)

Module PyFacts.

Section SortFacts.
Context {A : Type} (key : A -> R).

Lemma insert_desc_perm (x : A) (l : list A) : insert_desc key x l ≡ₚ x :: l.
Proof.
  induction l as [|y l IH]; simpl; [done|].
  destruct (decide (key y <= key x)); [done|].
  rewrite IH. apply Permutation_swap.
Qed.

Lemma sort_desc_perm (l : list A) : sort_desc key l ≡ₚ l.
Proof.
  induction l as [|x l IH]; simpl; [done|].
  rewrite insert_desc_perm. by rewrite IH.
Qed.

Lemma insert_desc_sorted (x : A) (l : list A) :
  StronglySorted (fun a b => key b <= key a) l ->
  StronglySorted (fun a b => key b <= key a) (insert_desc key x l).
Proof.
  induction 1 as [|y l Hs IH Hy]; simpl.
  - repeat constructor.
  - destruct (decide (key y <= key x)) as [Hle|Hgt].
    + constructor; [by constructor|].
      constructor; [done|].
      eapply Forall_impl; [exact Hy|]. simpl. intros z Hz. lra.
    + constructor; [done|].
      rewrite insert_desc_perm. constructor; [lra|done].
Qed.

Lemma sort_desc_sorted (l : list A) :
  StronglySorted (fun a b => key b <= key a) (sort_desc key l).
Proof.
  induction l as [|x l IH]; simpl; [constructor|].
  by apply insert_desc_sorted.
Qed.

Lemma insert_asc_perm (x : A) (l : list A) : insert_asc key x l ≡ₚ x :: l.
Proof.
  induction l as [|y l IH]; simpl; [done|].
  destruct (decide (key x <= key y)); [done|].
  rewrite IH. apply Permutation_swap.
Qed.

Lemma sort_asc_perm (l : list A) : sort_asc key l ≡ₚ l.
Proof.
  induction l as [|x l IH]; simpl; [done|].
  rewrite insert_asc_perm. by rewrite IH.
Qed.

Lemma insert_asc_sorted (x : A) (l : list A) :
  StronglySorted (fun a b => key a <= key b) l ->
  StronglySorted (fun a b => key a <= key b) (insert_asc key x l).
Proof.
  induction 1 as [|y l Hs IH Hy]; simpl.
  - repeat constructor.
  - destruct (decide (key x <= key y)) as [Hle|Hgt].
    + constructor; [by constructor|].
      constructor; [done|].
      eapply Forall_impl; [exact Hy|]. simpl. intros z Hz. lra.
    + constructor; [done|].
      rewrite insert_asc_perm. constructor; [lra|done].
Qed.

Lemma sort_asc_sorted (l : list A) :
  StronglySorted (fun a b => key a <= key b) (sort_asc key l).
Proof.
  induction l as [|x l IH]; simpl; [constructor|].
  by apply insert_asc_sorted.
Qed.

Lemma sort_desc_length (l : list A) : length (sort_desc key l) = length l.
Proof. by rewrite sort_desc_perm. Qed.

Lemma sort_asc_length (l : list A) : length (sort_asc key l) = length l.
Proof. by rewrite sort_asc_perm. Qed.

End SortFacts.

Lemma slice_to_all {A} (l : list A) (n : Z) :
  (Z.of_nat (length l) <= n)%Z -> slice_to l n = l.
Proof.
  intros H. unfold slice_to.
  destruct (n <? 0)%Z eqn:E; [lia|].
  apply firstn_all2. lia.
Qed.

Lemma slice_to_sublist {A} (l : list A) (n : Z) : slice_to l n `sublist_of` l.
Proof.
  unfold slice_to. destruct (n <? 0)%Z; apply sublist_take.
Qed.

Lemma slice_to_length {A} (l : list A) (n : Z) :
  (0 <= n)%Z -> (length (slice_to l n) <= Z.to_nat n)%nat.
Proof.
  intros H. unfold slice_to.
  destruct (n <? 0)%Z eqn:E; [lia|].
  rewrite length_firstn. lia.
Qed.

Lemma filter_all {A} (P : A -> Prop) `{!forall x, Decision (P x)} (l : list A) :
  (forall x, x ∈ l -> P x) -> filter P l = l.
Proof.
  induction l as [|x l IH]; intros Hall; [done|].
  rewrite filter_cons_True by (apply Hall; by left).
  f_equal. apply IH. intros y Hy. apply Hall. by right.
Qed.

Lemma filter_none {A} (P : A -> Prop) `{!forall x, Decision (P x)} (l : list A) :
  (forall x, x ∈ l -> ~ P x) -> filter P l = [].
Proof.
  induction l as [|x l IH]; intros Hall; [done|].
  rewrite filter_cons_False by (apply Hall; by left).
  apply IH. intros y Hy. apply Hall. by right.
Qed.

Lemma StronglySorted_sublist {A} (R : A -> A -> Prop) (l k : list A) :
  l `sublist_of` k -> StronglySorted R k -> StronglySorted R l.
Proof.
  induction 1 as [|x l k Hs IH|x l k Hs IH]; intros Hk.
  - constructor.
  - apply StronglySorted_inv in Hk as [Hk Hx]. constructor; [by apply IH|].
    rewrite Forall_forall in Hx |- *. intros y Hy. apply Hx.
    by apply (sublist_subseteq _ _ Hs).
  - apply StronglySorted_inv in Hk as [Hk _]. by apply IH.
Qed.


End PyFacts.

(** ** The haversine distance *)

Module Geo.
Import RouteRecommender.

Lemma asin_nonneg (x : R) : 0 <= x -> 0 <= asin x.
Proof.
  intros Hx. unfold asin.
  pose proof PI_RGT_0 as Hpi.
  destruct (Rle_dec x (-1)) as [H1|H1]; [lra|].
  destruct (Rle_dec 1 x) as [H2|H2]; [lra|].
  assert (Hs : 0 < sqrt (1 - x²)).
  { apply sqrt_lt_R0. unfold Rsqr. nra. }
  destruct (Req_dec x 0) as [->|Hn].
  - replace (0 / sqrt (1 - 0²)) with 0 by (unfold Rdiv; ring).
    rewrite atan_0. lra.
  - rewrite <- atan_0. left. apply atan_increasing.
    apply Rdiv_lt_0_compat; lra.
Qed.

Lemma calculate_distance_nonneg (lat1 lng1 lat2 lng2 : R) :
  0 <= calculate_distance lat1 lng1 lat2 lng2.
Proof.
  unfold calculate_distance. cbv zeta.
  set (a := _ + _).
  pose proof (asin_nonneg (sqrt a) (sqrt_pos a)). lra.
Qed.

Lemma calculate_distance_same (lat1 lng1 : R) :
  calculate_distance lat1 lng1 lat1 lng1 = 0.
Proof.
  unfold calculate_distance. cbv zeta.
  replace (radians lat1 - radians lat1) with 0 by ring.
  replace (radians lng1 - radians lng1) with 0 by ring.
  replace (0 / 2) with 0 by (unfold Rdiv; ring).
  rewrite sin_0.
  replace (0 ^ 2 + cos (radians lat1) * cos (radians lat1) * 0 ^ 2) with 0 by ring.
  rewrite sqrt_0, asin_0. ring.
Qed.

(** Along a meridian the haversine distance is the arc length. *)
Lemma calculate_distance_meridian (lat1 lat2 lng1 : R) :
  Rabs (lat2 - lat1) <= 180 ->
  calculate_distance lat1 lng1 lat2 lng1 = 6371 * (Rabs (lat2 - lat1) * PI / 180).
Proof.
  intros Hb. unfold calculate_distance. cbv zeta.
  pose proof PI_RGT_0 as Hpi.
  assert (Hr : -180 <= lat2 - lat1 <= 180).
  { unfold Rabs in Hb. destruct (Rcase_abs (lat2 - lat1)); lra. }
  replace (radians lng1 - radians lng1) with 0 by ring.
  replace (0 / 2) with 0 by (unfold Rdiv; ring).
  rewrite sin_0.
  set (h := (radians lat2 - radians lat1) / 2).
  replace (sin h ^ 2 + cos (radians lat1) * cos (radians lat2) * 0 ^ 2)
    with (Rsqr (sin h)) by (unfold Rsqr; ring).
  rewrite sqrt_Rsqr_abs.
  assert (Hh : h = (lat2 - lat1) * PI / 360) by (unfold h, radians; field).
  assert (Habs : Rabs (sin h) = sin (Rabs h)).
  { unfold Rabs at 2. destruct (Rcase_abs h) as [Hneg|Hpos].
    - rewrite sin_neg. rewrite Rabs_left; [reflexivity|].
      apply sin_lt_0_var; [|lra].
      rewrite Hh in *. nra.
    - apply Rabs_right. apply Rle_ge. apply sin_ge_0; [lra|].
      rewrite Hh in *. nra. }
  rewrite Habs, asin_sin.
  - rewrite Hh. replace ((lat2 - lat1) * PI / 360) with ((lat2 - lat1) * (PI / 360)) by field.
    rewrite Rabs_mult, (Rabs_right (PI / 360)); [field|lra].
  - pose proof (Rabs_pos h). split; [lra|].
    rewrite Hh. replace ((lat2 - lat1) * PI / 360) with ((lat2 - lat1) * (PI / 360)) by field.
    rewrite Rabs_mult, (Rabs_right (PI / 360)); [nra|lra].
Qed.

End Geo.

(** ** [RouteRecommender] *)

Module RouteRecommenderSpec.
Import RouteRecommender PyFacts Geo.

Lemma find_city_coordinates_unresolved (cities : list city) (n : string) :
  unresolved cities n -> find_city_coordinates cities n = (None, None).
Proof.
  induction 1 as [|c cities Hc _ IH]; simpl; [done|].
  by destruct (decide (lower (name c) = lower n)).
Qed.


(** The loop of [_find_intermediate_cities] leaves names and coordinates
    alone, so a name resolves as before. *)
Lemma find_city_coordinates_same_entries (cities cities' : list city) (n : string) :
  Forall2 same_entry cities cities' ->
  find_city_coordinates cities' n = find_city_coordinates cities n.
Proof.
  induction 1 as [|c c' cities cities' (Hn & _ & Hlat & Hlng & _) _ IH]; simpl; [done|].
  rewrite Hn, Hlat, Hlng, IH. done.
Qed.

Lemma same_entry_refl (c : city) : same_entry c c.
Proof. by repeat split. Qed.

Lemma same_entry_mark (a b c d : R) (x : city) : same_entry x (mark a b c d x).
Proof. by repeat split. Qed.

Lemma same_entry_visit (a b c d : R) (x : city) : same_entry x (visit a b c d x).
Proof.
  unfold visit. destruct (decide _); [apply same_entry_mark|apply same_entry_refl].
Qed.

(** *** The score *)

Lemma div_unit (x : R) :
  0 <= x -> exists q, div 1 (1 + x) = Ok q /\ 0 < q <= 1.
Proof.
  intros Hx. unfold div.
  destruct (decide (1 + x = 0)) as [E|_]; [lra|].
  eexists. split; [reflexivity|].
  assert (H : 0 < / (1 + x)) by (apply Rinv_0_lt_compat; lra).
  unfold Rdiv. rewrite Rmult_1_l. split; [done|].
  rewrite <- Rinv_1. apply Rinv_le_contravar; lra.
Qed.

Lemma scenic_unit (n : nat) : 0 <= Rmin (INR n / 10) 1 <= 1.
Proof.
  pose proof (pos_INR n). split.
  - apply Rmin_glb; lra.
  - apply Rmin_r.
Qed.

Lemma get_route_score_ok (r : route) (preferences : preferences) :
  0 <= distance r -> 0 <= cost r -> 0 <= r_population r ->
  exists s, get_route_score r preferences = Ok s.
Proof.
  intros Hd Hc Hp. unfold get_route_score.
  destruct (div_unit (distance r / 100)) as (q1 & -> & B1); [lra|].
  destruct (div_unit (cost r / 1000)) as (q2 & -> & B2); [lra|].
  destruct (div_unit (r_population r / 1000000)) as (q3 & -> & B3); [lra|].
  destruct (preferences !! "fastest"%string) as [w1|];
  destruct (preferences !! "cheapest"%string) as [w2|];
  destruct (preferences !! "scenic"%string) as [w3|];
  destruct (preferences !! "quiet"%string) as [w4|];
  simpl; eexists; reflexivity.
Qed.

Lemma get_route_score_bounds (r : route) (preferences : preferences) (s : R) :
  0 <= distance r -> 0 <= cost r -> 0 <= r_population r ->
  weights_nonneg preferences ->
  get_route_score r preferences = Ok s ->
  0 <= s <= total_weight preferences.
Proof.
  intros Hd Hc Hp (Hf & Hch & Hs & Hq).
  unfold get_route_score, total_weight, weight in *.
  destruct (div_unit (distance r / 100)) as (q1 & -> & B1); [lra|].
  destruct (div_unit (cost r / 1000)) as (q2 & -> & B2); [lra|].
  destruct (div_unit (r_population r / 1000000)) as (q3 & -> & B3); [lra|].
  pose proof (scenic_unit (length (attractions r))) as B4.
  set (q4 := Rmin _ _) in *.
  destruct (preferences !! "fastest"%string) as [w1|];
  destruct (preferences !! "cheapest"%string) as [w2|];
  destruct (preferences !! "scenic"%string) as [w3|];
  destruct (preferences !! "quiet"%string) as [w4|];
  simpl in *; intros [= <-]; nra.
Qed.

(** *** The loop of [_find_intermediate_cities] *)

Lemma intermediate_step_visit (a b c d : R) (x : city) :
  intermediate_step a b c d x
  = Ok (visit a b c d x, bool_decide (accepts a b c d x)).
Proof.
  unfold intermediate_step, visit, accepts, mark, detour, div.
  pose proof (calculate_distance_nonneg a b (lat x) (lng x)) as H1.
  set (d1 := calculate_distance a b (lat x) (lng x)) in *.
  set (d2 := calculate_distance (lat x) (lng x) c d).
  set (D := calculate_distance a b c d).
  destruct (decide (d1 < D /\ d2 < D)) as [[Ha Hb]|Hn].
  - destruct (decide (D = 0)) as [E|_]; [lra|]. simpl.
    destruct (decide ((d1 + d2) / D < 1.5)) as [Hr|Hr].
    + rewrite decide_True by done. by rewrite bool_decide_eq_true_2.
    + rewrite decide_False by tauto. by rewrite bool_decide_eq_false_2 by tauto.
  - rewrite decide_False by tauto. by rewrite bool_decide_eq_false_2 by tauto.
Qed.

Lemma intermediate_loop_visit (a b c d : R) (cities : list city) :
  intermediate_loop a b c d cities
  = (map (visit a b c d) cities,
     Ok (map (mark a b c d) (filter (accepts a b c d) cities))).
Proof.
  induction cities as [|x cities IH]; simpl; [done|].
  rewrite intermediate_step_visit, IH. simpl.
  rewrite filter_cons. unfold visit at 2 3.
  destruct (decide (accepts a b c d x)) as [H|H].
  - by rewrite bool_decide_eq_true_2.
  - by rewrite bool_decide_eq_false_2.
Qed.

Lemma check_keys_marked (a b c d : R) (l : list city) :
  check_keys (map (mark a b c d) l) = Ok tt.
Proof. induction l as [|x l IH]; simpl; done. Qed.

Lemma find_intermediate_cities_eq (self : t) (a b c d : R) :
  _find_intermediate_cities self a b c d
  = (visited self a b c d, Ok (waypoints a b c d (cities_data self))).
Proof.
  unfold _find_intermediate_cities, visited, waypoints.
  rewrite intermediate_loop_visit.
  simpl. by rewrite check_keys_marked.
Qed.

(** *** The candidates *)

Lemma waypoints_perm (a b c d : R) (cities : list city) :
  waypoints a b c d cities ≡ₚ map (mark a b c d) (filter (accepts a b c d) cities).
Proof. apply sort_asc_perm. Qed.

Lemma elem_of_waypoints (a b c d : R) (cities : list city) (y : city) :
  y ∈ waypoints a b c d cities
  <-> exists x, x ∈ cities /\ accepts a b c d x /\ y = mark a b c d x.
Proof.
  rewrite waypoints_perm, list_elem_of_fmap. split.
  - intros (x & -> & [Ha Hx]%list_elem_of_filter). by exists x.
  - intros (x & Hx & Ha & ->). exists x. split; [done|].
    by apply list_elem_of_filter.
Qed.

Lemma accepts_same_coordinates (a b c d : R) (x y : city) :
  lat y = lat x -> lng y = lng x -> accepts a b c d y <-> accepts a b c d x.
Proof. unfold accepts, detour. by intros -> ->. Qed.

Lemma waypoints_population (a b c d : R) (cities : list city) :
  populations_nonneg cities ->
  Forall (fun y => 0 <= default 0 (population y)) (waypoints a b c d cities).
Proof.
  unfold populations_nonneg. rewrite !Forall_forall.
  intros H y (x & Hx & _ & ->)%elem_of_waypoints. exact (H x Hx).
Qed.

Lemma create_route_with_stops_inv
  (self : t) (origin destination : string) (ic : city) (preferences : preferences)
  (r : scored_route) :
  _create_route_with_stops self origin destination ic preferences = Ok r ->
  stops_at ic r
  /\ 0 <= distance r /\ 0 <= cost r
  /\ r_population r = default 0 (population ic)
  /\ get_route_score r preferences = Ok (score r).
Proof.
  unfold _create_route_with_stops.
  destruct (find_city_coordinates (cities_data self) origin) as [[la|] [ln|]];
  destruct (find_city_coordinates (cities_data self) destination) as [[da|] [dn|]];
  try discriminate.
  set (n := length _).
  pose proof (calculate_distance_nonneg la ln (lat ic) (lng ic)) as H1.
  pose proof (calculate_distance_nonneg (lat ic) (lng ic) da dn) as H2.
  pose proof (pos_INR n) as Hn.
  destruct (get_route_score _ preferences) as [s|e] eqn:E; [|discriminate].
  simpl. intros [= <-]. simpl.
  repeat split; try done; lra.
Qed.

Lemma create_route_with_stops_ok
  (self : t) (origin destination : string) (ic : city) (preferences : preferences)
  (la ln da dn : R) :
  find_city_coordinates (cities_data self) origin = (Some la, Some ln) ->
  find_city_coordinates (cities_data self) destination = (Some da, Some dn) ->
  0 <= default 0 (population ic) ->
  exists r, _create_route_with_stops self origin destination ic preferences = Ok r.
Proof.
  intros Ho Hd Hp. unfold _create_route_with_stops. rewrite Ho, Hd.
  set (n := length _).
  pose proof (calculate_distance_nonneg la ln (lat ic) (lng ic)) as H1.
  pose proof (calculate_distance_nonneg (lat ic) (lng ic) da dn) as H2.
  pose proof (pos_INR n) as Hn.
  match goal with |- context [get_route_score ?r _] =>
    destruct (get_route_score_ok r preferences) as (s & ->); simpl; try lra
  end.
  by eexists.
Qed.

Lemma routes_with_stops_inv
  (self : t) (origin destination : string) (l : list city) (preferences : preferences)
  (rs : list scored_route) :
  routes_with_stops self origin destination l preferences = Ok rs ->
  Forall2 (fun c r =>
    _create_route_with_stops self origin destination c preferences = Ok r) l rs.
Proof.
  revert rs. induction l as [|c l IH]; simpl; intros rs.
  - intros [= <-]. constructor.
  - destruct (_create_route_with_stops self origin destination c preferences)
      as [r|e] eqn:E; [|discriminate]. simpl.
    destruct (routes_with_stops self origin destination l preferences)
      as [rs'|e]; [|discriminate]. simpl.
    intros [= <-]. constructor; [done|by apply IH].
Qed.

Lemma routes_with_stops_ok
  (self : t) (origin destination : string) (l : list city) (preferences : preferences)
  (la ln da dn : R) :
  find_city_coordinates (cities_data self) origin = (Some la, Some ln) ->
  find_city_coordinates (cities_data self) destination = (Some da, Some dn) ->
  Forall (fun c => 0 <= default 0 (population c)) l ->
  exists rs, routes_with_stops self origin destination l preferences = Ok rs.
Proof.
  intros Ho Hd. induction 1 as [|c l Hc _ (rs & IH)]; simpl; [by eexists|].
  destruct (create_route_with_stops_ok self origin destination c preferences
              la ln da dn Ho Hd Hc) as (r & ->).
  rewrite IH. simpl. by eexists.
Qed.

Lemma visited_same_entries (self : t) (a b c d : R) :
  Forall2 same_entry (cities_data self) (cities_data (visited self a b c d)).
Proof.
  simpl. induction (cities_data self) as [|x l IH]; simpl; constructor; [|done].
  apply same_entry_visit.
Qed.

Lemma find_city_coordinates_visited (self : t) (a b c d : R) (n : string) :
  find_city_coordinates (cities_data (visited self a b c d)) n
  = find_city_coordinates (cities_data self) n.
Proof. apply find_city_coordinates_same_entries, visited_same_entries. Qed.

(** What [candidate_routes] returns when nothing raises. *)
Lemma candidate_routes_inv
  (self self' : t) (origin destination : string) (preferences : preferences)
  (a b c d : R) (routes : list scored_route) :
  candidate_routes self origin destination preferences a b c d = (self', Ok routes) ->
  self' = visited self a b c d
  /\ exists s rs,
       get_route_score (direct_route origin destination (calculate_distance a b c d))
                       preferences = Ok s
       /\ routes = direct_candidate origin destination (calculate_distance a b c d) s
                  :: rs
       /\ Forall2 (fun w r =>
            _create_route_with_stops self' origin destination w preferences = Ok r)
            (take 3 (waypoints a b c d (cities_data self))) rs.
Proof.
  unfold candidate_routes.
  destruct (get_route_score _ preferences) as [s|e] eqn:Es; [|intros [= ]].
  rewrite find_intermediate_cities_eq. simpl.
  destruct (routes_with_stops _ _ _ _ _) as [rs|e] eqn:Er; simpl; [|intros [= ]].
  intros [= <- <-]. split; [done|].
  exists s, rs. split; [done|]. split; [done|].
  by apply routes_with_stops_inv.
Qed.

(** With a resolved origin and destination and a catalog without negative
    populations, [candidate_routes] does not raise. *)
Lemma candidate_routes_ok
  (self : t) (origin destination : string) (preferences : preferences)
  (a b c d : R) :
  find_city_coordinates (cities_data self) origin = (Some a, Some b) ->
  find_city_coordinates (cities_data self) destination = (Some c, Some d) ->
  populations_nonneg (cities_data self) ->
  exists routes,
    candidate_routes self origin destination preferences a b c d
    = (visited self a b c d, Ok routes).
Proof.
  intros Ho Hd Hp. unfold candidate_routes.
  pose proof (calculate_distance_nonneg a b c d) as HD.
  destruct (get_route_score_ok
              (direct_route origin destination (calculate_distance a b c d))
              preferences) as (s & ->); simpl; try lra.
  rewrite find_intermediate_cities_eq. simpl.
  destruct (routes_with_stops_ok (visited self a b c d) origin destination
              (take 3 (waypoints a b c d (cities_data self))) preferences a b c d)
    as (rs & ->).
  - by rewrite find_city_coordinates_visited.
  - by rewrite find_city_coordinates_visited.
  - apply Forall_take. by apply waypoints_population.
  - simpl. by eexists.
Qed.

(** *** The guard of [recommend_routes] *)

Lemma all_resolved (a b c d : R) :
  a <> 0 -> b <> 0 -> c <> 0 -> d <> 0 ->
  all [Some a; Some b; Some c; Some d] = true.
Proof.
  intros. unfold all. simpl. by rewrite !decide_False by done.
Qed.

Lemma recommend_routes_resolved
  (self : t) (origin destination : string) (preferences : preferences)
  (budget : option R) (duration_days : option Z) (a b c d : R) :
  find_city_coordinates (cities_data self) origin = (Some a, Some b) ->
  find_city_coordinates (cities_data self) destination = (Some c, Some d) ->
  a <> 0 -> b <> 0 -> c <> 0 -> d <> 0 ->
  recommend_routes self origin destination preferences budget duration_days
  = (fst (candidate_routes self origin destination preferences a b c d),
     routes ← snd (candidate_routes self origin destination preferences a b c d);
     mret (rank_and_filter routes budget duration_days)).
Proof.
  intros Ho Hd ? ? ? ?. unfold recommend_routes. rewrite Ho, Hd.
  rewrite all_resolved by done. simpl.
  by destruct (candidate_routes self origin destination preferences a b c d).
Qed.

(** Every list that [recommend_routes] returns is the ranking of the
    candidates of the call (of no candidate when the guard fails). *)
Lemma recommend_routes_inv
  (self self' : t) (origin destination : string) (preferences : preferences)
  (budget : option R) (duration_days : option Z) (out : list scored_route) :
  recommend_routes self origin destination preferences budget duration_days
  = (self', Ok out) ->
  (self' = self /\ out = [])
  \/ exists a b c d routes,
       find_city_coordinates (cities_data self) origin = (Some a, Some b)
       /\ find_city_coordinates (cities_data self) destination = (Some c, Some d)
       /\ candidate_routes self origin destination preferences a b c d
          = (self', Ok routes)
       /\ out = rank_and_filter routes budget duration_days.
Proof.
  unfold recommend_routes.
  destruct (find_city_coordinates (cities_data self) origin) as [oa ob] eqn:Ho.
  destruct (find_city_coordinates (cities_data self) destination) as [da db] eqn:Hd.
  destruct (negb (all [oa; ob; da; db])) eqn:G.
  - intros [= <- <-]. by left.
  - destruct oa as [a|], ob as [b|], da as [c|], db as [d|]; try discriminate.
    destruct (candidate_routes self origin destination preferences a b c d)
      as [s r] eqn:E.
    destruct r as [routes|e]; simpl; [|discriminate].
    intros [= <- <-]. right. by exists a, b, c, d, routes.
Qed.

(** *** The ranking *)

Lemma rank_and_filter_eq
  (routes : list scored_route) (budget : option R) (duration_days : option Z) :
  rank_and_filter routes budget duration_days
  = slice_to (filter (admissible budget duration_days)
                     (sort_desc (fun x : scored_route => score x) routes))
             settings.max_routes_per_request.
Proof.
  unfold rank_and_filter. f_equal.
  set (l := sort_desc _ routes). clearbody l.
  assert (Hb : match budget with
               | Some b => if truthy budget
                           then filter (fun r : scored_route => cost r <= b) l else l
               | None => l
               end = filter (within_budget budget) l).
  { destruct budget as [b|]; simpl.
    - destruct (decide (b = 0)) as [->|Hb].
      + symmetry. apply filter_all. intros r _. by left.
      + apply list_filter_iff. intros r. simpl. split; [by right|]. by intros [|].
    - symmetry. by apply filter_all. }
  rewrite Hb. set (l' := filter (within_budget budget) l).
  assert (Hd : match duration_days with
               | Some d => if truthy_int duration_days
                           then filter (fun r : scored_route =>
                                          duration r <= IZR (d * 24)) l'
                           else l'
               | None => l'
               end = filter (within_duration duration_days) l').
  { destruct duration_days as [d|]; simpl.
    - destruct (Z.eqb_spec d 0) as [->|Hd]; simpl.
      + symmetry. apply filter_all. intros r _. by left.
      + apply list_filter_iff. intros r. simpl. split; [by right|]. by intros [|].
    - symmetry. by apply filter_all. }
  rewrite Hd. unfold l'. rewrite list_filter_filter.
  apply list_filter_iff. intros r. unfold admissible. tauto.
Qed.

Lemma rank_and_filter_sorted
  (routes : list scored_route) (budget : option R) (duration_days : option Z) :
  StronglySorted (fun x y : scored_route => score y <= score x)
                 (rank_and_filter routes budget duration_days).
Proof.
  rewrite rank_and_filter_eq.
  eapply StronglySorted_sublist; [|apply sort_desc_sorted].
  etrans; [apply slice_to_sublist|apply sublist_filter].
Qed.

Lemma elem_of_rank_and_filter
  (routes : list scored_route) (budget : option R) (duration_days : option Z)
  (r : scored_route) :
  r ∈ rank_and_filter routes budget duration_days ->
  r ∈ routes /\ admissible budget duration_days r.
Proof.
  rewrite rank_and_filter_eq. intros H.
  apply (sublist_subseteq _ _ (slice_to_sublist _ _)) in H.
  apply list_elem_of_filter in H as [Ha H].
  by rewrite sort_desc_perm in H.
Qed.

Lemma rank_and_filter_length
  (routes : list scored_route) (budget : option R) (duration_days : option Z) :
  (length (rank_and_filter routes budget duration_days) <= 5)%nat.
Proof.
  rewrite rank_and_filter_eq.
  apply (slice_to_length _ settings.max_routes_per_request). done.
Qed.

Lemma rank_and_filter_over_budget
  (routes : list scored_route) (duration_days : option Z) (b : R) :
  b <> 0 -> (forall r : scored_route, r ∈ routes -> b < cost r) ->
  rank_and_filter routes (Some b) duration_days = [].
Proof.
  intros Hb Hall. rewrite rank_and_filter_eq.
  rewrite filter_none; [done|].
  intros r Hr [[?|Hc] _]; [done|].
  rewrite sort_desc_perm in Hr. specialize (Hall r Hr). lra.
Qed.

(** Nothing is dropped when no filter is in force and there are at most
    five candidates. *)
Lemma rank_and_filter_unconstrained
  (routes : list scored_route) (budget : option R) (duration_days : option Z) :
  (forall r, r ∈ routes -> admissible budget duration_days r) ->
  (length routes <= 5)%nat ->
  rank_and_filter routes budget duration_days
  = sort_desc (fun x : scored_route => score x) routes.
Proof.
  intros Hall Hlen. rewrite rank_and_filter_eq.
  rewrite filter_all.
  - apply slice_to_all. rewrite sort_desc_length.
    unfold settings.max_routes_per_request. lia.
  - intros r Hr. apply Hall. by rewrite sort_desc_perm in Hr.
Qed.

Lemma rank_and_filter_singleton
  (r : scored_route) (budget : option R) (duration_days : option Z) :
  rank_and_filter [r] budget duration_days
  = if decide (admissible budget duration_days r) then [r] else [].
Proof.
  rewrite rank_and_filter_eq. simpl.
  rewrite filter_cons, filter_nil. by destruct (decide _).
Qed.

(** A zero budget and a zero duration are read as absent. *)
Lemma rank_and_filter_zero_budget
  (routes : list scored_route) (duration_days : option Z) :
  rank_and_filter routes (Some 0) duration_days
  = rank_and_filter routes None duration_days.
Proof.
  unfold rank_and_filter. simpl. by rewrite decide_True by done.
Qed.

Lemma rank_and_filter_zero_duration
  (routes : list scored_route) (budget : option R) :
  rank_and_filter routes budget (Some 0%Z)
  = rank_and_filter routes budget None.
Proof. done. Qed.

(** [recommend_routes] reads its budget and duration only in the ranking. *)
Lemma recommend_routes_constraints
  (self : t) (origin destination : string) (preferences : preferences)
  (budget budget' : option R) (duration_days duration_days' : option Z) :
  (forall routes, rank_and_filter routes budget duration_days
                  = rank_and_filter routes budget' duration_days') ->
  recommend_routes self origin destination preferences budget duration_days
  = recommend_routes self origin destination preferences budget' duration_days'.
Proof.
  intros H. unfold recommend_routes.
  destruct (find_city_coordinates (cities_data self) origin) as [oa ob].
  destruct (find_city_coordinates (cities_data self) destination) as [da db].
  destruct (negb (all [oa; ob; da; db])); [done|].
  destruct oa as [a|], ob as [b|], da as [c|], db as [d|]; try done.
  destruct (candidate_routes self origin destination preferences a b c d) as [s r].
  destruct r as [routes|e]; simpl; [|done]. by rewrite H.
Qed.

(** *** Calls without a waypoint *)

Lemma visited_none (self : t) (a b c d : R) :
  (forall x, x ∈ cities_data self -> ~ accepts a b c d x) ->
  visited self a b c d = self.
Proof.
  destruct self as [cities attrs]. unfold visited. simpl. intros H. f_equal.
  induction cities as [|x l IH]; simpl; [done|].
  unfold visit at 1. rewrite decide_False by (apply H; by left).
  f_equal. apply IH. intros y Hy. apply H. by right.
Qed.

Lemma waypoints_none (cities : list city) (a b c d : R) :
  (forall x, x ∈ cities -> ~ accepts a b c d x) ->
  waypoints a b c d cities = [].
Proof. intros H. unfold waypoints. by rewrite filter_none. Qed.

Lemma candidate_routes_no_waypoint
  (self : t) (origin destination : string) (preferences : preferences)
  (a b c d s : R) :
  (forall x, x ∈ cities_data self -> ~ accepts a b c d x) ->
  get_route_score (direct_route origin destination (calculate_distance a b c d))
                  preferences = Ok s ->
  candidate_routes self origin destination preferences a b c d
  = (self, Ok [direct_candidate origin destination (calculate_distance a b c d) s]).
Proof.
  intros Hn Hs. unfold candidate_routes. rewrite Hs.
  rewrite find_intermediate_cities_eq, visited_none, waypoints_none by done.
  done.
Qed.

Lemma recommend_routes_no_waypoint
  (self : t) (origin destination : string) (preferences : preferences)
  (budget : option R) (duration_days : option Z) (a b c d s : R) :
  find_city_coordinates (cities_data self) origin = (Some a, Some b) ->
  find_city_coordinates (cities_data self) destination = (Some c, Some d) ->
  a <> 0 -> b <> 0 -> c <> 0 -> d <> 0 ->
  (forall x, x ∈ cities_data self -> ~ accepts a b c d x) ->
  get_route_score (direct_route origin destination (calculate_distance a b c d))
                  preferences = Ok s ->
  recommend_routes self origin destination preferences budget duration_days
  = (self,
     Ok (rank_and_filter
           [direct_candidate origin destination (calculate_distance a b c d) s]
           budget duration_days)).
Proof.
  intros Ho Hd ? ? ? ? Hn Hs.
  rewrite (recommend_routes_resolved _ _ _ _ _ _ a b c d) by done.
  by rewrite (candidate_routes_no_waypoint _ _ _ _ a b c d s).
Qed.


(** *** Distances in the sample catalogs *)

Lemma calculate_distance_north (la1 la2 ln : R) :
  0 <= la2 - la1 <= 180 ->
  calculate_distance la1 ln la2 ln = 6371 * ((la2 - la1) * PI / 180).
Proof.
  intros H. rewrite calculate_distance_meridian.
  - by rewrite Rabs_right by lra.
  - rewrite Rabs_right; lra.
Qed.

Lemma calculate_distance_south (la1 la2 ln : R) :
  0 <= la2 - la1 <= 180 ->
  calculate_distance la2 ln la1 ln = 6371 * ((la2 - la1) * PI / 180).
Proof.
  intros H. rewrite calculate_distance_meridian.
  - rewrite Rabs_left1 by lra. f_equal. lra.
  - rewrite Rabs_left1; lra.
Qed.

Lemma past_catalog_no_waypoint (x : city) :
  x ∈ cities_data past_catalog -> ~ accepts 10 10 20 10 x.
Proof.
  pose proof PI_RGT_0 as Hpi.
  simpl. rewrite !elem_of_cons, elem_of_nil.
  intros [->|[->|[->|[]]]]; unfold accepts; simpl; intros (H1 & H2 & _).
  - lra.
  - lra.
  - rewrite !calculate_distance_north in H1 by lra. lra.
Qed.

Lemma past_catalog_detour : detour 10 10 20 10 (city_at "C" 21 10) = 1.2.
Proof.
  pose proof PI_RGT_0 as Hpi.
  unfold detour. simpl.
  rewrite (calculate_distance_north 10 21), (calculate_distance_south 20 21),
          (calculate_distance_north 10 20) by lra.
  replace ((6371 * ((21 - 10) * PI / 180) + 6371 * ((21 - 20) * PI / 180))
           / (6371 * ((20 - 10) * PI / 180))) with (12 / 10) by (field; lra).
  lra.
Qed.

Lemma midway_accepted : accepts 10 10 30 10 (city_at "M" 20 10).
Proof.
  pose proof PI_RGT_0 as Hpi.
  unfold accepts, detour. simpl.
  rewrite (calculate_distance_north 10 20), (calculate_distance_north 20 30),
          (calculate_distance_north 10 30) by lra.
  repeat split; try lra.
  replace ((6371 * ((20 - 10) * PI / 180) + 6371 * ((30 - 20) * PI / 180))
           / (6371 * ((30 - 10) * PI / 180))) with 1 by (field; lra).
  lra.
Qed.

Lemma sample_populations (self : t) :
  self = past_catalog \/ self = midway_catalog ->
  populations_nonneg (cities_data self).
Proof.
  intros [->| ->]; repeat constructor; simpl; lra.
Qed.

Lemma find_past_A :
  find_city_coordinates (cities_data past_catalog) "A" = (Some 10, Some 10).
Proof. reflexivity. Qed.

Lemma find_past_B :
  find_city_coordinates (cities_data past_catalog) "B" = (Some 20, Some 10).
Proof. reflexivity. Qed.

Lemma find_midway_A :
  find_city_coordinates (cities_data midway_catalog) "A" = (Some 10, Some 10).
Proof. reflexivity. Qed.

Lemma find_midway_B :
  find_city_coordinates (cities_data midway_catalog) "B" = (Some 30, Some 10).
Proof. reflexivity. Qed.

Lemma get_route_score_empty (r : route) : get_route_score r ∅ = Ok 0.
Proof. unfold get_route_score. by rewrite !lookup_empty. Qed.

Lemma default_weights :
  weights_nonneg settings.default_route_preferences
  /\ total_weight settings.default_route_preferences = 1.
Proof.
  unfold weights_nonneg, total_weight, weight, settings.default_route_preferences.
  repeat (rewrite ?lookup_insert_eq, ?lookup_insert_ne by done); simpl.
  repeat split; lra.
Qed.

(** *** The waypoint rule *)

Lemma detour_mark (a b c d : R) (x : city) :
  detour a b c d (mark a b c d x) = detour a b c d x.
Proof. done. Qed.




Lemma candidate_routes_shape
  (self self' : t) (origin destination : string) (preferences : preferences)
  (a b c d : R) (routes : list scored_route) :
  candidate_routes self origin destination preferences a b c d = (self', Ok routes) ->
  exists s rs,
    routes = direct_candidate origin destination (calculate_distance a b c d) s :: rs
    /\ Forall2 stops_at (take 3 (waypoints a b c d (cities_data self))) rs.
Proof.
  intros (-> & s & rs & _ & -> & H)%candidate_routes_inv.
  exists s, rs. split; [done|].
  eapply Forall2_impl; [exact H|]. simpl.
  intros w r Hr. by apply create_route_with_stops_inv in Hr as [? _].
Qed.


(** *** Unresolved names *)

(** C4. If the origin name or the destination name is not found in the
    Location Catalog, [recommend_routes] returns the empty list; it does
    not raise, and it leaves the catalog as it was. *)
Theorem recommend_routes_unresolved
  (self : t) (origin destination : string) (preferences : preferences)
  (budget : option R) (duration_days : option Z) :
  unresolved (cities_data self) origin \/ unresolved (cities_data self) destination ->
  recommend_routes self origin destination preferences budget duration_days
  = (self, Ok []).
Proof.
  intros [H|H]; unfold recommend_routes;
    rewrite (find_city_coordinates_unresolved _ _ H).
  - destruct (find_city_coordinates (cities_data self) destination) as [x y].
    reflexivity.
  - destruct (find_city_coordinates (cities_data self) origin) as [x y].
    unfold all. simpl.
    destruct (truthy x); simpl; [|reflexivity].
    destruct (truthy y); reflexivity.
Qed.

Lemma recommend_routes_unresolved_witness :
  unresolved (cities_data past_catalog) "Paris"
  /\ recommend_routes past_catalog "Paris" "A" settings.default_route_preferences
                      (Some 100) (Some 2%Z)
     = (past_catalog, Ok []).
Proof.
  assert (H : unresolved (cities_data past_catalog) "Paris").
  { repeat constructor; discriminate. }
  split; [exact H|].
  apply recommend_routes_unresolved. left. exact H.
Defined.

(** *** The ranking of a call *)

(** C5, amended. The ranking sorts the candidates by score, descending;
    it then drops every candidate whose cost exceeds the budget, when a
    budget is given and is not zero, and every candidate whose duration
    exceeds [duration_days * 24] hours, when [duration_days] is given and
    is not zero; it keeps at most 5 candidates. A budget other than zero
    that is strictly below every candidate's cost gives the empty list.
    Every list that [recommend_routes] returns is such a ranking. *)
Theorem ranking_and_filters (budget : option R) (duration_days : option Z) :
  (forall routes : list scored_route,
     let out := rank_and_filter routes budget duration_days in
     out = slice_to (filter (admissible budget duration_days)
                            (sort_desc (fun x : scored_route => score x) routes)) 5
     /\ StronglySorted (fun x y : scored_route => score y <= score x) out
     /\ (forall r, r ∈ out -> r ∈ routes /\ admissible budget duration_days r)
     /\ (length out <= 5)%nat
     /\ (forall b, budget = Some b -> b <> 0 ->
           (forall r : scored_route, r ∈ routes -> b < cost r) -> out = []))
  /\ (forall self origin destination preferences self' out,
        recommend_routes self origin destination preferences budget duration_days
        = (self', Ok out) ->
        exists routes, out = rank_and_filter routes budget duration_days).
Proof.
  split.
  - intros routes. simpl.
    split; [apply rank_and_filter_eq|].
    split; [apply rank_and_filter_sorted|].
    split; [intros r; apply elem_of_rank_and_filter|].
    split; [apply rank_and_filter_length|].
    intros b -> Hb Hall. by apply rank_and_filter_over_budget.
  - intros self origin destination preferences self' out
      [[_ ->]|(a & b & c & d & routes & _ & _ & _ & ->)]%recommend_routes_inv.
    + exists []. by rewrite rank_and_filter_eq.
    + by exists routes.
Qed.

(** C10. A budget of zero and a duration of zero days switch their filter
    off: the call returns what it returns without the argument, and no
    candidate is dropped for its cost or its duration. *)
Theorem zero_constraints_skipped
  (self : t) (origin destination : string) (preferences : preferences)
  (budget : option R) (duration_days : option Z) :
  recommend_routes self origin destination preferences (Some 0) duration_days
  = recommend_routes self origin destination preferences None duration_days
  /\ recommend_routes self origin destination preferences budget (Some 0%Z)
     = recommend_routes self origin destination preferences budget None
  /\ (forall (routes : list scored_route) (r : scored_route),
        (length routes <= 5)%nat -> r ∈ routes ->
        r ∈ rank_and_filter routes (Some 0) (Some 0%Z)).
Proof.
  split; [|split].
  - apply recommend_routes_constraints. intros routes.
    apply rank_and_filter_zero_budget.
  - apply recommend_routes_constraints. intros routes.
    apply rank_and_filter_zero_duration.
  - intros routes r Hlen Hr.
    rewrite rank_and_filter_unconstrained, sort_desc_perm; [done| |done].
    intros r' _. split; by left.
Qed.

(** *** Origin equal to destination *)

(** The guard of [recommend_routes] reads the coordinates for their truth
    value: a city on the equator or on the prime meridian resolves, and
    the call returns the empty list all the same. *)
Lemma recommend_routes_zero_coordinate
  (self : t) (origin destination : string) (preferences : preferences)
  (budget : option R) (duration_days : option Z) (x y : option R) :
  find_city_coordinates (cities_data self) origin = (x, y) ->
  x = Some 0 \/ y = Some 0 ->
  recommend_routes self origin destination preferences budget duration_days
  = (self, Ok []).
Proof.
  intros Ho H. unfold recommend_routes. rewrite Ho.
  destruct (find_city_coordinates (cities_data self) destination) as [u v].
  assert (G : all [x; y; u; v] = false).
  { unfold all. simpl. destruct H as [-> | ->]; simpl.
    - by rewrite decide_True.
    - rewrite decide_True by done. by destruct (truthy x). }
  by rewrite G.
Qed.









(** A city on the equator resolves, and the guard of [recommend_routes]
    reads its latitude as false: the call from this city to itself
    returns no candidate. *)
Lemma equator_city_dropped :
  let self := {| cities_data := [city_at "Z" 0 10]; attractions_data := [] |} in
  find_city_coordinates (cities_data self) "Z" = (Some 0, Some 10)
  /\ recommend_routes self "Z" "Z" settings.default_route_preferences None None
     = (self, Ok []).
Proof.
  simpl. split; [reflexivity|].
  eapply recommend_routes_zero_coordinate; [reflexivity|by left].
Qed.

(** *** At least the direct route *)

Lemma candidate_routes_length
  (self self' : t) (origin destination : string) (preferences : preferences)
  (a b c d : R) (routes : list scored_route) :
  candidate_routes self origin destination preferences a b c d = (self', Ok routes) ->
  length routes
  = S (min 3 (length (filter (accepts a b c d) (cities_data self)))).
Proof.
  intros (s & rs & -> & H)%candidate_routes_shape. simpl. f_equal.
  rewrite <- (Forall2_length _ _ _ H), length_take.
  by rewrite waypoints_perm, length_map.
Qed.

(** C2, amended. When the origin and the destination resolve to
    coordinates none of which is zero, no population of the catalog is
    negative and no budget or duration is given, [recommend_routes]
    returns the direct route and one more candidate for each of the
    first three accepted waypoints: at least one candidate, and more than
    one as soon as some catalog entry passes the whole acceptance test
    (both partial distances below the direct distance and a detour ratio
    below 1.5). *)
Theorem recommend_routes_nonempty
  (self : t) (origin destination : string) (preferences : preferences)
  (a b c d : R) :
  find_city_coordinates (cities_data self) origin = (Some a, Some b) ->
  find_city_coordinates (cities_data self) destination = (Some c, Some d) ->
  a <> 0 -> b <> 0 -> c <> 0 -> d <> 0 ->
  populations_nonneg (cities_data self) ->
  exists out s,
    recommend_routes self origin destination preferences None None
    = (visited self a b c d, Ok out)
    /\ direct_candidate origin destination (calculate_distance a b c d) s ∈ out
    /\ length out = S (min 3 (length (filter (accepts a b c d) (cities_data self))))
    /\ ((exists x, x ∈ cities_data self /\ accepts a b c d x) ->
        (1 < length out)%nat).
Proof.
  intros Ho Hd Ha Hb Hc Hdd Hp.
  destruct (candidate_routes_ok self origin destination preferences a b c d)
    as (routes & Hr); [done..|].
  pose proof (candidate_routes_length _ _ _ _ _ _ _ _ _ _ Hr) as Hlen.
  destruct (candidate_routes_shape _ _ _ _ _ _ _ _ _ _ Hr) as (s & rs & E & _).
  assert (Hout : rank_and_filter routes None None
                 = sort_desc (fun x : scored_route => score x) routes).
  { apply rank_and_filter_unconstrained; [done|]. rewrite Hlen. lia. }
  exists (rank_and_filter routes None None), s.
  split; [|split; [|split]].
  - rewrite (recommend_routes_resolved _ _ _ _ _ _ a b c d) by done.
    by rewrite Hr.
  - rewrite Hout, sort_desc_perm, E. by left.
  - by rewrite Hout, sort_desc_length.
  - intros (x & Hx & Hacc). rewrite Hout, sort_desc_length, Hlen.
    assert (x ∈ filter (accepts a b c d) (cities_data self))
      by (by apply list_elem_of_filter).
    destruct (filter (accepts a b c d) (cities_data self)) as [|y l];
      [by apply elem_of_nil in H|]. simpl. lia.
Qed.

Lemma recommend_routes_nonempty_witness :
  exists out,
    snd (recommend_routes midway_catalog "A" "B"
           settings.default_route_preferences None None) = Ok out
    /\ (1 < length out)%nat.
Proof.
  destruct (recommend_routes_nonempty midway_catalog "A" "B"
              settings.default_route_preferences 10 10 30 10)
    as (out & s & E & _ & _ & H).
  - reflexivity.
  - reflexivity.
  - lra.
  - lra.
  - lra.
  - lra.
  - apply sample_populations. by right.
  - exists out. rewrite E. split; [done|].
    apply H. exists (city_at "M" 20 10). split.
    + simpl. apply elem_of_cons. right. by left.
    + apply midway_accepted.
Defined.

(** C2 as stated fails: in [past_catalog] the entry [C] has a detour ratio
    of 1.2, below 1.5, on the way from [A] to [B]; the call still returns
    the direct route alone, since [C] is farther from [A] than [B] is. *)
Lemma detour_below_bound_single_candidate :
  find_city_coordinates (cities_data past_catalog) "A" = (Some 10, Some 10)
  /\ find_city_coordinates (cities_data past_catalog) "B" = (Some 20, Some 10)
  /\ 0 < calculate_distance 10 10 20 10
  /\ city_at "C" 21 10 ∈ cities_data past_catalog
  /\ detour 10 10 20 10 (city_at "C" 21 10) < 1.5
  /\ recommend_routes past_catalog "A" "B" ∅ None None
     = (past_catalog,
        Ok [direct_candidate "A" "B" (calculate_distance 10 10 20 10) 0]).
Proof.
  pose proof PI_RGT_0 as Hpi.
  split; [reflexivity|]. split; [reflexivity|].
  split; [rewrite calculate_distance_north; lra|].
  split; [simpl; rewrite !elem_of_cons; tauto|].
  split; [rewrite past_catalog_detour; lra|].
  rewrite (recommend_routes_no_waypoint past_catalog "A" "B" ∅ None None
             10 10 20 10 0 find_past_A find_past_B);
    [by rewrite rank_and_filter_singleton|lra|lra|lra|lra| |].
  - apply past_catalog_no_waypoint.
  - apply get_route_score_empty.
Qed.


(** *** The score of a returned candidate *)

Lemma candidate_score_bounds
  (self self' : t) (origin destination : string) (preferences : preferences)
  (a b c d : R) (routes : list scored_route) (r : scored_route) :
  populations_nonneg (cities_data self) ->
  weights_nonneg preferences ->
  candidate_routes self origin destination preferences a b c d = (self', Ok routes) ->
  r ∈ routes ->
  0 <= score r <= total_weight preferences.
Proof.
  intros Hp Hw (-> & s & rs & Hs & -> & H)%candidate_routes_inv Hr.
  apply elem_of_cons in Hr as [->|Hr].
  - pose proof (calculate_distance_nonneg a b c d).
    apply (get_route_score_bounds
             (direct_route origin destination (calculate_distance a b c d)));
      simpl; try done; lra.
  - apply list_elem_of_lookup in Hr as [i Hi].
    destruct (Forall2_lookup_r _ _ _ _ _ H Hi) as (w & Hw' & Hc).
    apply create_route_with_stops_inv in Hc as (_ & Hd & Hc & Hpop & Hscore).
    apply (get_route_score_bounds r); try done.
    rewrite Hpop.
    apply (list_elem_of_lookup_2 _ _ _) in Hw'.
    apply (sublist_subseteq _ _ (sublist_take _ _)) in Hw'.
    pose proof (waypoints_population a b c d _ Hp) as Hall.
    rewrite Forall_forall in Hall. by apply Hall.
Qed.

Lemma recommend_routes_score_bounds
  (self self' : t) (origin destination : string) (preferences : preferences)
  (budget : option R) (duration_days : option Z)
  (out : list scored_route) (r : scored_route) :
  populations_nonneg (cities_data self) ->
  weights_nonneg preferences ->
  recommend_routes self origin destination preferences budget duration_days
  = (self', Ok out) ->
  r ∈ out ->
  0 <= score r <= total_weight preferences.
Proof.
  intros Hp Hw [[_ ->]|(a & b & c & d & routes & _ & _ & Hc & ->)]%recommend_routes_inv Hr.
  - by apply elem_of_nil in Hr.
  - apply elem_of_rank_and_filter in Hr as [Hr _].
    by apply (candidate_score_bounds _ _ _ _ _ _ _ _ _ _ _ Hp Hw Hc).
Qed.

(** The score is not normalised: with the weight 100 on ["fastest"] the
    direct route from [A] to [B] of [past_catalog] scores more than 5. *)
Lemma direct_score_above_five :
  exists s,
    recommend_routes past_catalog "A" "B" {[ "fastest"%string := 100 ]} None None
    = (past_catalog,
       Ok [direct_candidate "A" "B" (calculate_distance 10 10 20 10) s])
    /\ 5 < s.
Proof.
  pose proof PI_RGT_0 as Hpi. pose proof PI_4 as Hpi4.
  set (D := calculate_distance 10 10 20 10).
  assert (HD : 0 <= D <= 1500).
  { unfold D. rewrite calculate_distance_north by lra. split; lra. }
  exists (0 + 100 * (1 / (1 + D / 100))). split.
  - rewrite (recommend_routes_no_waypoint past_catalog "A" "B" _ None None
               10 10 20 10 (0 + 100 * (1 / (1 + D / 100))) find_past_A find_past_B);
      [by rewrite rank_and_filter_singleton|lra|lra|lra|lra| |].
    + apply past_catalog_no_waypoint.
    + unfold get_route_score. fold D.
      rewrite lookup_singleton_eq, !lookup_singleton_ne by done.
      unfold div. simpl.
      rewrite decide_False by lra. done.
  - assert (Hx : 0 < 1 + D / 100 <= 16) by lra.
    set (x := 1 + D / 100) in *.
    assert (1 / 16 <= 1 / x).
    { unfold Rdiv. rewrite !Rmult_1_l. apply Rinv_le_contravar; lra. }
    lra.
Qed.

(** *** The catalog across a call *)

Lemma recommend_routes_catalog
  (self : t) (origin destination : string) (preferences : preferences)
  (budget : option R) (duration_days : option Z) :
  fst (recommend_routes self origin destination preferences budget duration_days) = self
  \/ exists a b c d,
       fst (recommend_routes self origin destination preferences budget duration_days)
       = visited self a b c d.
Proof.
  unfold recommend_routes.
  destruct (find_city_coordinates (cities_data self) origin) as [oa ob].
  destruct (find_city_coordinates (cities_data self) destination) as [da db].
  destruct (negb (all [oa; ob; da; db])); [by left|].
  destruct oa as [a|], ob as [b|], da as [c|], db as [d|]; try by left.
  unfold candidate_routes.
  destruct (get_route_score _ preferences) as [s|e]; [|by left].
  rewrite find_intermediate_cities_eq. right. by exists a, b, c, d.
Qed.

Lemma visit_cases (a b c d : R) (x : city) :
  visit a b c d x = x
  \/ (accepts a b c d x
      /\ visit a b c d x = set_detour_ratio x (detour a b c d x)).
Proof.
  unfold visit, mark. destruct (decide _); [by right|by left].
Qed.

(** C8, amended. A call of [recommend_routes] changes nothing in the
    catalog but the key ["detour_ratio"] of its city entries: the
    attractions are untouched, the catalog keeps its entries in their
    order, and every entry keeps its name, country, latitude, longitude
    and population; an entry is either unchanged or has had a detour
    ratio written into it. *)
Theorem catalog_frame
  (self : t) (origin destination : string) (preferences : preferences)
  (budget : option R) (duration_days : option Z) :
  let self' :=
    fst (recommend_routes self origin destination preferences budget duration_days) in
  attractions_data self' = attractions_data self
  /\ Forall2 (fun x x' =>
       same_entry x x' /\ (x' = x \/ exists r, x' = set_detour_ratio x r))
       (cities_data self) (cities_data self').
Proof.
  simpl.
  destruct (recommend_routes_catalog self origin destination preferences
              budget duration_days) as [->|(a & b & c & d & ->)].
  - split; [done|]. apply Forall2_same_length_lookup_2; [done|].
    intros i x x' Hx Hx'. rewrite Hx in Hx'. injection Hx' as <-.
    split; [apply same_entry_refl|by left].
  - split; [done|]. simpl.
    induction (cities_data self) as [|x l IH]; simpl; constructor; [|done].
    split; [apply same_entry_visit|].
    destruct (visit_cases a b c d x) as [->|[_ ->]]; [by left|right; by eexists].
Qed.

(** C8 as stated fails: the call from [A] to [B] on [midway_catalog]
    writes a detour ratio into the entry of [M]. *)
Lemma catalog_entry_rewritten :
  let self' := fst (recommend_routes midway_catalog "A" "B" ∅ None None) in
  cities_data self'
  = [ city_at "A" 10 10;
      set_detour_ratio (city_at "M" 20 10) (detour 10 10 30 10 (city_at "M" 20 10));
      city_at "B" 30 10 ]
  /\ cities_data self' <> cities_data midway_catalog.
Proof.
  pose proof PI_RGT_0 as Hpi.
  assert (E : cities_data (fst (recommend_routes midway_catalog "A" "B" ∅ None None))
              = [ city_at "A" 10 10;
                  set_detour_ratio (city_at "M" 20 10)
                                   (detour 10 10 30 10 (city_at "M" 20 10));
                  city_at "B" 30 10 ]).
  { rewrite (recommend_routes_resolved midway_catalog "A" "B" ∅ None None
               10 10 30 10 find_midway_A find_midway_B) by lra.
    simpl.
    destruct (candidate_routes_ok midway_catalog "A" "B" ∅ 10 10 30 10
                find_midway_A find_midway_B) as (routes & ->).
    { apply sample_populations. by right. }
    simpl. unfold visit.
    rewrite (decide_True _ _ midway_accepted).
    rewrite !decide_False; [done| |].
    - unfold accepts. simpl. intros (H & _). lra.
    - unfold accepts. simpl. intros (_ & H & _). lra. }
  simpl. split; [exact E|]. rewrite E. simpl. intros H. discriminate H.
Qed.

(** C5 as stated fails: a budget of 0 is strictly below the cost of the
    only candidate from [A] to [B], and the candidate is returned. *)
Lemma zero_budget_keeps_candidate :
  let direct := direct_candidate "A" "B" (calculate_distance 10 10 20 10) 0 in
  candidate_routes past_catalog "A" "B" ∅ 10 10 20 10 = (past_catalog, Ok [direct])
  /\ 0 < cost direct
  /\ recommend_routes past_catalog "A" "B" ∅ (Some 0) None
     = (past_catalog, Ok [direct]).
Proof.
  pose proof PI_RGT_0 as Hpi. simpl.
  split; [|split].
  - apply candidate_routes_no_waypoint;
      [apply past_catalog_no_waypoint|apply get_route_score_empty].
  - rewrite calculate_distance_north by lra. lra.
  - rewrite (recommend_routes_no_waypoint past_catalog "A" "B" ∅ (Some 0) None
               10 10 20 10 0 find_past_A find_past_B);
      [|lra|lra|lra|lra|apply past_catalog_no_waypoint|apply get_route_score_empty].
    rewrite rank_and_filter_singleton, decide_True; [done|].
    split; [by left|done].
Qed.

End RouteRecommenderSpec.

(** ** [AdvancedRouteRecommender] *)

Module AdvancedRouteRecommenderSpec.
Import AdvancedRouteRecommender PyFacts.

(** *** The segments of a call *)

Lemma cultural_significance_range (r : row) :
  exists v, _calculate_cultural_significance r = Ok v /\ 0 <= v <= 5.
Proof.
  unfold _calculate_cultural_significance, getitem, _load_cultural_weights.
  repeat (rewrite ?lookup_insert_eq, ?lookup_insert_ne by done).
  destruct (unesco_heritage r), (historical_period r), (religious_significance r);
    simpl; eexists; (split; [reflexivity|]);
    (split; [apply Rmin_glb; lra|apply Rmin_r]).
Qed.

Lemma segments_of_rows_ok (month : Z) (rows : list row) :
  exists segs, segments_of_rows month rows = Ok segs
            /\ Forall2 segment_from rows segs.
Proof.
  induction rows as [|r rows (segs & IH & HF)]; simpl.
  - eexists. split; [done|constructor].
  - unfold segment_of_row.
    destruct (cultural_significance_range r) as (v & -> & Hv). simpl.
    rewrite IH. simpl. eexists. split; [done|].
    constructor; [|done]. unfold segment_from. simpl. tauto.
Qed.

Lemma get_route_segments_from
  (self : t) (month : Z) (constraints : RouteConstraints) (s : RouteSegment) :
  s ∈ _get_route_segments self month constraints ->
  exists r, r ∈ db self
         /\ where_clause (c_origin_city_id constraints)
                         (c_destination_city_id constraints)
                         (avoid_cities constraints) r
         /\ segment_from r s.
Proof.
  unfold _get_route_segments.
  destruct (segments_of_rows_ok month
              (filter (where_clause (c_origin_city_id constraints)
                                    (c_destination_city_id constraints)
                                    (avoid_cities constraints)) (db self)))
    as (segs & -> & HF).
  simpl. intros Hs.
  apply list_elem_of_lookup in Hs as [i Hi].
  destruct (Forall2_lookup_r _ _ _ _ _ HF Hi) as (r & Hr & Hfrom).
  apply list_elem_of_lookup_2 in Hr.
  apply list_elem_of_filter in Hr as [Hw Hr]. by exists r.
Qed.

(** *** The combinations *)

Lemma elem_of_direct_routes
  (segs : list RouteSegment) (constraints : RouteConstraints) (r : route) :
  r ∈ direct_routes segs constraints ->
  type r = "direct"%string /\ waypoints r = []
  /\ exists s, s ∈ segs /\ segments r = [s].
Proof.
  unfold direct_routes. rewrite list_elem_of_In, in_flat_map.
  intros (s & Hs%list_elem_of_In & Hr).
  destruct (bool_decide _); simpl in Hr; [|done].
  destruct Hr as [<-|[]]. simpl. split; [done|]. split; [done|]. by exists s.
Qed.

Lemma elem_of_waypoint_routes
  (segs : list RouteSegment) (constraints : RouteConstraints) (r : route) :
  r ∈ waypoint_routes segs constraints ->
  type r = "with_waypoints"%string
  /\ exists s1 s2,
       s1 ∈ segs /\ s2 ∈ segs
       /\ origin_city_id s1 = c_origin_city_id constraints
       /\ destination_city_id s1 = origin_city_id s2
       /\ destination_city_id s2 = c_destination_city_id constraints
       /\ segments r = [s1; s2]
       /\ waypoints r = [destination_city_id s1].
Proof.
  unfold waypoint_routes. rewrite list_elem_of_In, in_flat_map.
  intros (s1 & Hs1%list_elem_of_In & Hr).
  apply in_flat_map in Hr as (s2 & Hs2%list_elem_of_In & Hr).
  destruct (bool_decide_reflect
              (origin_city_id s1 = c_origin_city_id constraints
               /\ destination_city_id s1 = origin_city_id s2
               /\ destination_city_id s2 = c_destination_city_id constraints))
    as [(H1 & H2 & H3)|_]; simpl in Hr; [|done].
  destruct Hr as [<-|[]]. simpl. split; [done|].
  by exists s1, s2.
Qed.

(** *** The returned list *)

Lemma recommend_routes_sublist
  (self : t) (month : Z) (user_preferences : UserPreferences)
  (constraints : RouteConstraints) (num_recommendations : Z) (r : scored_route) :
  r ∈ recommend_routes self month user_preferences constraints num_recommendations ->
  route_of r ∈ _generate_route_combinations
                 (_get_route_segments self month constraints) constraints
  /\ score r = _calculate_route_score self month r user_preferences.
Proof.
  unfold recommend_routes. simpl. intros H.
  apply (sublist_subseteq _ _ (slice_to_sublist _ _)) in H.
  rewrite sort_desc_perm in H.
  apply list_elem_of_fmap in H as (x & -> & Hx). by simpl.
Qed.

Lemma recommend_routes_all
  (self : t) (month : Z) (user_preferences : UserPreferences)
  (constraints : RouteConstraints) (num_recommendations : Z) (x : route) :
  let combinations :=
    _generate_route_combinations (_get_route_segments self month constraints)
                                 constraints in
  (Z.of_nat (length combinations) <= num_recommendations)%Z ->
  x ∈ combinations ->
  {| route_of := x;
     score := _calculate_route_score self month x user_preferences |}
  ∈ recommend_routes self month user_preferences constraints num_recommendations.
Proof.
  simpl. intros Hlen Hx. unfold recommend_routes. simpl.
  rewrite slice_to_all by (by rewrite sort_desc_length, length_map).
  rewrite sort_desc_perm.
  apply list_elem_of_fmap. by exists x.
Qed.

(** *** The score *)

Lemma scenic_total_nonneg (segs : list RouteSegment) (acc : R) :
  0 <= acc -> Forall rated segs ->
  0 <= fold_left (fun acc segment => acc + scenic_rating segment) segs acc.
Proof.
  intros Hacc H. revert acc Hacc.
  induction H as [|s segs [Hs _] _ IH]; simpl; intros acc Hacc; [done|].
  apply IH. lra.
Qed.

Lemma cultural_fold_nonneg
  (segs : list RouteSegment) (user_preferences : UserPreferences) (acc : R) :
  0 <= acc -> Forall rated segs ->
  0 <= fold_left (fun score segment =>
         let score := score + cultural_significance segment in
         match cultural_interests user_preferences with
         | [] => score
         | _ :: _ => score + 0.5
         end) segs acc.
Proof.
  intros Hacc H. revert acc Hacc.
  induction H as [|s segs [_ Hs] _ IH]; simpl; intros acc Hacc; [done|].
  apply IH. destruct (cultural_interests user_preferences); lra.
Qed.

Lemma average_range (total : R) (n : nat) (v : R) :
  0 <= total ->
  (div total (INR n) ≫= fun avg => mret (Rmin avg 5.0)) = Ok v ->
  0 <= v <= 5.
Proof.
  intros Ht. unfold div.
  destruct (decide (INR n = 0)) as [E|E]; simpl; [discriminate|].
  intros [= <-].
  assert (0 < INR n) by (pose proof (pos_INR n); lra).
  assert (0 <= total / INR n).
  { unfold Rdiv. apply Rmult_le_pos; [done|].
    left. by apply Rinv_0_lt_compat. }
  pose proof (Rmin_r (total / INR n) 5.0).
  assert (0 <= Rmin (total / INR n) 5.0) by (apply Rmin_glb; lra).
  lra.
Qed.

Lemma scenic_score_range (route : route) (v : R) :
  Forall rated (segments route) ->
  _calculate_scenic_score route = Ok v -> 0 <= v <= 5.
Proof.
  intros H. apply average_range. by apply scenic_total_nonneg.
Qed.

Lemma cultural_score_range
  (route : route) (user_preferences : UserPreferences) (v : R) :
  Forall rated (segments route) ->
  _calculate_cultural_score route user_preferences = Ok v -> 0 <= v <= 5.
Proof.
  intros H. apply average_range. unfold cultural_total.
  by apply cultural_fold_nonneg.
Qed.

Lemma cost_score_range (cost : R) (budget_range : string) :
  1 <= _calculate_cost_score cost budget_range <= 5.
Proof.
  unfold _calculate_cost_score. repeat destruct (decide _); lra.
Qed.

Lemma seasonal_adjustment_cases (month : Z) (route : route) :
  _get_seasonal_adjustment month route = 1.3
  \/ _get_seasonal_adjustment month route = 0.9
  \/ _get_seasonal_adjustment month route = 1.2
  \/ _get_seasonal_adjustment month route = 0.8.
Proof.
  unfold _get_seasonal_adjustment, _get_current_season, _load_seasonal_data,
         season_entry.
  repeat destruct (bool_decide _);
    repeat (rewrite ?lookup_insert_eq, ?lookup_insert_ne by done); simpl;
    repeat (rewrite ?lookup_insert_eq, ?lookup_insert_ne by done); simpl; tauto.
Qed.

Lemma preference_factor_range
  (route : route) (user_preferences : UserPreferences) :
  0 < _apply_user_preferences route user_preferences.
Proof.
  unfold _apply_user_preferences.
  repeat destruct (decide _); destruct (bool_decide _); lra.
Qed.

Lemma clip_range (p : R) : 0 <= clip p <= 5.
Proof.
  unfold clip.
  pose proof (Rmax_l 0.0 (Rmin 5.0 p)). pose proof (Rmin_l 5.0 p).
  assert (Rmax 0.0 (Rmin 5.0 p) <= 5) by (apply Rmax_lub; lra).
  lra.
Qed.

Lemma ml_score_range
  (self : t) (route : route) (user_preferences : UserPreferences) :
  0 <= _get_ml_score self route user_preferences <= 5.
Proof.
  unfold _get_ml_score.
  destruct (ml_model self) as [predict|]; simpl; [|lra].
  destruct (ml_features route user_preferences) as [features|e]; simpl; [|lra].
  destruct (predict features) as [p|e]; simpl; [apply clip_range|lra].
Qed.

Lemma rule_score_nonneg
  (month : Z) (route : route) (user_preferences : UserPreferences) (rule : R) :
  Forall rated (segments route) ->
  rule_score month route user_preferences = Ok rule -> 0 <= rule.
Proof.
  intros H. unfold rule_score.
  destruct (_calculate_cultural_score route user_preferences) as [cs|e] eqn:Ec;
    simpl; [|discriminate].
  destruct (_calculate_scenic_score route) as [ss|e] eqn:Es; simpl; [|discriminate].
  intros [= <-].
  pose proof (cultural_score_range _ _ _ H Ec).
  pose proof (scenic_score_range _ _ H Es).
  pose proof (cost_score_range (total_cost route) (budget_range user_preferences)).
  pose proof (preference_factor_range route user_preferences).
  pose proof (Rmax_l 0 (5.0 - total_distance route / 100)).
  pose proof (Rmax_l 0 (5.0 - total_duration route / 2)).
  apply Rmult_le_pos; [|lra].
  apply Rmult_le_pos; [lra|].
  destruct (seasonal_adjustment_cases month route) as [->|[->|[->| ->]]]; lra.
Qed.

Lemma calculate_route_score_range
  (self : t) (month : Z) (route : route) (user_preferences : UserPreferences) :
  Forall rated (segments route) ->
  0 <= _calculate_route_score self month route user_preferences <= 5.
Proof.
  intros H. unfold _calculate_route_score.
  destruct (rule_score month route user_preferences) as [rule|e] eqn:E;
    simpl; [|lra].
  pose proof (rule_score_nonneg _ _ _ _ H E).
  pose proof (ml_score_range self route user_preferences).
  match goal with |- _ <= Rmin ?x _ <= _ => set (base := x) end.
  assert (0 <= base) by (unfold base; destruct (ml_model self); lra).
  pose proof (Rmin_r base 5.0).
  assert (0 <= Rmin base 5.0) by (apply Rmin_glb; lra).
  lra.
Qed.

Lemma combination_rated
  (self : t) (month : Z) (constraints : RouteConstraints) (x : route) :
  scenic_nonneg (db self) ->
  x ∈ _generate_route_combinations (_get_route_segments self month constraints)
        constraints ->
  Forall rated (segments x).
Proof.
  intros Hdb Hx.
  assert (Hseg : forall s, s ∈ _get_route_segments self month constraints -> rated s).
  { intros s (r & Hr & _ & _ & _ & Hsc & Hcs)%get_route_segments_from.
    unfold scenic_nonneg in Hdb. rewrite Forall_forall in Hdb.
    split; [rewrite Hsc; by apply Hdb|lra]. }
  unfold _generate_route_combinations in Hx. apply elem_of_app in Hx as [Hx|Hx].
  - apply elem_of_direct_routes in Hx as (_ & _ & s & Hs & ->).
    constructor; [by apply Hseg|constructor].
  - apply elem_of_waypoint_routes in Hx
      as (_ & s1 & s2 & Hs1 & Hs2 & _ & _ & _ & -> & _).
    constructor; [by apply Hseg|]. constructor; [by apply Hseg|constructor].
Qed.

Lemma recommend_routes_score_range
  (self : t) (month : Z) (user_preferences : UserPreferences)
  (constraints : RouteConstraints) (num_recommendations : Z) (r : scored_route) :
  scenic_nonneg (db self) ->
  r ∈ recommend_routes self month user_preferences constraints num_recommendations ->
  0 <= score r <= 5.
Proof.
  intros Hdb [Hr ->]%recommend_routes_sublist.
  apply calculate_route_score_range. by eapply combination_rated.
Qed.

(** *** Waypoints and the avoid-set *)

Lemma waypoint_of_combination
  (self : t) (month : Z) (constraints : RouteConstraints) (x : route) :
  x ∈ _generate_route_combinations (_get_route_segments self month constraints)
        constraints ->
  type x = "with_waypoints"%string ->
  exists w, waypoints x = [w]
         /\ (w ∉ avoid_cities constraints)
         /\ (no_self_loop (db self) ->
             w <> c_origin_city_id constraints
             /\ w <> c_destination_city_id constraints).
Proof.
  unfold _generate_route_combinations. intros [Hx|Hx]%elem_of_app Hty.
  - apply elem_of_direct_routes in Hx as (Hd & _). rewrite Hd in Hty. discriminate.
  - apply elem_of_waypoint_routes in Hx
      as (_ & s1 & s2 & Hs1 & Hs2 & Ho & Hmid & Hd & _ & Hw).
    apply (get_route_segments_from self month constraints) in Hs1
      as (r1 & Hr1 & (_ & _ & Hav1) & (Ho1 & Hd1 & _)).
    apply (get_route_segments_from self month constraints) in Hs2
      as (r2 & Hr2 & _ & (Ho2 & Hd2 & _)).
    exists (destination_city_id s1). split; [done|]. split.
    + by rewrite Hd1.
    + unfold no_self_loop. rewrite Forall_forall. intros Hloop.
      pose proof (Hloop r1 Hr1). pose proof (Hloop r2 Hr2).
      split; congruence.
Qed.

(** C7, amended. The waypoint of every with-waypoints candidate that
    [AdvancedRouteRecommender.recommend_routes] returns is outside the
    avoid-set; it differs from the origin and from the destination when
    the segment table has no row from a city to itself. *)
Theorem waypoint_not_avoided
  (self : t) (month : Z) (user_preferences : UserPreferences)
  (constraints : RouteConstraints) (num_recommendations : Z) (r : scored_route) :
  r ∈ recommend_routes self month user_preferences constraints num_recommendations ->
  type r = "with_waypoints"%string ->
  exists w, waypoints r = [w]
         /\ (w ∉ avoid_cities constraints)
         /\ (no_self_loop (db self) ->
             w <> c_origin_city_id constraints
             /\ w <> c_destination_city_id constraints).
Proof.
  intros [Hr _]%recommend_routes_sublist.
  by apply (waypoint_of_combination self month).
Qed.

Lemma chain_table_segments (month : Z) :
  _get_route_segments {| db := chain_table; ml_model := None |} month
                      sample_constraints
  = [plain_segment month 1 2; plain_segment month 1 3; plain_segment month 3 2].
Proof. reflexivity. Qed.

Lemma loop_table_segments (month : Z) :
  _get_route_segments {| db := loop_table; ml_model := None |} month
                      sample_constraints
  = [plain_segment month 1 1; plain_segment month 1 2].
Proof. reflexivity. Qed.

Lemma chain_table_combinations (month : Z) :
  _generate_route_combinations
    (_get_route_segments {| db := chain_table; ml_model := None |} month
                         sample_constraints) sample_constraints
  = [plain_direct month 1 2; plain_detour month 1 3 2].
Proof. rewrite chain_table_segments. reflexivity. Qed.

Lemma loop_table_combinations (month : Z) :
  _generate_route_combinations
    (_get_route_segments {| db := loop_table; ml_model := None |} month
                         sample_constraints) sample_constraints
  = [plain_direct month 1 2; plain_detour month 1 1 2].
Proof. rewrite loop_table_segments. reflexivity. Qed.

Lemma chain_detour_returned (self : t) :
  self = {| db := chain_table; ml_model := None |} ->
  {| route_of := plain_detour 4 1 3 2;
     score := _calculate_route_score self 4 (plain_detour 4 1 3 2)
                sample_preferences |}
  ∈ recommend_routes self 4 sample_preferences sample_constraints 5.
Proof.
  intros ->. apply recommend_routes_all.
  - rewrite chain_table_combinations. simpl. lia.
  - rewrite chain_table_combinations.
    apply elem_of_cons. right. apply elem_of_cons. by left.
Qed.

Lemma waypoint_not_avoided_witness :
  exists (r : scored_route) (w : Z),
    r ∈ recommend_routes {| db := chain_table; ml_model := None |} 4
          sample_preferences sample_constraints 5
    /\ waypoints r = [w] /\ (w ∉ avoid_cities sample_constraints)
    /\ w <> 1%Z /\ w <> 2%Z.
Proof.
  set (self := {| db := chain_table; ml_model := None |}).
  set (r := {| route_of := plain_detour 4 1 3 2;
               score := _calculate_route_score self 4 (plain_detour 4 1 3 2)
                          sample_preferences |}).
  assert (Hin : r ∈ recommend_routes self 4 sample_preferences sample_constraints 5)
    by (by apply chain_detour_returned).
  destruct (waypoint_not_avoided self 4 sample_preferences sample_constraints 5 r
              Hin eq_refl) as (w & Hw & Hav & Hloop).
  exists r, w. split; [exact Hin|]. split; [exact Hw|]. split; [exact Hav|].
  apply Hloop. repeat constructor; discriminate.
Defined.

(** C7 as stated fails: with a row from city 1 to itself in the segment
    table, the call from 1 to 2 returns a with-waypoints candidate whose
    waypoint is the origin. *)
Lemma waypoint_equal_to_origin :
  exists r : scored_route,
    r ∈ recommend_routes {| db := loop_table; ml_model := None |} 4
          sample_preferences sample_constraints 5
    /\ type r = "with_waypoints"%string
    /\ waypoints r = [c_origin_city_id sample_constraints].
Proof.
  set (self := {| db := loop_table; ml_model := None |}).
  exists {| route_of := plain_detour 4 1 1 2;
            score := _calculate_route_score self 4 (plain_detour 4 1 1 2)
                       sample_preferences |}.
  split; [|done].
  apply recommend_routes_all.
  - unfold self. rewrite loop_table_combinations. simpl. lia.
  - unfold self. rewrite loop_table_combinations.
    apply elem_of_cons. right. apply elem_of_cons. by left.
Qed.

(** *** The learned scorer *)

Lemma div_by_length {A} (x : R) (l : list A) :
  l <> [] -> div x (INR (length l)) = Ok (x / INR (length l)).
Proof.
  intros Hl. unfold div. rewrite decide_False; [done|].
  destruct l as [|a l]; [done|].
  rewrite length_cons, S_INR. pose proof (pos_INR (length l)). lra.
Qed.

Lemma rule_score_ok
  (month : Z) (route : route) (user_preferences : UserPreferences) :
  segments route <> [] ->
  exists rule, rule_score month route user_preferences = Ok rule.
Proof.
  intros Hs. unfold rule_score, _calculate_cultural_score, _calculate_scenic_score.
  rewrite !div_by_length by done. simpl. by eexists.
Qed.

Lemma rule_score_features
  (month : Z) (route : route) (user_preferences : UserPreferences) (rule : R) :
  rule_score month route user_preferences = Ok rule ->
  exists features, ml_features route user_preferences = Ok features.
Proof.
  unfold rule_score, ml_features.
  destruct (_calculate_cultural_score route user_preferences) as [cs|e];
    simpl; [|discriminate].
  destruct (_calculate_scenic_score route) as [ss|e]; simpl; [|discriminate].
  intros _. by eexists.
Qed.

(** C6, amended. [_calculate_route_score] never raises: it returns 0 when
    the rule-based composite raises. Otherwise, with the composite
    [rule]: without a learned scorer the score is [min(rule, 5)]; with a
    learned scorer whose prediction raises, the neutral value 3.0 stands
    for the prediction and the score is [min(0.7 * rule + 0.3 * 3.0, 5)];
    with a prediction [p] the score is
    [min(0.7 * rule + 0.3 * clip p, 5)], where only the prediction is
    clipped to [0, 5] before the blend. *)
Theorem learned_blend
  (self : t) (month : Z) (route : route) (user_preferences : UserPreferences) :
  let final := _calculate_route_score self month route user_preferences in
  (segments route <> [] ->
     exists rule, rule_score month route user_preferences = Ok rule)
  /\ (forall e, rule_score month route user_preferences = Raise e -> final = 0.0)
  /\ (forall rule,
        rule_score month route user_preferences = Ok rule ->
        exists features,
          ml_features route user_preferences = Ok features
          /\ (ml_model self = None -> final = Rmin rule 5.0)
          /\ (forall predict e,
                ml_model self = Some predict -> predict features = Raise e ->
                final = Rmin (rule * 0.7 + 3.0 * 0.3) 5.0)
          /\ (forall predict p,
                ml_model self = Some predict -> predict features = Ok p ->
                final = Rmin (rule * 0.7 + clip p * 0.3) 5.0)).
Proof.
  simpl. split; [apply rule_score_ok|]. split.
  - intros e E. unfold _calculate_route_score. by rewrite E.
  - intros rule E.
    destruct (rule_score_features _ _ _ _ E) as (features & Hf).
    exists features. split; [done|].
    unfold _calculate_route_score, _get_ml_score. rewrite E, Hf. simpl.
    split; [by intros ->|]. split.
    + intros predict e -> Hp. by rewrite Hp.
    + intros predict p -> Hp. by rewrite Hp.
Qed.

Lemma still_rule_score :
  rule_score 1 still_route sample_preferences = Ok 2.6.
Proof.
  unfold rule_score, _calculate_cultural_score, _calculate_scenic_score.
  rewrite !div_by_length by done. simpl.
  assert (Hcost : _calculate_cost_score 0 "medium" = 5.0).
  { unfold _calculate_cost_score, budget_limits.
    rewrite lookup_insert_ne, lookup_insert_eq by done. simpl.
    by rewrite decide_True by lra. }
  assert (Hseason : _get_seasonal_adjustment 1 still_route = 0.8).
  { unfold _get_seasonal_adjustment, _get_current_season, _load_seasonal_data,
           season_entry.
    rewrite !bool_decide_eq_false_2
      by (rewrite !elem_of_cons, elem_of_nil; lia).
    repeat (rewrite ?lookup_insert_eq, ?lookup_insert_ne by done); simpl.
    by repeat (rewrite ?lookup_insert_eq, ?lookup_insert_ne by done). }
  assert (Hpref : _apply_user_preferences still_route sample_preferences = 1.0).
  { reflexivity. }
  rewrite Hcost, Hseason, Hpref. unfold cultural_total. simpl.
  rewrite (Rmax_right 0 (5.0 - 0 / 100)) by lra.
  rewrite (Rmax_right 0 (5.0 - 0 / 2)) by lra.
  rewrite (Rmin_left ((0 + 0) / 1) 5.0) by lra.
  f_equal. lra.
Qed.

(** C6 as stated fails: on [still_route] the rule-based score is 2.6; a
    learned scorer that raises turns it into 2.72. *)
Lemma failing_scorer_changes_score :
  _calculate_route_score {| db := []; ml_model := None |} 1 still_route
                         sample_preferences = 2.6
  /\ _calculate_route_score {| db := []; ml_model := Some failing_model |} 1
                            still_route sample_preferences = 2.72.
Proof.
  unfold _calculate_route_score, _get_ml_score. rewrite still_rule_score. simpl.
  destruct (rule_score_features _ _ _ _ still_rule_score) as (features & ->).
  simpl. split.
  - rewrite Rmin_left by lra. done.
  - rewrite Rmin_left by lra. lra.
Qed.

End AdvancedRouteRecommenderSpec.

(** ** The range of the score *)

Module ScoreRange.

(** C1, amended. The weights are not normalised. A candidate returned by
    [RouteRecommender.recommend_routes] has a score between 0 and the sum
    of the weights given for ["fastest"], ["cheapest"], ["scenic"] and
    ["quiet"], when these weights and the populations of the catalog are
    not negative; so the score lies in [0, 5] when that sum is at most 5.
    A candidate returned by [AdvancedRouteRecommender.recommend_routes]
    has a score in [0, 5] when no row of the segment table has a negative
    scenic rating. *)
Theorem score_range :
  (forall (self self' : RouteRecommender.t) (origin destination : string)
          (preferences : gmap string R) (budget : option R)
          (duration_days : option Z)
          (out : list RouteRecommender.scored_route)
          (r : RouteRecommender.scored_route),
     RouteRecommender.populations_nonneg (RouteRecommender.cities_data self) ->
     RouteRecommender.weights_nonneg preferences ->
     RouteRecommender.total_weight preferences <= 5 ->
     RouteRecommender.recommend_routes self origin destination preferences
                                       budget duration_days = (self', Ok out) ->
     r ∈ out ->
     0 <= RouteRecommender.score r <= RouteRecommender.total_weight preferences
     /\ RouteRecommender.score r <= 5)
  /\ (forall (self : AdvancedRouteRecommender.t) (month : Z)
             (user_preferences : AdvancedRouteRecommender.UserPreferences)
             (constraints : AdvancedRouteRecommender.RouteConstraints)
             (num_recommendations : Z)
             (r : AdvancedRouteRecommender.scored_route),
        AdvancedRouteRecommender.scenic_nonneg (AdvancedRouteRecommender.db self) ->
        r ∈ AdvancedRouteRecommender.recommend_routes self month user_preferences
              constraints num_recommendations ->
        0 <= AdvancedRouteRecommender.score r <= 5).
Proof.
  split.
  - intros self self' origin destination preferences budget duration_days out r
      Hp Hw Ht Hcall Hr.
    pose proof (RouteRecommenderSpec.recommend_routes_score_bounds
                  _ _ _ _ _ _ _ _ _ Hp Hw Hcall Hr).
    split; [done|lra].
  - intros self month user_preferences constraints num_recommendations r.
    apply AdvancedRouteRecommenderSpec.recommend_routes_score_range.
Qed.

Lemma score_range_witness :
  (exists s,
     RouteRecommender.recommend_routes RouteRecommender.past_catalog "A" "B"
       settings.default_route_preferences None None
     = (RouteRecommender.past_catalog,
        Ok [RouteRecommender.direct_candidate "A" "B"
              (RouteRecommender.calculate_distance 10 10 20 10) s])
     /\ 0 <= s <= 5)
  /\ (exists r : AdvancedRouteRecommender.scored_route,
        r ∈ AdvancedRouteRecommender.recommend_routes
              {| AdvancedRouteRecommender.db := AdvancedRouteRecommender.chain_table;
                 AdvancedRouteRecommender.ml_model := None |}
              4 AdvancedRouteRecommender.sample_preferences
              AdvancedRouteRecommender.sample_constraints 5
        /\ 0 <= AdvancedRouteRecommender.score r <= 5).
Proof.
  destruct score_range as [Hsimple Hadvanced]. split.
  - pose proof (Geo.calculate_distance_nonneg 10 10 20 10) as HD.
    destruct (RouteRecommenderSpec.get_route_score_ok
                (RouteRecommender.direct_route "A" "B"
                   (RouteRecommender.calculate_distance 10 10 20 10))
                settings.default_route_preferences) as (s & Hs);
      [simpl; lra..|].
    assert (Hcall :
      RouteRecommender.recommend_routes RouteRecommender.past_catalog "A" "B"
        settings.default_route_preferences None None
      = (RouteRecommender.past_catalog,
         Ok [RouteRecommender.direct_candidate "A" "B"
               (RouteRecommender.calculate_distance 10 10 20 10) s])).
    { rewrite (RouteRecommenderSpec.recommend_routes_no_waypoint
                 RouteRecommender.past_catalog "A" "B" _ None None 10 10 20 10 s
                 RouteRecommenderSpec.find_past_A RouteRecommenderSpec.find_past_B);
        [by rewrite RouteRecommenderSpec.rank_and_filter_singleton
        |lra|lra|lra|lra
        |apply RouteRecommenderSpec.past_catalog_no_waypoint|exact Hs]. }
    exists s. split; [exact Hcall|].
    destruct RouteRecommenderSpec.default_weights as [Hw Ht].
    destruct (Hsimple _ _ _ _ _ _ _ _
                (RouteRecommender.direct_candidate "A" "B"
                   (RouteRecommender.calculate_distance 10 10 20 10) s)
                (RouteRecommenderSpec.sample_populations _ (or_introl eq_refl))
                Hw ltac:(rewrite Ht; lra) Hcall ltac:(by left)) as [[H0 _] H5].
    simpl in *. lra.
  - eexists. split.
    + by apply AdvancedRouteRecommenderSpec.chain_detour_returned.
    + eapply Hadvanced;
        [|by apply AdvancedRouteRecommenderSpec.chain_detour_returned].
      repeat constructor; simpl; lra.
Defined.

End ScoreRange.

(** ** More about [RouteRecommender] *)

Module RouteRecommenderMore.
Import RouteRecommender RouteRecommenderTerms PyFacts Geo RouteRecommenderSpec.

(** *** [calculate_distance] *)

(** X1. The distance from a point to another is the distance back. *)
Theorem calculate_distance_sym (lat1 lng1 lat2 lng2 : R) :
  calculate_distance lat1 lng1 lat2 lng2 = calculate_distance lat2 lng2 lat1 lng1.
Proof.
  unfold calculate_distance. cbv zeta. do 4 f_equal.
  replace ((radians lat1 - radians lat2) / 2)
    with (- ((radians lat2 - radians lat1) / 2)) by lra.
  replace ((radians lng1 - radians lng2) / 2)
    with (- ((radians lng2 - radians lng1) / 2)) by lra.
  rewrite !sin_neg. ring.
Qed.

(** X2. A distance lies between 0 and half the circumference of the
    sphere of radius 6371, and the distance from a point to itself is 0. *)
Theorem calculate_distance_range (lat1 lng1 lat2 lng2 : R) :
  0 <= calculate_distance lat1 lng1 lat2 lng2 <= 6371 * PI
  /\ calculate_distance lat1 lng1 lat1 lng1 = 0.
Proof.
  split; [|apply calculate_distance_same].
  split; [apply calculate_distance_nonneg|].
  unfold calculate_distance. cbv zeta.
  match goal with |- context [asin ?x] => pose proof (asin_bound x) end.
  lra.
Qed.

(** *** [find_city_coordinates] *)

Lemma find_city_coordinates_app (pre post : list city) (n : string) :
  unresolved pre n ->
  find_city_coordinates (pre ++ post) n = find_city_coordinates post n.
Proof.
  induction 1 as [|c pre Hc _ IH]; simpl; [done|].
  by rewrite decide_False.
Qed.

Lemma find_city_coordinates_split (cities : list city) (n : string) :
  (unresolved cities n /\ find_city_coordinates cities n = (None, None))
  \/ exists pre c post,
       cities = pre ++ c :: post /\ unresolved pre n
       /\ lower (name c) = lower n
       /\ find_city_coordinates cities n = (Some (lat c), Some (lng c)).
Proof.
  induction cities as [|c cities IH]; simpl.
  - left. split; [constructor|done].
  - destruct (decide (lower (name c) = lower n)) as [E|E].
    + right. exists [], c, cities. repeat split; [constructor|done].
    + destruct IH as [[Hu IH]|(pre & c' & post & -> & Hu & Hn & IH)].
      * left. split; [by constructor|done].
      * right. exists (c :: pre), c', post.
        repeat split; [by constructor|done|done].
Qed.

(** X3. [find_city_coordinates] gives the coordinates of the first entry
    whose name is the given name up to the case of letters, and
    [(None, None)] exactly when there is no such entry; names that differ
    in case only resolve alike. *)
Theorem find_city_coordinates_first_match (cities : list city) (n : string) :
  (find_city_coordinates cities n = (None, None) <-> unresolved cities n)
  /\ (unresolved cities n
      \/ exists pre c post,
           cities = pre ++ c :: post /\ unresolved pre n
           /\ lower (name c) = lower n
           /\ find_city_coordinates cities n = (Some (lat c), Some (lng c)))
  /\ (forall n', lower n' = lower n ->
        find_city_coordinates cities n' = find_city_coordinates cities n).
Proof.
  split; [|split].
  - split; [|apply find_city_coordinates_unresolved].
    destruct (find_city_coordinates_split cities n)
      as [[Hu _]|(pre & c & post & _ & _ & _ & ->)]; [done|discriminate].
  - destruct (find_city_coordinates_split cities n) as [[Hu _]|H];
      [by left|by right].
  - intros n' E. induction cities as [|c cities IH]; simpl; [done|].
    by rewrite E, IH.
Qed.

(** *** [get_route_score] *)

Lemma same_weights_lookup (p q : gmap string R) :
  same_weights p q ->
  p !! "fastest"%string = q !! "fastest"%string
  /\ p !! "cheapest"%string = q !! "cheapest"%string
  /\ p !! "scenic"%string = q !! "scenic"%string
  /\ p !! "quiet"%string = q !! "quiet"%string.
Proof.
  unfold same_weights, score_keys. rewrite !Forall_cons. tauto.
Qed.

Lemma inv_unit_mono (x y : R) :
  0 <= x <= y -> 1 / (1 + y) <= 1 / (1 + x).
Proof.
  intros H. unfold Rdiv. rewrite !Rmult_1_l.
  apply Rinv_le_contravar; lra.
Qed.

Lemma div_unit_eq (x : R) : 0 <= x -> div 1 (1 + x) = Ok (1 / (1 + x)).
Proof. intros H. unfold div. by rewrite decide_False by lra. Qed.

(** X4. [get_route_score] reads no key but ["fastest"], ["cheapest"],
    ["scenic"] and ["quiet"]: dictionaries that agree on these four give
    the same score (or the same exception), and the empty dictionary
    gives the score 0. *)
Theorem get_route_score_keys (r : route) (p q : gmap string R) :
  (same_weights p q -> get_route_score r p = get_route_score r q)
  /\ get_route_score r ∅ = Ok 0.
Proof.
  split; [|apply get_route_score_empty].
  intros (H1 & H2 & H3 & H4)%same_weights_lookup.
  unfold get_route_score. by rewrite H1, H2, H3, H4.
Qed.

Lemma get_route_score_keys_witness :
  get_route_score (direct_route "A" "B" 100)
                  (<["comfort"%string := 7]> settings.default_route_preferences)
  = get_route_score (direct_route "A" "B" 100) settings.default_route_preferences.
Proof.
  apply (get_route_score_keys (direct_route "A" "B" 100)).
  unfold same_weights, score_keys.
  repeat constructor; by rewrite lookup_insert_ne.
Defined.

(** X5. With weights that are not negative, a route that is no longer, no
    dearer, no more populated and no poorer in attractions than another
    scores at least as much. *)
Theorem get_route_score_monotone
  (r1 r2 : route) (preferences : gmap string R) (s1 s2 : R) :
  weights_nonneg preferences ->
  nonneg_route r1 -> dominates r1 r2 ->
  get_route_score r1 preferences = Ok s1 ->
  get_route_score r2 preferences = Ok s2 ->
  s2 <= s1.
Proof.
  intros (Hf & Hc & Hs & Hq) (Hd1 & Hc1 & Hp1) (Hd & Hcost & Hpop & Hatt).
  unfold weights_nonneg, weight, get_route_score in *.
  rewrite !div_unit_eq by lra.
  pose proof (inv_unit_mono (distance r1 / 100) (distance r2 / 100)) as M1.
  pose proof (inv_unit_mono (cost r1 / 1000) (cost r2 / 1000)) as M2.
  pose proof (inv_unit_mono (r_population r1 / 1000000)
                            (r_population r2 / 1000000)) as M3.
  assert (M4 : Rmin (INR (length (attractions r2)) / 10) 1
               <= Rmin (INR (length (attractions r1)) / 10) 1).
  { apply le_INR in Hatt. apply Rle_min_compat_r. lra. }
  specialize (M1 ltac:(lra)). specialize (M2 ltac:(lra)). specialize (M3 ltac:(lra)).
  destruct (preferences !! "fastest"%string) as [w1|];
  destruct (preferences !! "cheapest"%string) as [w2|];
  destruct (preferences !! "scenic"%string) as [w3|];
  destruct (preferences !! "quiet"%string) as [w4|];
  simpl in *; intros [= <-] [= <-]; nra.
Qed.

Lemma get_route_score_monotone_witness :
  exists s1 s2,
    get_route_score (direct_route "A" "B" 100) settings.default_route_preferences
    = Ok s1
    /\ get_route_score (direct_route "A" "B" 300) settings.default_route_preferences
       = Ok s2
    /\ s2 <= s1.
Proof.
  destruct (get_route_score_ok (direct_route "A" "B" 100)
              settings.default_route_preferences) as (s1 & H1); [simpl; lra..|].
  destruct (get_route_score_ok (direct_route "A" "B" 300)
              settings.default_route_preferences) as (s2 & H2); [simpl; lra..|].
  exists s1, s2. split; [exact H1|]. split; [exact H2|].
  apply (get_route_score_monotone (direct_route "A" "B" 100)
           (direct_route "A" "B" 300) settings.default_route_preferences s1 s2).
  - apply default_weights.
  - unfold nonneg_route. simpl. lra.
  - unfold dominates. simpl. repeat split; try lra. lia.
  - exact H1.
  - exact H2.
Defined.

(** *** The candidates that a call returns *)

Lemma create_route_with_stops_fields
  (self : t) (origin destination : string) (w : city) (preferences : preferences)
  (r : scored_route) :
  _create_route_with_stops self origin destination w preferences = Ok r ->
  priced r /\ is_stop self origin destination w r
  /\ get_route_score r preferences = Ok (score r).
Proof.
  unfold _create_route_with_stops.
  destruct (find_city_coordinates (cities_data self) origin) as [[la|] [ln|]];
  destruct (find_city_coordinates (cities_data self) destination) as [[da|] [dn|]];
  try discriminate.
  pose proof (calculate_distance_nonneg la ln (lat w) (lng w)) as H1.
  pose proof (calculate_distance_nonneg (lat w) (lng w) da dn) as H2.
  destruct (get_route_score _ preferences) as [s|e] eqn:E; [|discriminate].
  simpl. intros [= <-]. unfold priced, is_stop. simpl.
  repeat split; try done. lra.
Qed.

Lemma direct_candidate_fields (origin destination : string) (D s : R) :
  0 <= D ->
  priced (direct_candidate origin destination D s)
  /\ is_direct origin destination (direct_candidate origin destination D s).
Proof.
  intros HD. unfold priced, is_direct. simpl. repeat split; try done; lra.
Qed.

(** X6. Every candidate that [recommend_routes] returns carries the score
    that [get_route_score] gives it; its distance is not negative; its
    cost is half its distance plus 50 for each of its attractions and its
    duration is its distance over 80 plus 2 hours for each attraction.
    It is either the direct candidate, without attractions, or a
    candidate through a city of the catalog whose attractions are exactly
    the attractions recorded for that city. *)
Theorem returned_candidate_fields
  (self self' : t) (origin destination : string) (preferences : preferences)
  (budget : option R) (duration_days : option Z)
  (out : list scored_route) (r : scored_route) :
  recommend_routes self origin destination preferences budget duration_days
  = (self', Ok out) ->
  r ∈ out ->
  get_route_score r preferences = Ok (score r)
  /\ priced r
  /\ (is_direct origin destination r
      \/ exists w, w ∈ cities_data self' /\ is_stop self origin destination w r).
Proof.
  intros [[_ ->]|(a & b & c & d & routes & _ & _ & Hc & ->)]%recommend_routes_inv Hr.
  { by apply elem_of_nil in Hr. }
  apply elem_of_rank_and_filter in Hr as [Hr _].
  apply candidate_routes_inv in Hc as (-> & s & rs & Hs & -> & H).
  pose proof (calculate_distance_nonneg a b c d) as HD.
  apply elem_of_cons in Hr as [->|Hr].
  - destruct (direct_candidate_fields origin destination _ s HD) as [Hp Hdir].
    split; [done|]. split; [done|by left].
  - apply list_elem_of_lookup in Hr as [i Hi].
    destruct (Forall2_lookup_r _ _ _ _ _ H Hi) as (w & Hw & Hcr).
    apply create_route_with_stops_fields in Hcr as (Hp & Hstop & Hscore).
    split; [done|]. split; [done|]. right. exists w. split; [|done].
    apply list_elem_of_lookup_2 in Hw.
    apply (sublist_subseteq _ _ (sublist_take _ _)) in Hw.
    apply elem_of_waypoints in Hw as (x & Hx & Hacc & ->).
    simpl. apply list_elem_of_fmap. exists x. split; [|done].
    unfold visit. by rewrite decide_True.
Qed.

Lemma returned_candidate_fields_witness :
  priced (direct_candidate "A" "B" (calculate_distance 10 10 20 10) 0)
  /\ is_direct "A" "B" (direct_candidate "A" "B" (calculate_distance 10 10 20 10) 0).
Proof.
  assert (Hcall :
    recommend_routes past_catalog "A" "B" ∅ None None
    = (past_catalog,
       Ok [direct_candidate "A" "B" (calculate_distance 10 10 20 10) 0])).
  { rewrite (recommend_routes_no_waypoint past_catalog "A" "B" ∅ None None
               10 10 20 10 0 find_past_A find_past_B);
      [by rewrite rank_and_filter_singleton|lra|lra|lra|lra| |].
    - apply past_catalog_no_waypoint.
    - apply get_route_score_empty. }
  destruct (returned_candidate_fields _ _ _ _ _ _ _ _
              (direct_candidate "A" "B" (calculate_distance 10 10 20 10) 0)
              Hcall ltac:(by left)) as (_ & Hp & [Hd|(w & _ & Hty & _)]).
  - split; [exact Hp|exact Hd].
  - discriminate Hty.
Defined.

Lemma accepts_apart (a b c d : R) (x : city) :
  accepts a b c d x -> (lat x, lng x) <> (a, b) /\ (lat x, lng x) <> (c, d).
Proof.
  intros (H1 & H2 & _). split; intros [= E1 E2]; rewrite E1, E2 in *.
  - lra.
  - lra.
Qed.

(** X7. A call returns at most four candidates. The city of every
    with-stops candidate is a catalog entry that passes the waypoint test
    for the resolved coordinates of the call; its coordinates are neither
    those of the origin nor those of the destination. *)
Theorem returned_candidates_waypoints
  (self self' : t) (origin destination : string) (preferences : preferences)
  (budget : option R) (duration_days : option Z) (out : list scored_route) :
  recommend_routes self origin destination preferences budget duration_days
  = (self', Ok out) ->
  (length out <= 4)%nat
  /\ forall r : scored_route,
       r ∈ out -> type r = "with_stops"%string ->
       exists a b c d x,
         find_city_coordinates (cities_data self) origin = (Some a, Some b)
         /\ find_city_coordinates (cities_data self) destination = (Some c, Some d)
         /\ x ∈ cities_data self /\ accepts a b c d x
         /\ intermediate_city r = Some (name x)
         /\ (lat x, lng x) <> (a, b) /\ (lat x, lng x) <> (c, d).
Proof.
  intros [[_ ->]|(a & b & c & d & routes & Ho & Hd & Hc & ->)]%recommend_routes_inv.
  { split; [simpl; lia|]. intros r Hr. by apply elem_of_nil in Hr. }
  split.
  - rewrite rank_and_filter_eq.
    etrans; [apply sublist_length, slice_to_sublist|].
    etrans; [apply length_filter|].
    rewrite sort_desc_length, (candidate_routes_length _ _ _ _ _ _ _ _ _ _ Hc). lia.
  - intros r Hr Hty. apply elem_of_rank_and_filter in Hr as [Hr _].
    apply candidate_routes_shape in Hc as (s & rs & -> & H).
    apply elem_of_cons in Hr as [->|Hr]; [discriminate Hty|].
    apply list_elem_of_lookup in Hr as [i Hi].
    destruct (Forall2_lookup_r _ _ _ _ _ H Hi) as (w & Hw & _ & Hic).
    apply list_elem_of_lookup_2 in Hw.
    apply (sublist_subseteq _ _ (sublist_take _ _)) in Hw.
    apply elem_of_waypoints in Hw as (x & Hx & Hacc & ->).
    destruct (accepts_apart _ _ _ _ _ Hacc) as [N1 N2].
    by exists a, b, c, d, x.
Qed.

Lemma midway_call :
  exists out,
    recommend_routes midway_catalog "A" "B" settings.default_route_preferences
                     None None
    = (visited midway_catalog 10 10 30 10, Ok out).
Proof.
  destruct (candidate_routes_ok midway_catalog "A" "B"
              settings.default_route_preferences 10 10 30 10
              find_midway_A find_midway_B) as (routes & Hr).
  { apply sample_populations. by right. }
  exists (rank_and_filter routes None None).
  rewrite (recommend_routes_resolved midway_catalog "A" "B" _ None None
             10 10 30 10 find_midway_A find_midway_B) by lra.
  by rewrite Hr.
Qed.

Lemma returned_candidates_waypoints_witness :
  exists out,
    snd (recommend_routes midway_catalog "A" "B"
           settings.default_route_preferences None None) = Ok out
    /\ (length out <= 4)%nat.
Proof.
  destruct midway_call as (out & Hcall).
  exists out. rewrite Hcall. split; [reflexivity|].
  exact (proj1 (returned_candidates_waypoints _ _ _ _ _ _ _ _ Hcall)).
Defined.

(** *** The key ["detour_ratio"] does not matter *)

Lemma mark_same_entry (a b c d : R) (x y : city) :
  same_entry x y -> mark a b c d y = mark a b c d x.
Proof.
  intros (Hn & Hc & Hlat & Hlng & Hp).
  unfold mark, set_detour_ratio, detour. by rewrite Hn, Hc, Hlat, Hlng, Hp.
Qed.

Lemma accepts_same_entry (a b c d : R) (x y : city) :
  same_entry x y -> accepts a b c d y <-> accepts a b c d x.
Proof.
  intros (_ & _ & Hlat & Hlng & _). by apply accepts_same_coordinates.
Qed.

Lemma marked_same_entries (a b c d : R) (l1 l2 : list city) :
  Forall2 same_entry l1 l2 ->
  map (mark a b c d) (filter (accepts a b c d) l2)
  = map (mark a b c d) (filter (accepts a b c d) l1).
Proof.
  induction 1 as [|x y l1 l2 Hxy _ IH]; [done|].
  rewrite !filter_cons.
  destruct (decide (accepts a b c d x)) as [Hx|Hx].
  - rewrite decide_True by (by apply (accepts_same_entry a b c d x y)).
    simpl. by rewrite IH, (mark_same_entry a b c d x y).
  - rewrite decide_False; [done|].
    by rewrite (accepts_same_entry a b c d x y).
Qed.

Lemma waypoints_same_entries (a b c d : R) (l1 l2 : list city) :
  Forall2 same_entry l1 l2 -> waypoints a b c d l2 = waypoints a b c d l1.
Proof. intros H. unfold waypoints. by rewrite (marked_same_entries a b c d l1 l2). Qed.

Lemma visit_same_entries (a b c d : R) (l1 l2 : list city) :
  Forall2 same_entry l1 l2 ->
  Forall2 same_entry (map (visit a b c d) l1) (map (visit a b c d) l2).
Proof.
  induction 1 as [|x y l1 l2 Hxy _ IH]; simpl; constructor; [|done].
  destruct Hxy as (Hn & Hc & Hlat & Hlng & Hp).
  destruct (same_entry_visit a b c d x) as (Hn1 & Hc1 & Hlat1 & Hlng1 & Hp1).
  destruct (same_entry_visit a b c d y) as (Hn2 & Hc2 & Hlat2 & Hlng2 & Hp2).
  repeat split; congruence.
Qed.

Lemma create_route_with_stops_same_entries
  (s1 s2 : t) (origin destination : string) (w : city) (preferences : preferences) :
  Forall2 same_entry (cities_data s1) (cities_data s2) ->
  attractions_data s2 = attractions_data s1 ->
  _create_route_with_stops s2 origin destination w preferences
  = _create_route_with_stops s1 origin destination w preferences.
Proof.
  intros Hc Ha. unfold _create_route_with_stops.
  by rewrite Ha, !(find_city_coordinates_same_entries _ _ _ Hc).
Qed.

Lemma routes_with_stops_same_entries
  (s1 s2 : t) (origin destination : string) (l : list city)
  (preferences : preferences) :
  Forall2 same_entry (cities_data s1) (cities_data s2) ->
  attractions_data s2 = attractions_data s1 ->
  routes_with_stops s2 origin destination l preferences
  = routes_with_stops s1 origin destination l preferences.
Proof.
  intros Hc Ha. induction l as [|w l IH]; simpl; [done|].
  by rewrite IH, (create_route_with_stops_same_entries s1 s2).
Qed.

Lemma candidate_routes_same_entries
  (s1 s2 : t) (origin destination : string) (preferences : preferences)
  (a b c d : R) :
  Forall2 same_entry (cities_data s1) (cities_data s2) ->
  attractions_data s2 = attractions_data s1 ->
  snd (candidate_routes s2 origin destination preferences a b c d)
  = snd (candidate_routes s1 origin destination preferences a b c d)
  /\ Forall2 same_entry
       (cities_data (fst (candidate_routes s1 origin destination preferences a b c d)))
       (cities_data (fst (candidate_routes s2 origin destination preferences a b c d)))
  /\ attractions_data (fst (candidate_routes s2 origin destination preferences a b c d))
     = attractions_data (fst (candidate_routes s1 origin destination preferences a b c d)).
Proof.
  intros Hc Ha. unfold candidate_routes.
  destruct (get_route_score _ preferences) as [s|e]; simpl; [|done].
  rewrite !find_intermediate_cities_eq. simpl.
  rewrite (waypoints_same_entries a b c d _ _ Hc).
  split; [|split; [by apply visit_same_entries|done]].
  rewrite (routes_with_stops_same_entries (visited s1 a b c d) (visited s2 a b c d));
    [done|simpl; by apply visit_same_entries|done].
Qed.

Lemma recommend_routes_same_entries
  (s1 s2 : t) (origin destination : string) (preferences : preferences)
  (budget : option R) (duration_days : option Z) :
  Forall2 same_entry (cities_data s1) (cities_data s2) ->
  attractions_data s2 = attractions_data s1 ->
  snd (recommend_routes s2 origin destination preferences budget duration_days)
  = snd (recommend_routes s1 origin destination preferences budget duration_days)
  /\ Forall2 same_entry
       (cities_data (fst (recommend_routes s1 origin destination preferences
                            budget duration_days)))
       (cities_data (fst (recommend_routes s2 origin destination preferences
                            budget duration_days))).
Proof.
  intros Hc Ha. unfold recommend_routes.
  rewrite !(find_city_coordinates_same_entries _ _ _ Hc).
  destruct (find_city_coordinates (cities_data s1) origin) as [oa ob].
  destruct (find_city_coordinates (cities_data s1) destination) as [da db].
  destruct (negb (all [oa; ob; da; db])); [done|].
  destruct oa as [a|], ob as [b|], da as [c|], db as [d|]; try done.
  destruct (candidate_routes_same_entries s1 s2 origin destination preferences
              a b c d Hc Ha) as (Hs & Hf & _).
  destruct (candidate_routes s1 origin destination preferences a b c d) as [t1 r1].
  destruct (candidate_routes s2 origin destination preferences a b c d) as [t2 r2].
  simpl in *. by rewrite Hs.
Qed.

(** X8. What [recommend_routes] returns or raises does not depend on the
    keys ["detour_ratio"] that earlier calls have left in the catalog:
    two catalogs whose entries agree on name, country, coordinates and
    population, with the same attractions, give the same result, and
    agree in the same way after the call. *)
Theorem detour_ratio_ignored
  (s1 s2 : t) (origin destination : string) (preferences : preferences)
  (budget : option R) (duration_days : option Z) :
  Forall2 same_entry (cities_data s1) (cities_data s2) ->
  attractions_data s2 = attractions_data s1 ->
  snd (recommend_routes s2 origin destination preferences budget duration_days)
  = snd (recommend_routes s1 origin destination preferences budget duration_days)
  /\ Forall2 same_entry
       (cities_data (fst (recommend_routes s1 origin destination preferences
                            budget duration_days)))
       (cities_data (fst (recommend_routes s2 origin destination preferences
                            budget duration_days))).
Proof. apply recommend_routes_same_entries. Qed.

Lemma detour_ratio_ignored_witness :
  snd (recommend_routes (visited midway_catalog 10 10 30 10) "A" "M"
         settings.default_route_preferences None None)
  = snd (recommend_routes midway_catalog "A" "M"
           settings.default_route_preferences None None).
Proof.
  apply (detour_ratio_ignored midway_catalog (visited midway_catalog 10 10 30 10)).
  - apply visited_same_entries.
  - reflexivity.
Defined.

Lemma visit_idem (a b c d : R) (x : city) :
  visit a b c d (visit a b c d x) = visit a b c d x.
Proof.
  destruct (visit_cases a b c d x) as [E|[Hacc E]].
  - rewrite E. exact E.
  - rewrite E. unfold visit. rewrite decide_True; [reflexivity|].
    by apply (accepts_same_coordinates a b c d x
                (set_detour_ratio x (detour a b c d x))).
Qed.

Lemma visited_idem (self : t) (a b c d : R) :
  visited (visited self a b c d) a b c d = visited self a b c d.
Proof.
  unfold visited. simpl. f_equal.
  rewrite <- list_fmap_compose. apply list_fmap_ext. intros i x _. apply visit_idem.
Qed.

Lemma same_entries_refl (l : list city) : Forall2 same_entry l l.
Proof. induction l; constructor; [apply same_entry_refl|done]. Qed.

Lemma recommend_routes_catalog_uniform
  (self : t) (origin destination : string) (preferences : preferences)
  (budget : option R) (duration_days : option Z) :
  (forall s2, Forall2 same_entry (cities_data self) (cities_data s2) ->
     fst (recommend_routes s2 origin destination preferences budget duration_days)
     = s2)
  \/ exists a b c d,
       forall s2, Forall2 same_entry (cities_data self) (cities_data s2) ->
         fst (recommend_routes s2 origin destination preferences budget
                duration_days) = visited s2 a b c d.
Proof.
  destruct (find_city_coordinates (cities_data self) origin) as [oa ob] eqn:Ho.
  destruct (find_city_coordinates (cities_data self) destination) as [da db] eqn:Hd.
  assert (Hfind : forall s2,
    Forall2 same_entry (cities_data self) (cities_data s2) ->
    find_city_coordinates (cities_data s2) origin = (oa, ob)
    /\ find_city_coordinates (cities_data s2) destination = (da, db)).
  { intros s2 H. by rewrite !(find_city_coordinates_same_entries _ _ _ H). }
  destruct (negb (all [oa; ob; da; db])) eqn:G.
  { left. intros s2 [E1 E2]%Hfind. unfold recommend_routes. by rewrite E1, E2, G. }
  destruct oa as [a|], ob as [b|], da as [c|], db as [d|];
    try (left; intros s2 [E1 E2]%Hfind; unfold recommend_routes;
         by rewrite E1, E2, G).
  destruct (get_route_score
              (direct_route origin destination (calculate_distance a b c d))
              preferences) as [s|e] eqn:Es.
  - right. exists a, b, c, d. intros s2 [E1 E2]%Hfind.
    unfold recommend_routes. rewrite E1, E2, G.
    unfold candidate_routes. rewrite Es, find_intermediate_cities_eq. done.
  - left. intros s2 [E1 E2]%Hfind.
    unfold recommend_routes. rewrite E1, E2, G.
    unfold candidate_routes. by rewrite Es.
Qed.

(** X9. A second call with the same arguments, on the catalog as the
    first call left it, returns (or raises) what the first one did and
    leaves the catalog as it found it. *)
Theorem recommend_routes_idempotent
  (self : t) (origin destination : string) (preferences : preferences)
  (budget : option R) (duration_days : option Z) :
  let first := recommend_routes self origin destination preferences
                                budget duration_days in
  recommend_routes (fst first) origin destination preferences budget duration_days
  = first.
Proof.
  simpl.
  set (first := recommend_routes self origin destination preferences
                                 budget duration_days).
  assert (Hstate : Forall2 same_entry (cities_data self) (cities_data (fst first))
                   /\ attractions_data (fst first) = attractions_data self
                   /\ fst (recommend_routes (fst first) origin destination
                             preferences budget duration_days) = fst first).
  { destruct (recommend_routes_catalog_uniform self origin destination preferences
                budget duration_days) as [H|(a & b & c & d & H)].
    - pose proof (H self (same_entries_refl _)) as E. fold first in E.
      rewrite E. split; [apply same_entries_refl|]. split; [done|].
      apply H, same_entries_refl.
    - pose proof (H self (same_entries_refl _)) as E. fold first in E.
      rewrite E. split; [apply visited_same_entries|]. split; [done|].
      rewrite (H (visited self a b c d) (visited_same_entries _ _ _ _ _)).
      apply visited_idem. }
  destruct Hstate as (Hc & Ha & Hf).
  destruct (recommend_routes_same_entries self (fst first) origin destination
              preferences budget duration_days Hc Ha) as [Hs _].
  fold first in Hs.
  destruct (recommend_routes (fst first) origin destination preferences
              budget duration_days) as [s2 r2].
  destruct first as [s1 r1]. simpl in *. by subst.
Qed.

(** *** Scaling the weights *)











End RouteRecommenderMore.

(** ** [get_attractions_near_route] *)

Module NearRouteSpec.
Import RouteRecommender NearRoute PyFacts Geo.

Lemma truthy_inv (v : option R) : truthy v = true -> exists x, v = Some x /\ x <> 0.
Proof.
  destruct v as [x|]; simpl; [|discriminate].
  destruct (decide (x = 0)); [discriminate|]. by exists x.
Qed.

Lemma all_inv (v1 v2 v3 v4 : option R) :
  all [v1; v2; v3; v4] = true ->
  exists a b c d,
    v1 = Some a /\ v2 = Some b /\ v3 = Some c /\ v4 = Some d
    /\ a <> 0 /\ b <> 0 /\ c <> 0 /\ d <> 0.
Proof.
  unfold all. simpl. rewrite !andb_true_iff.
  intros ((a & -> & ?)%truthy_inv & (b & -> & ?)%truthy_inv
          & (c & -> & ?)%truthy_inv & (d & -> & ?)%truthy_inv & _).
  by exists a, b, c, d.
Qed.

Lemma segment_loop_step
  (cities : list city) (a : attraction) (s : segment) (rest : list segment)
  (max_distance : R) :
  (exists dist, near cities max_distance a s dist
                /\ segment_loop cities a (s :: rest) max_distance = Some dist)
  \/ ((forall dist, ~ near cities max_distance a s dist)
      /\ segment_loop cities a (s :: rest) max_distance
         = segment_loop cities a rest max_distance).
Proof.
  cbn [segment_loop].
  destruct (find_city_coordinates cities (seg_origin s)) as [oa ob] eqn:Ho.
  destruct (find_city_coordinates cities (seg_destination s)) as [da db] eqn:Hd.
  destruct (all [oa; ob; da; db]) eqn:G.
  - destruct (all_inv _ _ _ _ G)
      as (ola & olg & dla & dlg & -> & -> & -> & -> & ? & ? & ? & ?).
    destruct (decide (_distance_from_line (a_lat a) (a_lng a) ola olg dla dlg
                      <= max_distance)) as [Hle|Hgt].
    + left. exists (_distance_from_line (a_lat a) (a_lng a) ola olg dla dlg).
      split; [|reflexivity]. split; [|done].
      by exists ola, olg, dla, dlg.
    + right. split; [|done].
      intros dist [(x1 & x2 & x3 & x4 & E1 & E2 & _ & _ & _ & _ & ->) Hle].
      rewrite Ho in E1. rewrite Hd in E2. by simplify_eq.
  - right. split; [|by destruct oa, ob, da, db].
    intros dist [(x1 & x2 & x3 & x4 & E1 & E2 & ? & ? & ? & ? & _) _].
    rewrite Ho in E1. rewrite Hd in E2. simplify_eq.
    unfold all in G. simpl in G. by rewrite !decide_False in G.
Qed.

Lemma segment_loop_None
  (cities : list city) (a : attraction) (segments : list segment) (max_distance : R) :
  segment_loop cities a segments max_distance = None
  <-> ~ near_some cities max_distance a segments.
Proof.
  induction segments as [|s rest IH].
  - split; [|done]. intros _ (s & dist & Hs & _). by apply elem_of_nil in Hs.
  - destruct (segment_loop_step cities a s rest max_distance)
      as [(dist & Hn & ->)|[Hn ->]].
    + split; [done|]. intros H. exfalso. apply H. exists s, dist.
      split; [by left|done].
    + rewrite IH. split.
      * intros H (s' & dist & Hs & Hnear). apply elem_of_cons in Hs as [->|Hs].
        -- by apply (Hn dist).
        -- apply H. by exists s', dist.
      * intros H (s' & dist & Hs & Hnear). apply H. exists s', dist.
        split; [by right|done].
Qed.

(** The loop breaks at the first segment that the attraction is near. *)
Lemma segment_loop_Some
  (cities : list city) (a : attraction) (segments : list segment)
  (max_distance dist : R) :
  segment_loop cities a segments max_distance = Some dist ->
  first_near cities max_distance a segments dist.
Proof.
  unfold first_near.
  induction segments as [|s rest IH]; [discriminate|].
  destruct (segment_loop_step cities a s rest max_distance)
    as [(dist' & Hn & ->)|[Hn ->]].
  - intros [= <-]. exists [], s, rest. split; [done|]. split; [done|].
    intros (s' & d' & Hs & _). by apply elem_of_nil in Hs.
  - intros (pre & s' & post & -> & Hnear & Hpre)%IH.
    exists (s :: pre), s', post. split; [done|]. split; [done|].
    intros (s'' & d' & Hs & Hnear'). apply elem_of_cons in Hs as [->|Hs].
    + by apply (Hn d').
    + apply Hpre. by exists s'', d'.
Qed.


Lemma reach_fun (cities : list city) (a : attraction) (s : segment) (d1 d2 : R) :
  reach cities a s d1 -> reach cities a s d2 -> d1 = d2.
Proof.
  intros (x1 & x2 & x3 & x4 & E1 & E2 & _ & _ & _ & _ & ->)
         (y1 & y2 & y3 & y4 & F1 & F2 & _ & _ & _ & _ & ->).
  rewrite E1 in F1. rewrite E2 in F2. by simplify_eq.
Qed.

Lemma reach_nonneg (cities : list city) (a : attraction) (s : segment) (d : R) :
  reach cities a s d -> 0 <= d.
Proof.
  intros (x1 & x2 & x3 & x4 & _ & _ & _ & _ & _ & _ & ->).
  apply calculate_distance_nonneg.
Qed.

Lemma segment_loop_first
  (cities : list city) (a : attraction) (segments : list segment)
  (max_distance dist : R) :
  segment_loop cities a segments max_distance = Some dist
  <-> first_near cities max_distance a segments dist.
Proof.
  split; [apply segment_loop_Some|].
  intros (pre & s & post & -> & Hnear & Hpre).
  induction pre as [|p pre IH]; cbn [app].
  - destruct (segment_loop_step cities a s post max_distance)
      as [(dist' & [Hr _] & ->)|[Hn _]].
    + f_equal. by apply (reach_fun cities a s); [|apply Hnear].
    + by destruct (Hn dist).
  - destruct (segment_loop_step cities a p (pre ++ s :: post) max_distance)
      as [(dist' & Hn & _)|[_ E]].
    + exfalso. apply Hpre. exists p, dist'. split; [by left|done].
    + rewrite E. apply IH.
      intros (s' & d' & Hs & Hn'). apply Hpre. exists s', d'.
      split; [by right|done].
Qed.

Lemma attraction_loop_touch
  (cities : list city) (attractions : list entry) (segments : list segment)
  (max_distance : R) :
  attraction_loop cities attractions segments max_distance
  = (map (touch cities segments max_distance) attractions,
     map (touch cities segments max_distance)
         (filter (fun a : entry =>
                    is_Some (segment_loop cities a segments max_distance))
                 attractions)).
Proof.
  induction attractions as [|a l IH]; [done|].
  cbn [attraction_loop map]. rewrite IH, filter_cons.
  assert (Ht := eq_refl (touch cities segments max_distance a)).
  unfold touch at 2 in Ht.
  destruct (segment_loop cities a segments max_distance) as [dist|] eqn:E.
  - rewrite decide_True by (by eexists). cbn [map]. by rewrite Ht.
  - rewrite decide_False by (by intros [? ?]). by rewrite Ht.
Qed.

Lemma check_distance_keys_touched
  (cities : list city) (segments : list segment) (max_distance : R)
  (l : list entry) :
  check_distance_keys
    (map (touch cities segments max_distance)
         (filter (fun a : entry =>
                    is_Some (segment_loop cities a segments max_distance)) l))
  = Ok tt.
Proof.
  induction l as [|a l IH]; [done|].
  rewrite filter_cons.
  destruct (decide (is_Some (segment_loop cities a segments max_distance)))
    as [[dist E]|H]; [|done].
  simpl. unfold touch at 1. by rewrite E.
Qed.

Lemma get_attractions_near_route_eq
  (cities : list city) (attractions : list entry) (route : route) (max_distance : R) :
  get_attractions_near_route cities attractions route max_distance
  = (map (touch cities (segments route) max_distance) attractions,
     Ok (nearby cities attractions (segments route) max_distance)).
Proof.
  unfold get_attractions_near_route, nearby.
  rewrite attraction_loop_touch, check_distance_keys_touched. done.
Qed.

Lemma elem_of_nearby
  (cities : list city) (attractions : list entry) (segments : list segment)
  (max_distance : R) (e : entry) :
  e ∈ nearby cities attractions segments max_distance
  <-> exists (a : entry) dist,
        a ∈ attractions /\ first_near cities max_distance a segments dist
        /\ e = set_distance_from_route a dist.
Proof.
  unfold nearby. rewrite sort_asc_perm, list_elem_of_fmap. split.
  - intros (a & -> & [[dist E] Ha]%list_elem_of_filter).
    exists a, dist. split; [done|]. split; [by apply segment_loop_first|].
    unfold touch. by rewrite E.
  - intros (a & dist & Ha & Hf%segment_loop_first & ->).
    exists a. split; [unfold touch; by rewrite Hf|].
    apply list_elem_of_filter. split; [by exists dist|done].
Qed.

(** X11. [get_attractions_near_route] does not raise. It returns, sorted
    by ascending distance, the attractions that lie within [max_distance]
    of the middle of some segment whose two ends resolve to coordinates
    without a zero, each with the distance to the first such segment of
    the route written into it, a distance between 0 and [max_distance];
    the list is no longer than the store. In the store the attractions
    keep their order and their data; only that key is written. *)
Theorem near_route_result
  (cities : list city) (attractions : list entry) (route : route) (max_distance : R) :
  exists attractions' out,
    get_attractions_near_route cities attractions route max_distance
    = (attractions', Ok out)
    /\ StronglySorted (fun x y => distance_key x <= distance_key y) out
    /\ (forall e, e ∈ out <->
          exists (a : entry) dist,
            a ∈ attractions
            /\ first_near cities max_distance a (segments route) dist
            /\ e = set_distance_from_route a dist)
    /\ (forall e, e ∈ out ->
          exists dist, distance_from_route e = Some dist
                       /\ 0 <= dist <= max_distance)
    /\ (length out <= length attractions)%nat
    /\ Forall2 (fun a a' : entry =>
                  attraction_of a' = attraction_of a /\ (a' = a \/ a' ∈ out))
               attractions attractions'.
Proof.
  eexists _, _. split; [apply get_attractions_near_route_eq|].
  split; [apply sort_asc_sorted|].
  split; [apply elem_of_nearby|].
  split; [|split].
  - intros e (a & dist & _ & (pre & s & post & _ & [Hr Hle] & _) & ->)%elem_of_nearby.
    exists dist. split; [done|]. split; [by eapply reach_nonneg|done].
  - unfold nearby. rewrite sort_asc_length, length_map. apply length_filter.
  - apply Forall2_fmap_r, Forall_Forall2_diag, Forall_forall.
    intros a Ha. unfold compose, touch. cbv beta.
    destruct (segment_loop cities a (segments route) max_distance) as [dist|] eqn:E.
    + split; [reflexivity|]. right. apply elem_of_nearby.
      exists a, dist.
      split; [done|]. split; [by apply segment_loop_first|done].
    + split; [reflexivity|by left].
Qed.

Lemma nearby_none
  (cities : list city) (attractions : list entry) (route : route) (max_distance : R) :
  (forall a : entry, a ∈ attractions ->
     ~ near_some cities max_distance a (segments route)) ->
  get_attractions_near_route cities attractions route max_distance
  = (attractions, Ok []).
Proof.
  intros H. rewrite get_attractions_near_route_eq. unfold nearby.
  assert (Hnone : forall a : entry, a ∈ attractions ->
            segment_loop cities a (segments route) max_distance = None).
  { intros a Ha. apply segment_loop_None. by apply H. }
  rewrite filter_none.
  - f_equal. induction attractions as [|a l IH]; [done|]. simpl.
    unfold touch at 1. rewrite (Hnone a) by (by left). f_equal.
    apply IH; intros x Hx; [apply H|apply Hnone]; by right.
  - intros a Ha [dist E]. by rewrite (Hnone a Ha) in E.
Qed.

(** X12. [get_attractions_near_route] returns the empty list and writes
    nothing when the route has no segment, when [max_distance] is
    negative, and when every segment has an end that is not found in the
    catalog. *)
Theorem near_route_nothing
  (cities : list city) (attractions : list entry) (route : route) (max_distance : R) :
  segments route = [] \/ max_distance < 0
  \/ Forall (fun s => unresolved cities (seg_origin s)
                      \/ unresolved cities (seg_destination s)) (segments route) ->
  get_attractions_near_route cities attractions route max_distance
  = (attractions, Ok []).
Proof.
  intros H. apply nearby_none. intros a _ (s & dist & Hs & [Hr Hle]).
  destruct H as [E|[Hneg|Hun]].
  - rewrite E in Hs. by apply elem_of_nil in Hs.
  - pose proof (reach_nonneg _ _ _ _ Hr). lra.
  - rewrite Forall_forall in Hun.
    destruct Hr as (x1 & x2 & x3 & x4 & E1 & E2 & _).
    destruct (Hun s Hs) as [Hu|Hu];
      apply RouteRecommenderSpec.find_city_coordinates_unresolved in Hu;
      congruence.
Qed.

Lemma near_route_nothing_witness :
  get_attractions_near_route (RouteRecommender.cities_data midway_catalog)
    sample_attractions sample_route (-1)
  = (sample_attractions, Ok []).
Proof.
  apply near_route_nothing. right. left. lra.
Defined.

End NearRouteSpec.

(** ** More about [AdvancedRouteRecommender] *)

Module AdvancedRouteRecommenderMore.
Import AdvancedRouteRecommender AdvancedRouteRecommenderTerms PyFacts
       AdvancedRouteRecommenderSpec.

(** *** The segments and the combinations *)

Lemma combination_leads
  (segs : list RouteSegment) (constraints : RouteConstraints) (x : route) :
  x ∈ _generate_route_combinations segs constraints ->
  totals_add_up x /\ leads constraints x
  /\ Forall (fun s => s ∈ segs) (segments x).
Proof.
  unfold _generate_route_combinations. intros [Hx|Hx]%elem_of_app.
  - unfold direct_routes in Hx. rewrite list_elem_of_In, in_flat_map in Hx.
    destruct Hx as (s & Hs%list_elem_of_In & Hx).
    destruct (bool_decide_reflect
                (origin_city_id s = c_origin_city_id constraints
                 /\ destination_city_id s = c_destination_city_id constraints))
      as [[H1 H2]|_]; simpl in Hx; [|done].
    destruct Hx as [<-|[]].
    split; [|split].
    + unfold totals_add_up, sum_of. simpl. repeat split; lra.
    + left. by exists s.
    + simpl. by repeat constructor.
  - unfold waypoint_routes in Hx. rewrite list_elem_of_In, in_flat_map in Hx.
    destruct Hx as (s1 & Hs1%list_elem_of_In & Hx).
    apply in_flat_map in Hx as (s2 & Hs2%list_elem_of_In & Hx).
    destruct (bool_decide_reflect
                (origin_city_id s1 = c_origin_city_id constraints
                 /\ destination_city_id s1 = origin_city_id s2
                 /\ destination_city_id s2 = c_destination_city_id constraints))
      as [(H1 & H2 & H3)|_]; simpl in Hx; [|done].
    destruct Hx as [<-|[]].
    split; [|split].
    + unfold totals_add_up, sum_of. simpl. repeat split; lra.
    + right. by exists s1, s2.
    + simpl. by repeat constructor.
Qed.

Lemma combinations_length (segs : list RouteSegment) (constraints : RouteConstraints) :
  (length (_generate_route_combinations segs constraints)
   <= length segs + length segs * length segs)%nat.
Proof.
  unfold _generate_route_combinations. rewrite length_app.
  assert (Hflat : forall {A B} (f : A -> list B) (l : list A) (n : nat),
            (forall x, length (f x) <= n)%nat ->
            (length (flat_map f l) <= length l * n)%nat).
  { intros A B f l n Hf. induction l as [|x l IH]; simpl; [lia|].
    rewrite length_app. specialize (Hf x). lia. }
  apply Nat.add_le_mono.
  - unfold direct_routes. etrans; [apply (Hflat _ _ _ _ 1%nat)|lia].
    intros s. destruct (bool_decide _); simpl; lia.
  - unfold waypoint_routes. apply Hflat. intros s1.
    etrans; [apply (Hflat _ _ _ _ 1%nat)|lia].
    intros s2. destruct (bool_decide _); simpl; lia.
Qed.

(** X14. Every candidate that [_generate_route_combinations] builds, and
    so every candidate that [recommend_routes] returns, has one or two
    segments taken from the selected rows, which lead from the origin to
    the destination, directly or through its one waypoint; its total
    distance, duration and cost are the sums over its segments. From [n]
    segments there come at most [n + n * n] candidates. *)
Theorem combinations_lead
  (self : t) (month : Z) (user_preferences : UserPreferences)
  (constraints : RouteConstraints) (num_recommendations : Z) :
  let segs := _get_route_segments self month constraints in
  (forall x, x ∈ _generate_route_combinations segs constraints ->
     totals_add_up x /\ leads constraints x
     /\ Forall (fun s => s ∈ segs) (segments x))
  /\ (length (_generate_route_combinations segs constraints)
      <= length segs + length segs * length segs)%nat
  /\ (forall r : scored_route,
        r ∈ recommend_routes self month user_preferences constraints
              num_recommendations ->
        totals_add_up r /\ leads constraints r
        /\ Forall (fun s => s ∈ segs) (segments r)).
Proof.
  simpl. split; [intros x; apply combination_leads|].
  split; [apply combinations_length|].
  intros r [Hr _]%recommend_routes_sublist. by apply combination_leads.
Qed.

(** *** The seasons *)

Lemma current_season_cases (month : Z) :
  ((3 <= month <= 5)%Z /\ _get_current_season month = "spring"%string)
  \/ ((6 <= month <= 8)%Z /\ _get_current_season month = "summer"%string)
  \/ ((9 <= month <= 11)%Z /\ _get_current_season month = "fall"%string)
  \/ ((month < 3 \/ 11 < month)%Z /\ _get_current_season month = "winter"%string).
Proof.
  unfold _get_current_season.
  destruct (bool_decide_reflect (month ∈ [3; 4; 5]%Z)) as [H|H];
    rewrite !elem_of_cons, elem_of_nil in H; [left; split; [lia|done]|].
  destruct (bool_decide_reflect (month ∈ [6; 7; 8]%Z)) as [H'|H'];
    rewrite !elem_of_cons, elem_of_nil in H'; [right; left; split; [lia|done]|].
  destruct (bool_decide_reflect (month ∈ [9; 10; 11]%Z)) as [H''|H''];
    rewrite !elem_of_cons, elem_of_nil in H'';
    [right; right; left; split; [lia|done]|].
  right. right. right. split; [lia|done].
Qed.

(** X15. The seasonal factor of a score is 1.3 in the months 3 to 5, 0.9
    in the months 6 to 8, 1.2 in the months 9 to 11 and 0.8 in every
    other month; the default 1.0 of the lookups is never used, and the
    factors attached to a segment are always those of a season of the
    table. *)
Theorem seasonal_adjustment_by_month (month : Z) (route : route) (r : row) :
  _get_seasonal_adjustment month route = tourism_factor_of month
  /\ _get_seasonal_adjustment month route <> 1.0
  /\ _load_seasonal_data !! _get_current_season month
     = Some (_get_seasonal_factors month r)
  /\ _get_seasonal_factors month r !! "tourism_factor"%string
     = Some (tourism_factor_of month).
Proof.
  unfold _get_seasonal_adjustment, _get_seasonal_factors, tourism_factor_of.
  destruct (current_season_cases month) as [[Hm ->]|[[Hm ->]|[[Hm ->]|[Hm ->]]]];
    unfold _load_seasonal_data, season_entry;
    repeat (rewrite ?lookup_insert_eq, ?lookup_insert_ne by done); simpl;
    repeat (rewrite ?lookup_insert_eq, ?lookup_insert_ne by done); simpl;
    repeat (destruct (decide _); try lia);
    (split; [done|]); (split; [lra|done]).
Qed.

(** *** The cost score *)

Lemma budget_limit_positive (budget_range : string) :
  0 < default 500000 (budget_limits !! budget_range).
Proof.
  unfold budget_limits.
  destruct (decide (budget_range = "low"%string)) as [->|H1];
    [rewrite lookup_insert_eq; simpl; lra|rewrite lookup_insert_ne by done].
  destruct (decide (budget_range = "medium"%string)) as [->|H2];
    [rewrite lookup_insert_eq; simpl; lra|rewrite lookup_insert_ne by done].
  destruct (decide (budget_range = "high"%string)) as [->|H3];
    [rewrite lookup_insert_eq; simpl; lra|rewrite lookup_insert_ne by done].
  destruct (decide (budget_range = "luxury"%string)) as [->|H4];
    [rewrite lookup_insert_eq; simpl; lra|rewrite lookup_insert_ne by done].
  rewrite lookup_empty. simpl. lra.
Qed.

Lemma budget_limit_unknown (budget_range : string) :
  budget_range <> "low"%string -> budget_range <> "medium"%string ->
  budget_range <> "high"%string -> budget_range <> "luxury"%string ->
  budget_limits !! budget_range = None.
Proof.
  intros. unfold budget_limits.
  by rewrite !lookup_insert_ne, lookup_empty.
Qed.

(** X16. The cost score is one of 5, 4, 3, 2 and 1 and does not grow with
    the cost: a dearer route never scores better. A budget range other
    than low, medium, high and luxury is scored as medium. *)
Theorem cost_score_monotone (cost1 cost2 : R) (budget_range : string) :
  (cost1 <= cost2 ->
   _calculate_cost_score cost2 budget_range
   <= _calculate_cost_score cost1 budget_range)
  /\ 1 <= _calculate_cost_score cost1 budget_range <= 5
  /\ (budget_range <> "low"%string -> budget_range <> "medium"%string ->
      budget_range <> "high"%string -> budget_range <> "luxury"%string ->
      _calculate_cost_score cost1 budget_range
      = _calculate_cost_score cost1 "medium").
Proof.
  split; [|split; [apply cost_score_range|]].
  - intros Hle. unfold _calculate_cost_score.
    pose proof (budget_limit_positive budget_range) as Hpos.
    set (limit := default 500000 (budget_limits !! budget_range)) in *.
    repeat destruct (decide _); lra.
  - intros H1 H2 H3 H4. unfold _calculate_cost_score.
    rewrite (budget_limit_unknown budget_range) by done.
    unfold budget_limits. rewrite lookup_insert_ne, lookup_insert_eq by done.
    done.
Qed.

(** *** The range of the composite *)

Lemma preference_factor_bounds
  (route : route) (user_preferences : UserPreferences) :
  0.8 <= _apply_user_preferences route user_preferences <= 1.1.
Proof.
  unfold _apply_user_preferences.
  repeat destruct (decide _); destruct (bool_decide _); lra.
Qed.

(** X17. For a route with at least one segment, no negative rating and a
    distance and a duration that are not negative, the rule-based
    composite is a number between 0.16 and 7.15: it can exceed 5 before
    the final cap. The final score is then at least 0.112, whatever the
    learned scorer does. *)
Theorem rule_score_bounds
  (self : t) (month : Z) (route : route) (user_preferences : UserPreferences) :
  segments route <> [] -> Forall rated (segments route) ->
  0 <= total_distance route -> 0 <= total_duration route ->
  (exists rule, rule_score month route user_preferences = Ok rule
                /\ 0.16 <= rule <= 7.15)
  /\ 0.112 <= _calculate_route_score self month route user_preferences <= 5.
Proof.
  intros Hne Hr Hd Hdu.
  destruct (rule_score_ok month route user_preferences Hne) as (rule & E).
  assert (Hrule : 0.16 <= rule <= 7.15).
  { revert E. unfold rule_score.
    destruct (_calculate_cultural_score route user_preferences) as [cs|e] eqn:Ec;
      simpl; [|discriminate].
    destruct (_calculate_scenic_score route) as [ss|e] eqn:Es; simpl; [|discriminate].
    intros [= <-].
    pose proof (cultural_score_range _ _ _ Hr Ec).
    pose proof (scenic_score_range _ _ Hr Es).
    pose proof (cost_score_range (total_cost route) (budget_range user_preferences)).
    pose proof (preference_factor_bounds route user_preferences).
    assert (0 <= Rmax 0 (5.0 - total_distance route / 100) <= 5).
    { split; [apply Rmax_l|apply Rmax_lub; lra]. }
    assert (0 <= Rmax 0 (5.0 - total_duration route / 2) <= 5).
    { split; [apply Rmax_l|apply Rmax_lub; lra]. }
    set (f := _apply_user_preferences route user_preferences) in *.
    set (ds := Rmax 0 (5.0 - total_distance route / 100)) in *.
    set (us := Rmax 0 (5.0 - total_duration route / 2)) in *.
    set (c := _calculate_cost_score _ _) in *.
    destruct (seasonal_adjustment_cases month route) as [->|[->|[->| ->]]]; nra. }
  split; [by exists rule|].
  unfold _calculate_route_score. rewrite E. simpl.
  pose proof (ml_score_range self route user_preferences).
  match goal with |- _ <= Rmin ?x _ <= _ => set (base := x) end.
  assert (0.112 <= base) by (unfold base; destruct (ml_model self); lra).
  pose proof (Rmin_r base 5.0).
  assert (0.112 <= Rmin base 5.0) by (apply Rmin_glb; lra).
  lra.
Qed.

Lemma rule_score_bounds_witness :
  0.112 <= _calculate_route_score {| db := []; ml_model := Some failing_model |} 1
             still_route sample_preferences <= 5.
Proof.
  apply (rule_score_bounds {| db := []; ml_model := Some failing_model |} 1
           still_route sample_preferences).
  - discriminate.
  - repeat constructor; simpl; lra.
  - simpl. lra.
  - simpl. lra.
Defined.

(** X18. A route without segments gets the score 0.0: the average over
    its segments divides by zero, and the exception is caught. The
    learned score of such a route is the neutral 3.0. *)
Theorem empty_route_score
  (self : t) (month : Z) (route : route) (user_preferences : UserPreferences) :
  segments route = [] ->
  _calculate_cultural_score route user_preferences = Raise ZeroDivisionError
  /\ _calculate_scenic_score route = Raise ZeroDivisionError
  /\ _calculate_route_score self month route user_preferences = 0.0
  /\ _get_ml_score self route user_preferences = 3.0.
Proof.
  intros E.
  assert (Hc : _calculate_cultural_score route user_preferences
               = Raise ZeroDivisionError).
  { unfold _calculate_cultural_score, div. rewrite E. simpl.
    by rewrite decide_True. }
  assert (Hs : _calculate_scenic_score route = Raise ZeroDivisionError).
  { unfold _calculate_scenic_score, div. rewrite E. simpl.
    by rewrite decide_True. }
  split; [done|]. split; [done|]. split.
  - unfold _calculate_route_score, rule_score. by rewrite Hc.
  - unfold _get_ml_score, ml_features. rewrite Hs.
    by destruct (ml_model self).
Qed.

Lemma empty_route_score_witness :
  _calculate_route_score {| db := []; ml_model := None |} 4
    {| type := "direct"; segments := []; total_distance := 10;
       total_duration := 1; total_cost := 5; waypoints := [] |}
    sample_preferences = 0.0.
Proof.
  apply (empty_route_score {| db := []; ml_model := None |} 4
           {| type := "direct"; segments := []; total_distance := 10;
              total_duration := 1; total_cost := 5; waypoints := [] |}
           sample_preferences eq_refl).
Defined.

(** *** The features of the learned scorer *)

(** X19. [_extract_route_features], which builds the rows on which the
    scorer is trained, gives 9 features, while [_get_ml_score] predicts
    from 8: the two never have the same length. A dictionary without the
    keys gives the defaults 0 and 1.0. *)
Theorem feature_lengths
  (route_data : gmap string R) (route : route) (user_preferences : UserPreferences)
  (features : list R) :
  length (_extract_route_features route_data) = 9%nat
  /\ (ml_features route user_preferences = Ok features -> length features = 8%nat)
  /\ _extract_route_features ∅ = [0; 0; 0; 0; 0; 0; 0; 1.0; 1.0].
Proof.
  split; [done|]. split.
  - unfold ml_features.
    destruct (_calculate_scenic_score route) as [s|e]; simpl; [|discriminate].
    destruct (_calculate_cultural_score route user_preferences) as [c|e];
      simpl; [|discriminate].
    by intros [= <-].
  - unfold _extract_route_features. by rewrite !lookup_empty.
Qed.

(** *** The list that [recommend_routes] returns *)

Lemma recommend_routes_eq
  (self : t) (month : Z) (user_preferences : UserPreferences)
  (constraints : RouteConstraints) (num_recommendations : Z) :
  recommend_routes self month user_preferences constraints num_recommendations
  = slice_to
      (sort_desc (fun x : scored_route => score x)
         (map (fun route =>
                 {| route_of := route;
                    score := _calculate_route_score self month route
                               user_preferences |})
              (_generate_route_combinations
                 (_get_route_segments self month constraints) constraints)))
      num_recommendations.
Proof. reflexivity. Qed.

Lemma StronglySorted_across {A} (R : A -> A -> Prop) (l1 l2 : list A) (x y : A) :
  StronglySorted R (l1 ++ l2) -> x ∈ l1 -> y ∈ l2 -> R x y.
Proof.
  induction l1 as [|z l1 IH]; simpl; intros Hs Hx Hy.
  - by apply elem_of_nil in Hx.
  - apply StronglySorted_inv in Hs as [Hs Hz].
    apply elem_of_cons in Hx as [->|Hx]; [|by apply IH].
    rewrite Forall_forall in Hz. apply Hz. apply elem_of_app. by right.
Qed.

(** X20. [AdvancedRouteRecommender.recommend_routes] returns its
    candidates by descending score, each with the score that
    [_calculate_route_score] gives it; for [num_recommendations >= 0] it
    returns the [num_recommendations] best ones, or all of them when
    there are fewer. *)
Theorem advanced_ranking
  (self : t) (month : Z) (user_preferences : UserPreferences)
  (constraints : RouteConstraints) (num_recommendations : Z) :
  let combinations :=
    _generate_route_combinations (_get_route_segments self month constraints)
                                 constraints in
  let out :=
    recommend_routes self month user_preferences constraints num_recommendations in
  StronglySorted (fun x y : scored_route => score y <= score x) out
  /\ (forall r : scored_route, r ∈ out ->
        route_of r ∈ combinations
        /\ score r = _calculate_route_score self month r user_preferences)
  /\ ((0 <= num_recommendations)%Z ->
      length out = Nat.min (Z.to_nat num_recommendations) (length combinations)
      /\ forall r r' : scored_route,
           r ∈ out -> route_of r' ∈ combinations ->
           score r' = _calculate_route_score self month r' user_preferences ->
           r' ∈ out \/ score r' <= score r).
Proof.
  simpl. split; [|split].
  - rewrite recommend_routes_eq.
    eapply StronglySorted_sublist; [apply slice_to_sublist|apply sort_desc_sorted].
  - intros r. apply recommend_routes_sublist.
  - intros Hn. rewrite recommend_routes_eq. unfold slice_to.
    destruct (Z.ltb_spec num_recommendations 0) as [?|_]; [lia|].
    set (l := sort_desc _ _).
    split.
    + rewrite length_take. unfold l. by rewrite sort_desc_length, length_map.
    + intros r r' Hr Hr' Hs.
      assert (Hin : r' ∈ l).
      { unfold l. rewrite sort_desc_perm. apply list_elem_of_fmap.
        exists (route_of r'). split; [|done]. destruct r'. simpl in *. by subst. }
      rewrite <- (take_drop (Z.to_nat num_recommendations) l) in Hin.
      apply elem_of_app in Hin as [Hin|Hin]; [by left|right].
      pose proof (sort_desc_sorted (fun x : scored_route => score x)
                    (map (fun route =>
                       {| route_of := route;
                          score := _calculate_route_score self month route
                                     user_preferences |})
                       (_generate_route_combinations
                          (_get_route_segments self month constraints)
                          constraints))) as Hsorted.
      fold l in Hsorted.
      rewrite <- (take_drop (Z.to_nat num_recommendations) l) in Hsorted.
      by apply (StronglySorted_across _ _ _ _ _ Hsorted Hr Hin).
Qed.

Lemma advanced_ranking_witness :
  length (recommend_routes {| db := chain_table; ml_model := None |} 4
            sample_preferences sample_constraints 1) = 1%nat.
Proof.
  destruct (advanced_ranking {| db := chain_table; ml_model := None |} 4
              sample_preferences sample_constraints 1) as (_ & _ & H).
  destruct (H ltac:(lia)) as [Hlen _].
  rewrite Hlen, chain_table_combinations. reflexivity.
Defined.

(** X21. When the origin or the destination is itself in the avoid-list,
    the query selects no segment that starts at the origin, or none that
    ends at the destination, and [recommend_routes] returns no candidate. *)
Theorem avoided_endpoint
  (self : t) (month : Z) (user_preferences : UserPreferences)
  (constraints : RouteConstraints) (num_recommendations : Z) :
  c_origin_city_id constraints ∈ avoid_cities constraints
  \/ c_destination_city_id constraints ∈ avoid_cities constraints ->
  _generate_route_combinations (_get_route_segments self month constraints)
                               constraints = []
  /\ recommend_routes self month user_preferences constraints num_recommendations
     = [].
Proof.
  intros H.
  assert (Hnone : _generate_route_combinations
                    (_get_route_segments self month constraints) constraints = []).
  { destruct (_generate_route_combinations
                (_get_route_segments self month constraints) constraints)
      as [|x l] eqn:El; [done|]. exfalso.
    assert (Hx : x ∈ _generate_route_combinations
                       (_get_route_segments self month constraints) constraints)
      by (rewrite El; by left).
    clear El.
    apply combination_leads in Hx as (_ & Hlead & Hsegs).
    assert (Hseg : forall s, s ∈ _get_route_segments self month constraints ->
              (origin_city_id s ∉ avoid_cities constraints)
              /\ (destination_city_id s ∉ avoid_cities constraints)).
    { intros s (r & _ & (_ & Ho & Hd) & (E1 & E2 & _))%get_route_segments_from.
      by rewrite E1, E2. }
    destruct Hlead as [(s & _ & Es & _ & Ho & Hd)
                      |(s1 & s2 & _ & Es & _ & Ho & _ & Hd)];
      rewrite Es in Hsegs.
    - apply Forall_cons in Hsegs as [Hs _]. destruct (Hseg s Hs) as [N1 N2].
      destruct H as [H|H]; [by rewrite <- Ho in H|by rewrite <- Hd in H].
    - apply Forall_cons in Hsegs as [Hs1 Hsegs].
      apply Forall_cons in Hsegs as [Hs2 _].
      destruct (Hseg s1 Hs1) as [N1 _]. destruct (Hseg s2 Hs2) as [_ N2].
      destruct H as [H|H]; [by rewrite <- Ho in H|by rewrite <- Hd in H]. }
  split; [done|].
  rewrite recommend_routes_eq, Hnone. simpl.
  unfold slice_to. by destruct (num_recommendations <? 0)%Z; rewrite firstn_nil.
Qed.

Lemma avoided_endpoint_witness :
  recommend_routes {| db := chain_table; ml_model := None |} 4 sample_preferences
    {| c_origin_city_id := 1; c_destination_city_id := 2;
       max_budget := None; max_duration_hours := None;
       must_visit_cities := []; avoid_cities := [2%Z];
       seasonal_restrictions := [] |} 5
  = [].
Proof.
  apply avoided_endpoint. right. simpl. by left.
Defined.

End AdvancedRouteRecommenderMore.

(** ** The user profiles *)

Module UserProfilesSpec.
Import UserProfiles.

Section Facts.
Context {V : Type}.
Implicit Types (user_profiles : gmap string (gmap string V)).

Lemma profile_truthy_true (p : gmap string V) :
  p <> ∅ -> profile_truthy (Some p) = true.
Proof.
  intros Hp. simpl. rewrite bool_decide_eq_false_2; [done|].
  by rewrite map_size_empty_iff.
Qed.

Lemma suggestion_loop_fetch (db : database) (cities : Z -> option city_row)
  (rows : list history_row) :
  (forall row, row ∈ rows -> fetch_city db (city_id row) = Ok (cities (city_id row))) ->
  suggestion_loop db rows
  = Ok (omap (fun row => suggestion_of row <$> cities (city_id row)) rows).
Proof.
  induction rows as [|row rows IH]; intros H; simpl; [done|].
  rewrite (H row) by (by left). simpl.
  rewrite IH by (intros r Hr; apply H; by right). simpl.
  by destruct (cities (city_id row)).
Qed.

Lemma suggestion_loop_raise (db : database) (rows : list history_row)
  (row : history_row) (e : exn) :
  row ∈ rows -> fetch_city db (city_id row) = Raise e ->
  exists e', suggestion_loop db rows = Raise e'.
Proof.
  induction rows as [|r rows IH]; intros Hin Hf; [by apply elem_of_nil in Hin|].
  simpl. apply elem_of_cons in Hin as [<-|Hin].
  - rewrite Hf. by eexists.
  - destruct (fetch_city db (city_id r)) as [c|e1]; simpl; [|by eexists].
    destruct (IH Hin Hf) as (e' & ->). simpl. by eexists.
Qed.

(** X22. [get_personalized_suggestions] returns the empty list for a user
    without a stored profile and for a user whose stored preferences are
    the empty dictionary, whatever the database holds; storing the
    preferences of another user changes nothing for this one. *)
Theorem suggestions_need_profile
  user_profiles (db : database) (user_id other : string) (p : gmap string V) :
  (user_profiles !! user_id = None ->
     get_personalized_suggestions user_profiles db user_id = [])
  /\ get_personalized_suggestions
       (update_user_preferences user_profiles user_id ∅) db user_id = []
  /\ (other <> user_id ->
      get_personalized_suggestions
        (update_user_preferences user_profiles other p) db user_id
      = get_personalized_suggestions user_profiles db user_id).
Proof.
  unfold get_personalized_suggestions, update_user_preferences, profiles.
  cbv zeta. split; [|split].
  - intros H. by rewrite H.
  - rewrite lookup_insert_eq. simpl.
    by rewrite bool_decide_eq_true_2 by apply map_size_empty.
  - intros Hne. by rewrite lookup_insert_ne.
Qed.

(** X23. For a user with a stored, non-empty profile the suggestions do
    not depend on what the profile holds. When the database answers, they
    are the rows of the user's travel history whose city is found, in the
    order of the history, each with its visit count and the type
    ["frequent_visit"]; when the history query or the query of one of its
    cities raises, the result is the empty list. *)
Theorem suggestions_follow_history
  user_profiles (db : database) (user_id : string) (p : gmap string V) :
  p <> ∅ ->
  let out := get_personalized_suggestions
               (update_user_preferences user_profiles user_id p) db user_id in
  (forall q : gmap string V, q <> ∅ ->
     get_personalized_suggestions
       (update_user_preferences user_profiles user_id q) db user_id = out)
  /\ (forall rows (cities : Z -> option city_row),
        travel_history db user_id = Ok rows ->
        (forall row, row ∈ rows ->
           fetch_city db (city_id row) = Ok (cities (city_id row))) ->
        out = omap (fun row => suggestion_of row <$> cities (city_id row)) rows)
  /\ (forall e, travel_history db user_id = Raise e -> out = [])
  /\ (forall rows row e,
        travel_history db user_id = Ok rows -> row ∈ rows ->
        fetch_city db (city_id row) = Raise e -> out = []).
Proof.
  intros Hp. simpl.
  unfold get_personalized_suggestions, update_user_preferences, profiles.
  cbv zeta.
  rewrite lookup_insert_eq, (profile_truthy_true p Hp). simpl.
  split; [|split; [|split]].
  - intros q Hq. by rewrite lookup_insert_eq, (profile_truthy_true q Hq).
  - intros rows cities -> Hf. simpl. by rewrite (suggestion_loop_fetch db cities).
  - by intros e ->.
  - intros rows row e -> Hin Hf. simpl.
    by destruct (suggestion_loop_raise db rows row e Hin Hf) as (e' & ->).
Qed.

End Facts.

Lemma suggestions_follow_history_witness :
  get_personalized_suggestions
    (update_user_preferences (∅ : gmap string (gmap string R)) "u1"
       {[ "fastest"%string := 1 ]}) sample_db "u1"
  = [ suggestion_of {| city_id := 1; visit_count := 3 |}
        {| name_fa := "Esfahan"; name_en := "Isfahan";
           province_name_fa := "Esfahan"; tourism_rating := 4.8 |} ].
Proof.
  destruct (suggestions_follow_history (∅ : gmap string (gmap string R)) sample_db
              "u1" {[ "fastest"%string := 1 ]}) as (_ & H & _).
  - apply insert_non_empty.
  - rewrite (H [ {| city_id := 1; visit_count := 3 |};
                 {| city_id := 9; visit_count := 1 |} ]
               (fun c => if (c =? 1)%Z
                         then Some {| name_fa := "Esfahan"; name_en := "Isfahan";
                                      province_name_fa := "Esfahan";
                                      tourism_rating := 4.8 |}
                         else None)).
    + reflexivity.
    + reflexivity.
    + intros row Hrow. simpl. by destruct (city_id row =? 1)%Z.
Defined.

End UserProfilesSpec.

(** ** The handlers of [app/api/routes.py] *)

Module ApiRoutesSpec.
Import RouteRecommender PyFacts RouteRecommenderSpec ApiRoutes.

Lemma route_responses_loop_eq
  (request : RecommendationRequest) (rs : list scored_route)
  (acc : list RouteResponse) :
  route_responses_loop request rs acc
  = acc ++ imap (fun i route => response_of request (len acc + Z.of_nat i + 1) route) rs.
Proof.
  revert acc. induction rs as [|route rs IH]; intros acc; simpl.
  - by rewrite app_nil_r.
  - rewrite IH, <- app_assoc. simpl. f_equal.
    unfold response_of at 2. rewrite Z.add_0_r. f_equal.
    apply imap_ext. intros i r _. simpl. f_equal.
    unfold len. rewrite length_app. simpl. lia.
Qed.

Lemma route_responses_loop_nil
  (request : RecommendationRequest) (rs : list scored_route) :
  route_responses_loop request rs []
  = imap (fun i route => response_of request (Z.of_nat i + 1) route) rs.
Proof. by rewrite route_responses_loop_eq. Qed.

Lemma route_responses_scores
  (request : RecommendationRequest) (rs : list scored_route) :
  rr_score <$> route_responses_loop request rs [] = (fun r : scored_route => score r) <$> rs.
Proof.
  rewrite route_responses_loop_nil, fmap_imap.
  unfold compose. simpl. induction rs as [|r rs IH] using rev_ind; [done|].
  rewrite imap_app, fmap_app, IH. done.
Qed.

Lemma foldl_Rmax_head (x : R) (xs : list R) :
  Forall (fun y => y <= x) xs -> foldl Rmax x xs = x.
Proof.
  induction 1 as [|y xs Hy _ IH]; simpl; [done|].
  by rewrite Rmax_left.
Qed.

Lemma respond_returns (request : RecommendationRequest) (rs : list scored_route) :
  rs <> [] ->
  exists best avg_cost avg_duration,
    max ((fun r : scored_route => score r) <$> rs) = Py.Ok best
    /\ respond request rs
       = Return {| routes := route_responses_loop request rs [];
                   summary := {| total_routes := len rs;
                                 best_score := best;
                                 average_cost := avg_cost;
                                 average_duration := avg_duration |};
                   alternatives := alternatives_loop (Py.slice_to rs 3) |}.
Proof.
  destruct rs as [|r rs]; [done|]. intros _.
  unfold respond.
  assert (Hlen : len (route_responses_loop request (r :: rs) []) = len (r :: rs)).
  { unfold len. by rewrite route_responses_loop_nil, length_imap. }
  rewrite Hlen, route_responses_scores.
  assert (Hn : IZR (len (r :: rs)) <> 0).
  { unfold len. simpl. apply not_0_IZR. lia. }
  unfold Py.div. destruct (decide (IZR (len (r :: rs)) = 0)); [done|].
  simpl. eauto.
Qed.

Lemma recommend_endpoint_returns
  (recommender recommender' : t) (request : RecommendationRequest)
  (rs : list scored_route) :
  recommender_call recommender request = (recommender', Py.Ok rs) ->
  rs <> [] ->
  exists resp,
    ApiRoutes.recommend_routes recommender request = (recommender', Return resp)
    /\ respond request rs = Return resp.
Proof.
  unfold recommender_call, ApiRoutes.recommend_routes. intros -> Hne.
  destruct (respond_returns request rs Hne) as (b & c & d & _ & H).
  simpl. rewrite H. eauto.
Qed.

Lemma recommend_endpoint_inv
  (recommender recommender' : t) (request : RecommendationRequest)
  (resp : RecommendationResponse) :
  ApiRoutes.recommend_routes recommender request = (recommender', Return resp) ->
  exists rs,
    recommender_call recommender request = (recommender', Py.Ok rs)
    /\ rs <> [] /\ respond request rs = Return resp.
Proof.
  unfold recommender_call, ApiRoutes.recommend_routes.
  destruct (RouteRecommender.recommend_routes _ _ _ _ _ _) as [s [rs|e]]; simpl.
  - intros [= -> H]. exists rs. split; [done|].
    destruct rs as [|r rs]; [done|]. split; [done|].
    by destruct (respond request (r :: rs)).
  - by intros [= _ H].
Qed.

(** X24. The handler of [POST /recommend] raises nothing but an
    [HTTPException] with status 500: the status 404 that its body raises
    when the recommender returns no route is caught by the handler's own
    [except Exception] and answered as 500. The handler returns a response
    exactly when the recommender returns a non-empty list; a request that
    names an origin or a destination outside the catalog is answered with
    status 500 and leaves the catalog as it was. *)
Theorem recommend_endpoint_status
  (recommender : t) (request : RecommendationRequest) :
  let out := ApiRoutes.recommend_routes recommender request in
  fst out = fst (recommender_call recommender request)
  /\ (forall e, snd out = Raised e -> e = HTTPException 500)
  /\ ((exists resp, snd out = Return resp)
      <-> exists rs, snd (recommender_call recommender request) = Py.Ok rs /\ rs <> [])
  /\ (snd (recommender_call recommender request) = Py.Ok []
      -> snd out = Raised (HTTPException 500))
  /\ (unresolved (cities_data recommender) (req_origin request)
      \/ unresolved (cities_data recommender) (req_destination request)
      -> out = (recommender, Raised (HTTPException 500))).
Proof.
  simpl. split; [|split; [|split; [|split]]].
  - unfold recommender_call, ApiRoutes.recommend_routes.
    by destruct (RouteRecommender.recommend_routes _ _ _ _ _ _).
  - unfold ApiRoutes.recommend_routes.
    destruct (RouteRecommender.recommend_routes _ _ _ _ _ _) as [s r]. simpl.
    intros e. destruct (_ ≫= _); simpl; [done|]. by intros [= <-].
  - split.
    + intros (resp & H).
      destruct (ApiRoutes.recommend_routes recommender request) as [s o] eqn:E.
      simpl in H. subst o.
      apply recommend_endpoint_inv in E as (rs & E & Hne & _).
      exists rs. by rewrite E.
    + intros (rs & H & Hne).
      destruct (recommender_call recommender request) as [s o] eqn:E.
      simpl in H. subst o.
      destruct (recommend_endpoint_returns _ _ _ _ E Hne) as (resp & -> & _).
      by exists resp.
  - unfold recommender_call, ApiRoutes.recommend_routes.
    destruct (RouteRecommender.recommend_routes _ _ _ _ _ _) as [s r]. simpl.
    by intros ->.
  - intros H. unfold ApiRoutes.recommend_routes, RouteRecommender.recommend_routes.
    destruct H as [H|H]; rewrite (find_city_coordinates_unresolved _ _ H).
    + by destruct (find_city_coordinates _ (req_destination request)).
    + destruct (find_city_coordinates _ (req_origin request)) as [[a|] [b|]];
        simpl; try done; by rewrite ?andb_false_r.
Qed.

Lemma alternatives_loop_spec (rs : list scored_route) (alt : Alternative) :
  alt ∈ alternatives_loop rs ->
  alt_type alt = "intermediate_stop"%string
  /\ alt_city alt <> ""%string
  /\ exists r : scored_route, r ∈ rs /\ intermediate_city r = Some (alt_city alt).
Proof.
  induction rs as [|r rs IH]; simpl; [by intros ?%elem_of_nil|].
  assert (Hrest : alt ∈ alternatives_loop rs ->
                  alt_type alt = "intermediate_stop"%string
                  /\ alt_city alt <> ""%string
                  /\ exists r0 : scored_route,
                       r0 ∈ r :: rs /\ intermediate_city r0 = Some (alt_city alt)).
  { intros (? & ? & r0 & ? & ?)%IH. split; [done|]. split; [done|].
    exists r0. split; [by right|done]. }
  destruct (intermediate_city r) as [c|] eqn:Ec; [|done].
  destruct (String.eqb c "") eqn:E; simpl; [done|].
  intros [->|H]%elem_of_cons; [|by apply Hrest]. simpl.
  split; [done|]. split.
  - intros ->. by rewrite String.eqb_refl in E.
  - exists r. split; [by left|done].
Qed.

Lemma alternatives_loop_length (rs : list scored_route) :
  (length (alternatives_loop rs) <= length rs)%nat.
Proof.
  induction rs as [|r rs IH]; simpl; [done|].
  destruct (intermediate_city r) as [c|]; [|lia].
  destruct (negb (String.eqb c "")); simpl; lia.
Qed.

(** X25. A response of [POST /recommend] lists the routes that the
    recommender returned, in their order and numbered from 1: between one
    and five entries, each carrying the score, distance, duration, cost
    and attractions of its route. Its summary counts these entries, its
    best score is the score of the first entry and no entry scores higher,
    and its averages times the number of entries are the sums of the costs
    and of the durations. There are at most three alternatives, each of
    the type ["intermediate_stop"] and naming the non-empty intermediate
    city of one of the first three routes. *)
Theorem recommend_endpoint_response
  (recommender recommender' : t) (request : RecommendationRequest)
  (resp : RecommendationResponse) :
  ApiRoutes.recommend_routes recommender request = (recommender', Return resp) ->
  exists rs first,
    recommender_call recommender request = (recommender', Py.Ok rs)
    /\ (1 <= length rs <= 5)%nat
    /\ length (routes resp) = length rs
    /\ (forall i route, rs !! i = Some route ->
          routes resp !! i = Some (response_of request (Z.of_nat i + 1) route))
    /\ total_routes (summary resp) = Z.of_nat (length rs)
    /\ rs !! 0%nat = Some first
    /\ best_score (summary resp) = score first
    /\ (forall r, r ∈ routes resp -> rr_score r <= best_score (summary resp))
    /\ average_cost (summary resp) * INR (length rs)
       = sum ((fun r : scored_route => cost r) <$> rs)
    /\ average_duration (summary resp) * INR (length rs)
       = sum ((fun r : scored_route => duration r) <$> rs)
    /\ (length (alternatives resp) <= 3)%nat
    /\ (forall alt, alt ∈ alternatives resp ->
          alt_type alt = "intermediate_stop"%string
          /\ alt_city alt <> ""%string
          /\ exists r : scored_route,
               r ∈ take 3 rs /\ intermediate_city r = Some (alt_city alt)).
Proof.
  intros (rs & Hcall & Hne & Hresp)%recommend_endpoint_inv.
  assert (Hsorted : StronglySorted (fun x y : scored_route => score y <= score x) rs
                    /\ (length rs <= 5)%nat).
  { unfold recommender_call in Hcall.
    apply recommend_routes_inv in Hcall as [[_ ->]|(a & b & c & d & l & _ & _ & _ & ->)].
    - done.
    - split; [apply rank_and_filter_sorted|apply rank_and_filter_length]. }
  destruct Hsorted as [Hsorted Hlen].
  destruct rs as [|first rs]; [done|]. clear Hne.
  exists (first :: rs), first. split; [done|].
  unfold respond in Hresp.
  set (rr := route_responses_loop request (first :: rs) []) in *.
  assert (Hrr : rr = imap (fun i route => response_of request (Z.of_nat i + 1) route)
                          (first :: rs)) by apply route_responses_loop_nil.
  assert (Hl : len rr = len (first :: rs)).
  { unfold len. by rewrite Hrr, length_imap. }
  assert (Hscores : rr_score <$> rr = (fun r : scored_route => score r) <$> (first :: rs))
    by apply route_responses_scores.
  assert (Hcosts : total_cost <$> rr = (fun r : scored_route => cost r) <$> (first :: rs)).
  { rewrite Hrr, fmap_imap. unfold compose. simpl. f_equal.
    clear. generalize (fun i : nat => Z.of_nat (S i) + 1)%Z. intros f.
    revert f. induction rs as [|r rs IH]; intros f; simpl; [done|].
    f_equal. apply (IH (fun i => f (S i))). }
  assert (Hdurations :
            total_duration <$> rr = (fun r : scored_route => duration r) <$> (first :: rs)).
  { rewrite Hrr, fmap_imap. unfold compose. simpl. f_equal.
    clear. generalize (fun i : nat => Z.of_nat (S i) + 1)%Z. intros f.
    revert f. induction rs as [|r rs IH]; intros f; simpl; [done|].
    f_equal. apply (IH (fun i => f (S i))). }
  clearbody rr.
  rewrite Hscores, Hcosts, Hdurations, Hl in Hresp.
  assert (Hn : IZR (len (first :: rs)) = INR (length (first :: rs))).
  { unfold len. by rewrite <- INR_IZR_INZ. }
  assert (Hpos : INR (length (first :: rs)) <> 0).
  { apply not_0_INR. simpl. lia. }
  unfold Py.div in Hresp. rewrite Hn in Hresp.
  destruct (decide (INR (length (first :: rs)) = 0)) as [|_]; [done|].
  set (n := INR (length (first :: rs))) in *.
  set (costs := sum ((fun r : scored_route => cost r) <$> first :: rs)) in *.
  set (durations := sum ((fun r : scored_route => duration r) <$> first :: rs)) in *.
  set (alts := alternatives_loop (Py.slice_to (first :: rs) 3)) in *.
  assert (Halts : alts = alternatives_loop (take 3 (first :: rs))) by done.
  clearbody n costs durations alts.
  assert (Hmax : foldl Rmax (score first) ((fun r : scored_route => score r) <$> rs)
                 = score first).
  { apply foldl_Rmax_head. apply Forall_fmap.
    apply StronglySorted_inv in Hsorted as [_ H].
    eapply Forall_impl; [exact H|]. by intros r Hr. }
  cbn in Hresp. rewrite Hmax in Hresp. injection Hresp as <-. cbn [routes summary
    alternatives total_routes best_score average_cost average_duration].
  split; [simpl in Hlen |- *; lia|].
  split; [by rewrite Hrr, length_imap|].
  split.
  { intros i route Hi. rewrite Hrr, list_lookup_imap, Hi. done. }
  split; [done|]. split; [done|]. split; [done|].
  split.
  { intros r Hr. rewrite Hrr in Hr.
    apply elem_of_lookup_imap_1 in Hr as (i & route & -> & Hi). simpl.
    destruct i as [|i]; simpl in Hi.
    - injection Hi as <-. lra.
    - apply StronglySorted_inv in Hsorted as [_ H].
      rewrite Forall_forall in H. apply H.
      by eapply list_elem_of_lookup_2. }
  split; [field; exact Hpos|].
  split; [field; exact Hpos|].
  split.
  { rewrite Halts. etrans; [apply alternatives_loop_length|].
    rewrite length_take. lia. }
  intros alt Halt. rewrite Halts in Halt. by apply alternatives_loop_spec in Halt.
Qed.

Lemma sample_request_call :
  exists rs,
    recommender_call midway_catalog sample_request
    = (visited midway_catalog 10 10 30 10, Py.Ok rs)
    /\ rs <> [].
Proof.
  destruct (candidate_routes_ok midway_catalog "A" "B"
              settings.default_route_preferences 10 10 30 10
              find_midway_A find_midway_B) as (l & Hl).
  { apply sample_populations. by right. }
  exists (rank_and_filter l None None). split.
  - unfold recommender_call, sample_request. simpl.
    rewrite (recommend_routes_resolved midway_catalog "A" "B" _ None None
               10 10 30 10 find_midway_A find_midway_B) by lra.
    by rewrite Hl.
  - pose proof (candidate_routes_length _ _ _ _ _ _ _ _ _ _ Hl) as Hlen.
    rewrite rank_and_filter_unconstrained.
    + intros E. pose proof (sort_desc_length (fun x : scored_route => score x) l) as H.
      rewrite E in H. simpl in H. lia.
    + done.
    + lia.
Qed.

Lemma recommend_endpoint_response_witness :
  exists resp first,
    snd (ApiRoutes.recommend_routes midway_catalog sample_request) = Return resp
    /\ (1 <= length (routes resp) <= 5)%nat
    /\ routes resp !! 0%nat = Some (response_of sample_request 1 first)
    /\ best_score (summary resp) = score first.
Proof.
  destruct sample_request_call as (rs & Hcall & Hne).
  destruct (recommend_endpoint_returns _ _ _ _ Hcall Hne) as (resp & Hret & _).
  destruct (recommend_endpoint_response _ _ _ _ Hret)
    as (rs' & first & _ & Hlen & Hl & Hi & _ & H0 & Hbest & _).
  exists resp, first. rewrite Hret. split; [reflexivity|].
  split; [by rewrite Hl|]. split; [exact (Hi 0%nat first H0)|exact Hbest].
Defined.

Lemma attraction_responses_loop_eq (atts : list attraction) (acc : list Attraction) :
  attraction_responses_loop atts acc
  = acc ++ imap (fun i a => attraction_response_of (len acc + Z.of_nat i + 1) a) atts.
Proof.
  revert acc. induction atts as [|a atts IH]; intros acc; simpl.
  - by rewrite app_nil_r.
  - rewrite IH, <- app_assoc. simpl. f_equal.
    unfold attraction_response_of at 2. rewrite Z.add_0_r. f_equal.
    apply imap_ext. intros i r _. simpl. f_equal.
    unfold len. rewrite length_app. simpl. lia.
Qed.

Lemma keeps_filter {A} (P : A -> Prop) `{!forall x, Decision (P x)} (l : list A) :
  filter P l `sublist_of` l /\ forall a, a ∈ filter P l <-> a ∈ l /\ P a.
Proof.
  split; [apply sublist_filter|]. intros a. rewrite list_elem_of_filter. tauto.
Qed.

Lemma keeps_all {A} (Q : A -> Prop) (l : list A) :
  (forall a, Q a) -> l `sublist_of` l /\ forall a, a ∈ l <-> a ∈ l /\ Q a.
Proof. intros H. split; [done|]. intros a. specialize (H a). tauto. Qed.

(** X26. The handler of [GET /attractions] never raises. It returns the
    catalog attractions that pass every filter that was given, in catalog
    order and numbered from 1, and the [city_id] of an entry is this
    number too. The city and the category are compared without regard to
    case; a filter that is absent, an empty city or category and a
    minimum rating of zero filter nothing, so that a zero minimum keeps
    the attractions with a negative rating. *)
Theorem get_attractions_filters
  (recommender : t) (city category : option string) (min_rating : option R) :
  exists kept,
    get_attractions recommender city category min_rating
    = Return (imap (fun i a => attraction_response_of (Z.of_nat i + 1) a) kept)
    /\ kept `sublist_of` attractions_data recommender
    /\ (forall a, a ∈ kept <->
          a ∈ attractions_data recommender
          /\ asks city (a_city a) /\ asks category (a_category a)
          /\ asks_rating min_rating (a_rating a))
    /\ (city = None \/ city = Some ""%string ->
        category = None \/ category = Some ""%string ->
        min_rating = None \/ min_rating = Some 0 ->
        kept = attractions_data recommender).
Proof.
  unfold get_attractions.
  set (l0 := attractions_data recommender).
  set (l1 := match city with
             | Some c => if given city
                         then filter (fun att => Py.lower (a_city att) = Py.lower c) l0
                         else l0
             | None => l0
             end).
  set (l2 := match category with
             | Some c => if given category
                         then filter (fun att => Py.lower (a_category att) = Py.lower c) l1
                         else l1
             | None => l1
             end).
  set (l3 := match min_rating with
             | Some m => if Py.truthy min_rating
                         then filter (fun att => a_rating att >= m) l2
                         else l2
             | None => l2
             end).
  assert (H1 : l1 `sublist_of` l0
               /\ forall a, a ∈ l1 <-> a ∈ l0 /\ asks city (a_city a)).
  { subst l1. destruct city as [c|]; simpl; [|by apply keeps_all].
    destruct (String.eqb c "") eqn:E; simpl.
    - apply String.eqb_eq in E. apply keeps_all. by left.
    - destruct (keeps_filter (fun att => Py.lower (a_city att) = Py.lower c) l0)
        as [Hs He].
      split; [done|]. intros a. rewrite He. apply String.eqb_neq in E. tauto. }
  assert (H2 : l2 `sublist_of` l1
               /\ forall a, a ∈ l2 <-> a ∈ l1 /\ asks category (a_category a)).
  { subst l2. destruct category as [c|]; simpl; [|by apply keeps_all].
    destruct (String.eqb c "") eqn:E; simpl.
    - apply String.eqb_eq in E. apply keeps_all. by left.
    - destruct (keeps_filter (fun att => Py.lower (a_category att) = Py.lower c) l1)
        as [Hs He].
      split; [done|]. intros a. rewrite He. apply String.eqb_neq in E. tauto. }
  assert (H3 : l3 `sublist_of` l2
               /\ forall a, a ∈ l3 <-> a ∈ l2 /\ asks_rating min_rating (a_rating a)).
  { subst l3. destruct min_rating as [m|]; simpl; [|by apply keeps_all].
    destruct (decide (m = 0)) as [E|E].
    - apply keeps_all. by left.
    - destruct (keeps_filter (fun att => a_rating att >= m) l2) as [Hs He].
      split; [done|]. intros a. rewrite He. split.
      + intros [? ?]. split; [done|]. right. lra.
      + intros [? [?|?]]; [done|]. split; [done|lra]. }
  exists l3. cbn [except_500 mret outcome_ret].
  rewrite attraction_responses_loop_eq. simpl.
  split; [done|].
  split; [by etrans; [apply H3|etrans; [apply H2|apply H1]]|].
  split.
  { intros a. rewrite (proj2 H3), (proj2 H2), (proj2 H1). tauto. }
  intros Hc Hk Hm.
  assert (E1 : l1 = l0) by (subst l1; by destruct Hc as [->| ->]).
  assert (E2 : l2 = l1) by (subst l2; by destruct Hk as [->| ->]).
  assert (E3 : l3 = l2).
  { subst l3. destruct Hm as [->| ->]; [done|]. simpl.
    by destruct (decide (0 = 0)). }
  by rewrite E3, E2, E1.
Qed.

End ApiRoutesSpec.

(** ** The route details of [app/api/chat.py] *)

Module ApiChatSpec.
Import RouteRecommender PyFacts RouteRecommenderSpec ApiChat.

Lemma sort_desc_const {A} (key : A -> R) (k : R) (l : list A) :
  Forall (fun x => key x = k) l -> Py.sort_desc key l = l.
Proof.
  unfold Py.sort_desc. induction 1 as [|x l Hx Hl IH]; simpl; [done|].
  rewrite IH. destruct Hl as [|y l Hy _]; simpl; [done|].
  destruct (decide (key y <= key x)) as [|Hn]; [done|]. lra.
Qed.

Lemma routes_with_stops_empty
  (self : t) (origin destination : string) (l : list city) (a b c d : R) :
  find_city_coordinates (cities_data self) origin = (Some a, Some b) ->
  find_city_coordinates (cities_data self) destination = (Some c, Some d) ->
  exists rs,
    routes_with_stops self origin destination l ∅ = Py.Ok rs
    /\ Forall (fun r : scored_route => score r = 0) rs
    /\ length rs = length l.
Proof.
  intros Ho Hd. induction l as [|x l (rs & IH & Hs & Hl)]; simpl.
  - exists []. by repeat split.
  - unfold _create_route_with_stops. rewrite Ho, Hd.
    rewrite get_route_score_empty. simpl. rewrite IH. simpl.
    eexists. split; [done|]. split; [|by simpl; rewrite Hl].
    by constructor.
Qed.

Lemma candidate_routes_empty
  (self : t) (origin destination : string) (a b c d : R) :
  find_city_coordinates (cities_data self) origin = (Some a, Some b) ->
  find_city_coordinates (cities_data self) destination = (Some c, Some d) ->
  exists rs,
    candidate_routes self origin destination ∅ a b c d
    = (visited self a b c d,
       Py.Ok (direct_candidate origin destination (calculate_distance a b c d) 0 :: rs))
    /\ Forall (fun r : scored_route => score r = 0) rs
    /\ (length rs <= 3)%nat.
Proof.
  intros Ho Hd. unfold candidate_routes.
  rewrite get_route_score_empty, find_intermediate_cities_eq.
  destruct (routes_with_stops_empty (visited self a b c d) origin destination
              (take 3 (waypoints a b c d (cities_data self))) a b c d)
    as (rs & Hrs & Hs & Hl).
  { by rewrite find_city_coordinates_visited. }
  { by rewrite find_city_coordinates_visited. }
  exists rs. simpl. rewrite Hrs. simpl.
  split; [done|]. split; [done|].
  rewrite Hl, length_take. lia.
Qed.

Lemma recommend_routes_empty_preferences
  (self : t) (origin destination : string) (a b c d : R) :
  find_city_coordinates (cities_data self) origin = (Some a, Some b) ->
  find_city_coordinates (cities_data self) destination = (Some c, Some d) ->
  a <> 0 -> b <> 0 -> c <> 0 -> d <> 0 ->
  exists rs,
    RouteRecommender.recommend_routes self origin destination ∅ None None
    = (visited self a b c d,
       Py.Ok (direct_candidate origin destination (calculate_distance a b c d) 0 :: rs))
    /\ Forall (fun r : scored_route => score r = 0) rs.
Proof.
  intros Ho Hd Ha Hb Hc Hdn.
  destruct (candidate_routes_empty self origin destination a b c d Ho Hd)
    as (rs & Hrs & Hs & Hl).
  exists rs. split; [|done].
  rewrite (recommend_routes_resolved self origin destination ∅ None None a b c d)
    by done.
  rewrite Hrs. simpl. do 2 f_equal.
  rewrite rank_and_filter_unconstrained.
  - apply (sort_desc_const _ 0). by constructor.
  - by intros r _.
  - simpl. lia.
Qed.

(** X27. [generate_route_details] returns [None], without calling the
    recommender, when the origin or the destination is absent or empty,
    and [None] again when the recommender raises. When both names are
    given and one of them is not in the catalog, it returns the
    dictionary with the key ['error'], whose text is Persian for the
    language ["fa"] and English for every other language, and the catalog
    is left as it was. Whatever details it returns carry the route type
    ["standard"] and describe the first route of the recommender. *)
Theorem route_details_answers
  (recommender : t) (route_info : route_info) (language : string) :
  let out := generate_route_details recommender route_info language in
  (missing (ri_origin route_info) \/ missing (ri_destination route_info) ->
   out = (recommender, None))
  /\ (forall origin destination,
        ri_origin route_info = Some origin ->
        ri_destination route_info = Some destination ->
        origin <> ""%string -> destination <> ""%string ->
        (forall e,
           snd (RouteRecommender.recommend_routes recommender origin destination
                  (default ∅ (ri_preferences route_info))
                  (ri_budget route_info) (ri_duration_days route_info))
           = Py.Raise e ->
           snd out = None)
        /\ (unresolved (cities_data recommender) origin
            \/ unresolved (cities_data recommender) destination ->
            out = (recommender,
                   Some (inl {| e_origin := origin; e_destination := destination;
                                error := if decide (language = "fa"%string)
                                         then "مسیر یافت نشد"%string
                                         else "Route not found"%string |})))
        /\ (forall det, snd out = Some (inr det) ->
              route_type det = "standard"%string
              /\ exists (best : scored_route) rest,
                   snd (RouteRecommender.recommend_routes recommender origin destination
                          (default ∅ (ri_preferences route_info))
                          (ri_budget route_info) (ri_duration_days route_info))
                   = Py.Ok (best :: rest)
                   /\ d_distance det = distance best /\ d_duration det = duration best
                   /\ d_cost det = cost best /\ d_score det = score best
                   /\ d_intermediate_city det = intermediate_city best
                   /\ attractions_count det = Z.of_nat (length (attractions best)))).
Proof.
  simpl. unfold generate_route_details. split.
  - unfold missing. intros [[->| ->]|[->| ->]]; simpl; try done.
    + by destruct (ri_destination route_info).
    + by destruct (ri_origin route_info).
    + destruct (ri_origin route_info); [|done]. by rewrite orb_true_r.
  - intros origin destination -> -> Ho Hd.
    apply String.eqb_neq in Ho, Hd. simpl. rewrite Ho, Hd. simpl.
    split; [|split].
    + intros e.
      destruct (RouteRecommender.recommend_routes _ _ _ _ _ _) as [s r]. simpl.
      by intros ->.
    + intros H.
      assert (E : RouteRecommender.recommend_routes recommender origin destination
                    (default ∅ (ri_preferences route_info))
                    (ri_budget route_info) (ri_duration_days route_info)
                  = (recommender, Py.Ok [])).
      { unfold RouteRecommender.recommend_routes.
        destruct H as [H|H]; rewrite (find_city_coordinates_unresolved _ _ H).
        - by destruct (find_city_coordinates _ destination).
        - destruct (find_city_coordinates _ origin) as [[a|] [b|]];
            simpl; try done; by rewrite ?andb_false_r. }
      rewrite E. do 4 f_equal.
      destruct (decide (language = "fa"%string)) as [->|Hl]; [done|].
      apply String.eqb_neq in Hl. by rewrite Hl.
    + intros det.
      destruct (RouteRecommender.recommend_routes _ _ _ _ _ _) as [s [[|best rest]|e]];
        simpl; try done.
      intros [= <-]. simpl. split; [done|]. by exists best, rest.
Qed.

(** X28. Without preferences (the key is absent or holds the empty
    dictionary), without a budget and without a duration,
    [generate_route_details] describes the direct route whenever both
    names resolve to coordinates none of which is zero: every candidate
    scores 0, the stable sort keeps the direct route first, and the
    details carry the direct distance, the duration and the cost computed
    from it, the score 0, no intermediate city and no attraction,
    whatever waypoints the catalog offers. *)
Theorem route_details_without_preferences
  (recommender : t) (route_info : route_info) (language : string)
  (origin destination : string) (a b c d : R) :
  ri_origin route_info = Some origin ->
  ri_destination route_info = Some destination ->
  ri_preferences route_info = None \/ ri_preferences route_info = Some ∅ ->
  ri_budget route_info = None ->
  ri_duration_days route_info = None ->
  find_city_coordinates (cities_data recommender) origin = (Some a, Some b) ->
  find_city_coordinates (cities_data recommender) destination = (Some c, Some d) ->
  a <> 0 -> b <> 0 -> c <> 0 -> d <> 0 ->
  origin <> ""%string -> destination <> ""%string ->
  exists det,
    generate_route_details recommender route_info language
    = (visited recommender a b c d, Some (inr det))
    /\ d_distance det = calculate_distance a b c d
    /\ d_duration det = calculate_distance a b c d / 80
    /\ d_cost det = calculate_distance a b c d * 0.5
    /\ d_score det = 0
    /\ d_intermediate_city det = None
    /\ attractions_count det = 0%Z.
Proof.
  intros Eo Ed Ep Eb Edur Ho Hd Ha Hb Hc Hdn Hno Hnd.
  unfold generate_route_details. rewrite Eo, Ed, Eb, Edur.
  apply String.eqb_neq in Hno, Hnd. simpl. rewrite Hno, Hnd. simpl.
  assert (Epref : default ∅ (ri_preferences route_info) = ∅)
    by (by destruct Ep as [->| ->]).
  rewrite Epref.
  destruct (recommend_routes_empty_preferences recommender origin destination
              a b c d Ho Hd Ha Hb Hc Hdn) as (rs & -> & _).
  eexists. split; [reflexivity|]. simpl. by repeat split.
Qed.

Lemma route_details_without_preferences_witness :
  exists det,
    generate_route_details midway_catalog sample_info "en"
    = (visited midway_catalog 10 10 30 10, Some (inr det))
    /\ d_score det = 0 /\ d_intermediate_city det = None.
Proof.
  destruct (route_details_without_preferences midway_catalog sample_info "en"
              "A" "B" 10 10 30 10) as (det & H & _ & _ & _ & Hs & Hi & _);
    try reflexivity; try lra; try done.
  - by left.
  - exists det. by repeat split.
Defined.

End ApiChatSpec.
